(** * LF2: the queue worker that mails restaurant suggestions

    A shallow embedding of [src/lambda_functions/LF2.py].  Python values are
    an inductive type, exceptions are an error result, and the four AWS
    collaborators (SQS, OpenSearch, DynamoDB, SES) are oracles whose calls are
    recorded in an event log that is threaded through the effectful code.

    Conventions.
    - Text is [string], read as ASCII text.
    - JSON numbers are integers ([Z]); floating point numbers are outside
      the embedding.
    - [Raise e] stands for a Python exception of class [e] leaving the
      function.
    - [logging] and [print] calls change nothing the worker reads back, and
      are left out. *)

From Stdlib Require Import ZArith List String Ascii Bool Lia.
From Stdlib Require Import Numbers.DecimalString.
Import ListNotations.

Set Warnings "-register-all".

(* ================================================================== *)
(** ** Python values, exceptions, results *)
(* ================================================================== *)

Module Py.

Open Scope string_scope.

(** Values that reach the worker: what [json.loads] produces, plus
    dictionaries keyed by arbitrary hashable values. *)
Inductive value : Type :=
| VNone
| VBool (b : bool)
| VInt (z : Z)
| VStr (s : string)
| VList (l : list value)
| VDict (kv : list (value * value)).

(** Exception classes the worker distinguishes.  [ClientError] is botocore's
    service-side error, with the parsed error response it carries as
    [e.response]; [TransportError] stands for every other [Exception]
    subclass a client may raise (connection, validation, decoding). *)
Inductive exn : Type :=
| AttributeError
| TypeError
| KeyError
| ValueError
| RuntimeError (msg : string)
| ClientError (response : value)
| TransportError.

Inductive result (A : Type) : Type :=
| Ok (a : A)
| Raise (e : exn).

Arguments Ok {A} a.
Arguments Raise {A} e.

Definition rbind {A B} (r : result A) (k : A -> result B) : result B :=
  match r with
  | Ok a => k a
  | Raise e => Raise e
  end.

(** *** Truthiness and [or] *)

Definition truthy (v : value) : bool :=
  match v with
  | VNone => false
  | VBool b => b
  | VInt z => negb (Z.eqb z 0)
  | VStr s => negb (String.eqb s "")
  | VList l => match l with [] => false | _ => true end
  | VDict kv => match kv with [] => false | _ => true end
  end.

(** [a or b] *)
Definition por (a b : value) : value := if truthy a then a else b.

(** *** Characters and strings *)

Definition code (c : ascii) : nat := nat_of_ascii c.

(** [str.isspace] on ASCII: TAB, LF, VT, FF, CR, FS, GS, RS, US and space. *)
Definition is_space (c : ascii) : bool :=
  let n := code c in
  ((9 <=? n) && (n <=? 13) || (28 <=? n) && (n <=? 32))%nat.

Definition is_upper (c : ascii) : bool :=
  let n := code c in ((65 <=? n) && (n <=? 90))%nat.

Definition is_lower (c : ascii) : bool :=
  let n := code c in ((97 <=? n) && (n <=? 122))%nat.

Definition to_lower (c : ascii) : ascii :=
  if is_upper c then ascii_of_nat (code c + 32) else c.

Definition to_upper (c : ascii) : ascii :=
  if is_lower c then ascii_of_nat (code c - 32) else c.

Fixpoint lstrip (s : string) : string :=
  match s with
  | String c s' => if is_space c then lstrip s' else s
  | EmptyString => EmptyString
  end.

(** Right strip: a character is kept when something non-blank follows it
    or it is itself non-blank. *)
Fixpoint rstrip (s : string) : string :=
  match s with
  | EmptyString => EmptyString
  | String c s' =>
      match rstrip s' with
      | EmptyString => if is_space c then EmptyString else String c EmptyString
      | t => String c t
      end
  end.

(** [s.strip()] *)
Definition strip (s : string) : string := rstrip (lstrip s).

(** [s.lower()] *)
Fixpoint lower (s : string) : string :=
  match s with
  | EmptyString => EmptyString
  | String c s' => String (to_lower c) (lower s')
  end.

(** [s.title()]: CPython walks the characters remembering whether the
    previous one was cased; a cased character is upper-cased at the start of
    a run of letters and lower-cased inside it. *)
Fixpoint title_from (previous_is_cased : bool) (s : string) : string :=
  match s with
  | EmptyString => EmptyString
  | String c s' =>
      if is_lower c then
        String (if previous_is_cased then c else to_upper c) (title_from true s')
      else if is_upper c then
        String (if previous_is_cased then to_lower c else c) (title_from true s')
      else String c (title_from false s')
  end.

Definition title (s : string) : string := title_from false s.

(** [sep.join(parts)] *)
Fixpoint join (sep : string) (parts : list string) : string :=
  match parts with
  | [] => ""
  | [p] => p
  | p :: rest => p ++ sep ++ join sep rest
  end.

Definition newline : string := String (ascii_of_nat 10) EmptyString.

(** [str(n)] for an integer. *)
Definition str_of_Z (z : Z) : string := NilZero.string_of_int (Z.to_int z).

(** *** [repr] and [str] *)

Definition squote : ascii := ascii_of_nat 39.
Definition dquote : ascii := ascii_of_nat 34.
Definition backslash : ascii := ascii_of_nat 92.

Fixpoint mem_char (c : ascii) (s : string) : bool :=
  match s with
  | EmptyString => false
  | String d s' => Ascii.eqb c d || mem_char c s'
  end.

Definition hex_digit (n : nat) : ascii :=
  if (n <? 10)%nat then ascii_of_nat (48 + n) else ascii_of_nat (87 + n).

(** One character inside a [repr] delimited by [q]. *)
Definition repr_char (q c : ascii) : string :=
  let n := code c in
  if Ascii.eqb c backslash then String backslash (String backslash EmptyString)
  else if Ascii.eqb c q then String backslash (String q EmptyString)
  else if (n =? 10)%nat then String backslash "n"
  else if (n =? 13)%nat then String backslash "r"
  else if (n =? 9)%nat then String backslash "t"
  else if ((n <? 32) || (n =? 127))%nat then
    String backslash (String "x" (String (hex_digit (n / 16)) (String (hex_digit (n mod 16)) EmptyString)))
  else String c EmptyString.

Fixpoint repr_chars (q : ascii) (s : string) : string :=
  match s with
  | EmptyString => EmptyString
  | String c s' => repr_char q c ++ repr_chars q s'
  end.

(** [repr(s)]: single quotes unless the text has a single quote and no
    double quote. *)
Definition repr_str (s : string) : string :=
  let q := if mem_char squote s && negb (mem_char dquote s) then dquote else squote in
  String q (repr_chars q s ++ String q EmptyString).

Fixpoint repr (v : value) : string :=
  match v with
  | VNone => "None"
  | VBool true => "True"
  | VBool false => "False"
  | VInt z => str_of_Z z
  | VStr s => repr_str s
  | VList l => "[" ++ join ", " (map repr l) ++ "]"
  | VDict kv =>
      "{" ++ join ", " (map (fun p => repr (fst p) ++ ": " ++ repr (snd p)) kv) ++ "}"
  end.

(** [str(v)], which is what an f-string field renders. *)
Definition str (v : value) : string :=
  match v with
  | VStr s => s
  | _ => repr v
  end.

(** *** Dictionaries *)

Definition hashable (v : value) : bool :=
  match v with
  | VList _ | VDict _ => false
  | _ => true
  end.

(** [==] on hashable values: [True == 1] and [False == 0]. *)
Definition key_eqb (a b : value) : bool :=
  match a, b with
  | VNone, VNone => true
  | VStr s, VStr t => String.eqb s t
  | VInt x, VInt y => Z.eqb x y
  | VBool x, VBool y => Bool.eqb x y
  | VBool x, VInt y => Z.eqb (Z.b2z x) y
  | VInt x, VBool y => Z.eqb x (Z.b2z y)
  | _, _ => false
  end.

Fixpoint lookup (k : value) (kv : list (value * value)) : option value :=
  match kv with
  | [] => None
  | (k', v) :: rest => if key_eqb k k' then Some v else lookup k rest
  end.

(** [d[k] = v] on the association list: an existing key keeps its place and
    its first spelling, a new key goes to the end. *)
Fixpoint store (k v : value) (kv : list (value * value)) : list (value * value) :=
  match kv with
  | [] => [(k, v)]
  | (k', v') :: rest =>
      if key_eqb k k' then (k', v) :: rest else (k', v') :: store k v rest
  end.

(** [d.get(k, default)] with a string key. *)
Definition get (d : value) (k : string) (default : value) : result value :=
  match d with
  | VDict kv =>
      match lookup (VStr k) kv with
      | Some v => Ok v
      | None => Ok default
      end
  | _ => Raise AttributeError
  end.

(** [d[k]] with a string key. *)
Definition getitem (d : value) (k : string) : result value :=
  match d with
  | VDict kv =>
      match lookup (VStr k) kv with
      | Some v => Ok v
      | None => Raise KeyError
      end
  | _ => Raise TypeError
  end.

(** [for x in v] *)
Fixpoint chars (s : string) : list value :=
  match s with
  | EmptyString => []
  | String c s' => VStr (String c EmptyString) :: chars s'
  end.

Definition iter (v : value) : result (list value) :=
  match v with
  | VList l => Ok l
  | VDict kv => Ok (map fst kv)
  | VStr s => Ok (chars s)
  | _ => Raise TypeError
  end.

(** A method of [str] called on a value: [AttributeError] on anything else. *)
Definition str_method (f : string -> string) (v : value) : result string :=
  match v with
  | VStr s => Ok (f s)
  | _ => Raise AttributeError
  end.

(** [list(dict.fromkeys(xs))]: the keys in first-occurrence order;
    [TypeError] on an unhashable element. *)
Fixpoint fromkeys_acc (seen : list value) (xs : list value) : result (list value) :=
  match xs with
  | [] => Ok seen
  | x :: rest =>
      if negb (hashable x) then Raise TypeError
      else if existsb (key_eqb x) seen then fromkeys_acc seen rest
      else fromkeys_acc (seen ++ [x]) rest
  end.

Definition fromkeys (xs : list value) : result (list value) := fromkeys_acc [] xs.

(** [xs[:n]] *)
Definition slice_to {A} (n : Z) (xs : list A) : list A :=
  if (0 <=? n)%Z then firstn (Z.to_nat n) xs
  else firstn (List.length xs - Z.to_nat (- n)) xs.

End Py.

(* ================================================================== *)
(** ** [datetime.strptime] and [strftime] for the two formats used *)
(* ================================================================== *)

Module Clock.

Import Py.
Open Scope string_scope.
Open Scope Z_scope.

Definition is_digit (c : ascii) : bool :=
  let n := code c in ((48 <=? n) && (n <=? 57))%nat.

Definition digit (c : ascii) : Z := Z.of_nat (code c) - 48.

Definition in_range (lo hi : Z) (c : ascii) : bool :=
  is_digit c && (lo <=? digit c) && (digit c <=? hi).

(** A directive of the format is a regular expression with ordered
    alternatives; a matcher lists, in the order the regex engine tries them,
    every way to read a prefix of the text: the number read and the rest. *)
Definition matcher : Type := string -> list (Z * string).

(** Two characters: the first in [[a..b]], the second in [[c..d]]. *)
Definition two (a b c d : Z) : matcher := fun s =>
  match s with
  | String x (String y rest) =>
      if in_range a b x && in_range c d y then [(10 * digit x + digit y, rest)] else []
  | _ => []
  end.

(** One character in [[a..b]]. *)
Definition one (a b : Z) : matcher := fun s =>
  match s with
  | String x rest => if in_range a b x then [(digit x, rest)] else []
  | _ => []
  end.

(** A blank followed by one character in [[a..b]]. *)
Definition blank_one (a b : Z) : matcher := fun s =>
  match s with
  | String x (String y rest) =>
      if Ascii.eqb x " "%char && in_range a b y then [(digit y, rest)] else []
  | _ => []
  end.

Definition alt (m1 m2 : matcher) : matcher := fun s => (m1 s ++ m2 s)%list.

(** [%Y]: [\d\d\d\d] *)
Definition dir_Y : matcher := fun s =>
  match s with
  | String a (String b (String c (String d rest))) =>
      if is_digit a && is_digit b && is_digit c && is_digit d
      then [(1000 * digit a + 100 * digit b + 10 * digit c + digit d, rest)]
      else []
  | _ => []
  end.

(** [%m]: [1[0-2]|0[1-9]|[1-9]] *)
Definition dir_m : matcher := alt (two 1 1 0 2) (alt (two 0 0 1 9) (one 1 9)).

(** [%d]: [3[0-1]|[1-2]\d|0[1-9]|[1-9]| [1-9]] *)
Definition dir_d : matcher :=
  alt (two 3 3 0 1) (alt (two 1 2 0 9) (alt (two 0 0 1 9) (alt (one 1 9) (blank_one 1 9)))).

(** [%H]: [2[0-3]|[0-1]\d|\d] *)
Definition dir_H : matcher := alt (two 2 2 0 3) (alt (two 0 1 0 9) (one 0 9)).

(** [%M]: [[0-5]\d|\d] *)
Definition dir_M : matcher := alt (two 0 5 0 9) (one 0 9).

(** A literal character of the format. *)
Definition lit (c : ascii) (s : string) : list string :=
  match s with
  | String x rest => if Ascii.eqb x c then [rest] else []
  | _ => []
  end.

(** [date.__new__] validation and [toordinal], as in CPython's datetime. *)
Definition is_leap (y : Z) : bool :=
  (y mod 4 =? 0) && (negb (y mod 100 =? 0) || (y mod 400 =? 0)).

Definition days_in_month (y m : Z) : Z :=
  if m =? 2 then (if is_leap y then 29 else 28)
  else if (m =? 4) || (m =? 6) || (m =? 9) || (m =? 11) then 30
  else 31.

Definition valid_date (y m d : Z) : bool :=
  (1 <=? y) && (y <=? 9999) && (1 <=? m) && (m <=? 12) &&
  (1 <=? d) && (d <=? days_in_month y m).

Definition days_before_year (y : Z) : Z :=
  let p := y - 1 in p * 365 + p / 4 - p / 100 + p / 400.

Definition days_before_month (y m : Z) : Z :=
  nth (Z.to_nat m) [0; 0; 31; 59; 90; 120; 151; 181; 212; 243; 273; 304; 334] 0
  + (if (2 <? m) && is_leap y then 1 else 0).

Definition toordinal (y m d : Z) : Z :=
  days_before_year y + days_before_month y m + d.

(** Monday is 0. *)
Definition weekday (y m d : Z) : Z := (toordinal y m d + 6) mod 7.

Record date : Type := { year : Z; month : Z; day : Z }.
Record time : Type := { hour : Z; minute : Z }.

(** [datetime.strptime(s, "%Y-%m-%d")]: the first match of the regular
    expression in the engine's order; [None] is [ValueError] (no match, text
    left over after the match, or no such calendar day). *)
Definition strptime_date (s : string) : option date :=
  let found :=
    flat_map (fun '(y, s1) =>
    flat_map (fun s2 =>
    flat_map (fun '(m, s3) =>
    flat_map (fun s4 =>
    map (fun '(d, s5) => (y, m, d, s5)) (dir_d s4))
      (lit "-" s3)) (dir_m s2)) (lit "-" s1)) (dir_Y s) in
  match found with
  | (y, m, d, EmptyString) :: _ =>
      if valid_date y m d then Some {| year := y; month := m; day := d |} else None
  | _ => None
  end.

(** [datetime.strptime(s, "%H:%M")] *)
Definition strptime_time (s : string) : option time :=
  let found :=
    flat_map (fun '(h, s1) =>
    flat_map (fun s2 =>
    map (fun '(mi, s3) => (h, mi, s3)) (dir_M s2))
      (lit ":" s1)) (dir_H s) in
  match found with
  | (h, mi, EmptyString) :: _ => Some {| hour := h; minute := mi |}
  | _ => None
  end.

Definition day_name (w : Z) : string :=
  nth (Z.to_nat w)
    ["Monday"; "Tuesday"; "Wednesday"; "Thursday"; "Friday"; "Saturday"; "Sunday"] "".

Definition month_name (m : Z) : string :=
  nth (Z.to_nat m)
    [""; "January"; "February"; "March"; "April"; "May"; "June"; "July";
     "August"; "September"; "October"; "November"; "December"] "".

(** [d.strftime("%A, %B %-d, %Y")]; the year is printed as the C library
    prints it, without padding. *)
Definition strftime_date (d : date) : string :=
  day_name (weekday (year d) (month d) (day d)) ++ ", " ++
  month_name (month d) ++ " " ++ str_of_Z (day d) ++ ", " ++ str_of_Z (year d).

(** [t.strftime("%-I %p").lower()] *)
Definition strftime_time (t : time) : string :=
  let h12 := if hour t mod 12 =? 0 then 12 else hour t mod 12 in
  str_of_Z h12 ++ " " ++ (if hour t <? 12 then "am" else "pm").

End Clock.
(* ================================================================== *)
(** ** A JSON decoder for the integer fragment *)
(* ================================================================== *)

(** [json.loads] is a parameter of the worker below.  This decoder is the
    instance used to run the worker on concrete message bodies: objects,
    arrays, strings with the short escapes, integers, [true], [false] and
    [null].  Numbers with a fraction or an exponent and [\u] escapes are not
    part of the embedding and are not decoded. *)
Module Json.

Import Py.
Open Scope string_scope.

Definition is_ws (c : ascii) : bool :=
  let n := code c in ((n =? 32) || (n =? 9) || (n =? 10) || (n =? 13))%nat.

Fixpoint skip_ws (s : string) : string :=
  match s with
  | String c rest => if is_ws c then skip_ws rest else s
  | EmptyString => EmptyString
  end.

Definition unescape (c : ascii) : option ascii :=
  let n := code c in
  if (n =? 34)%nat then Some c            (* quote *)
  else if (n =? 92)%nat then Some c       (* backslash *)
  else if (n =? 47)%nat then Some c       (* slash *)
  else if (n =? 110)%nat then Some (ascii_of_nat 10)
  else if (n =? 116)%nat then Some (ascii_of_nat 9)
  else if (n =? 114)%nat then Some (ascii_of_nat 13)
  else if (n =? 98)%nat then Some (ascii_of_nat 8)
  else if (n =? 102)%nat then Some (ascii_of_nat 12)
  else None.

(** The text after an opening quote, up to the closing one. *)
Fixpoint string_body (s : string) : option (string * string) :=
  match s with
  | EmptyString => None
  | String c rest =>
      if Ascii.eqb c dquote then Some (EmptyString, rest)
      else if Ascii.eqb c backslash then
        match rest with
        | String e rest' =>
            match unescape e, string_body rest' with
            | Some ch, Some (t, r) => Some (String ch t, r)
            | _, _ => None
            end
        | EmptyString => None
        end
      else if (code c <? 32)%nat then None
      else
        match string_body rest with
        | Some (t, r) => Some (String c t, r)
        | None => None
        end
  end.

Fixpoint digits (acc : Z) (s : string) : Z * string :=
  match s with
  | String c rest =>
      if Clock.is_digit c then digits (10 * acc + Clock.digit c)%Z rest else (acc, s)
  | EmptyString => (acc, s)
  end.

(** [0|[1-9][0-9]*]; a fraction or exponent after it is refused. *)
Definition natural (s : string) : option (Z * string) :=
  match s with
  | String c rest =>
      if Clock.is_digit c then
        let '(n, r) := if Ascii.eqb c "0"%char then (0%Z, rest) else digits 0 s in
        match r with
        | String d _ =>
            if Ascii.eqb d "."%char || Ascii.eqb d "e"%char || Ascii.eqb d "E"%char
            then None else Some (n, r)
        | EmptyString => Some (n, r)
        end
      else None
  | EmptyString => None
  end.

Fixpoint drop_prefix (p s : string) : option string :=
  match p, s with
  | EmptyString, _ => Some s
  | String a p', String b s' => if Ascii.eqb a b then drop_prefix p' s' else None
  | _, _ => None
  end.

(** [fuel] bounds the number of nested and successive items. *)
Fixpoint element (fuel : nat) (s : string) : option (value * string) :=
  match fuel with
  | O => None
  | S fuel' =>
      match skip_ws s with
      | String c rest =>
          if Ascii.eqb c dquote then
            match string_body rest with
            | Some (t, r) => Some (VStr t, r)
            | None => None
            end
          else if Ascii.eqb c "["%char then
            match skip_ws rest with
            | String "]"%char r => Some (VList [], r)
            | _ =>
                match elements fuel' rest with
                | Some (l, r) => Some (VList l, r)
                | None => None
                end
            end
          else if Ascii.eqb c "{"%char then
            match skip_ws rest with
            | String "}"%char r => Some (VDict [], r)
            | _ =>
                match members fuel' [] rest with
                | Some (kv, r) => Some (VDict kv, r)
                | None => None
                end
            end
          else if Ascii.eqb c "-"%char then
            match natural rest with
            | Some (n, r) => Some (VInt (- n), r)
            | None => None
            end
          else if Clock.is_digit c then
            match natural (String c rest) with
            | Some (n, r) => Some (VInt n, r)
            | None => None
            end
          else
            match drop_prefix "null" (String c rest),
                  drop_prefix "true" (String c rest),
                  drop_prefix "false" (String c rest) with
            | Some r, _, _ => Some (VNone, r)
            | _, Some r, _ => Some (VBool true, r)
            | _, _, Some r => Some (VBool false, r)
            | _, _, _ => None
            end
      | EmptyString => None
      end
  end

with elements (fuel : nat) (s : string) : option (list value * string) :=
  match fuel with
  | O => None
  | S fuel' =>
      match element fuel' s with
      | Some (v, r) =>
          match skip_ws r with
          | String "]"%char r' => Some ([v], r')
          | String ","%char r' =>
              match elements fuel' r' with
              | Some (l, r2) => Some (v :: l, r2)
              | None => None
              end
          | _ => None
          end
      | None => None
      end
  end

with members (fuel : nat) (acc : list (value * value)) (s : string)
  : option (list (value * value) * string) :=
  match fuel with
  | O => None
  | S fuel' =>
      match skip_ws s with
      | String c rest =>
          if Ascii.eqb c dquote then
            match string_body rest with
            | Some (k, r) =>
                match skip_ws r with
                | String ":"%char r1 =>
                    match element fuel' r1 with
                    | Some (v, r2) =>
                        let acc' := store (VStr k) v acc in
                        match skip_ws r2 with
                        | String "}"%char r3 => Some (acc', r3)
                        | String ","%char r3 => members fuel' acc' r3
                        | _ => None
                        end
                    | None => None
                    end
                | _ => None
                end
            | None => None
            end
          else None
      | EmptyString => None
      end
  end.

(** The whole text must be one value, blanks around it allowed. *)
Definition loads (s : string) : option value :=
  match element (2 * String.length s + 2) s with
  | Some (v, r) =>
      match skip_ws r with
      | EmptyString => Some v
      | _ => None
      end
  | None => None
  end.

(** A text between double quotes, to write message bodies with. *)
Definition quoted (s : string) : string :=
  String dquote (s ++ String dquote EmptyString).

End Json.

(* ================================================================== *)
(** ** The worker *)
(* ================================================================== *)

Module LF2.

Import Py Clock.
Open Scope string_scope.

(** An SQS message as boto3 hands it over: [Body] may be absent. *)
Record message : Type := {
  Body : option string;
  ReceiptHandle : string
}.

(** Calls to the outside world, in the order they are made. *)
Inductive event : Type :=
| HttpRequest (method url : string) (body : value)
| BatchGetItem (table : string) (keys : list value)
| SendEmail (source to_addr subject text : string)
| ReceiveMessage (queue : string) (max_number visibility wait : Z)
| DeleteMessage (queue : string) (receipt_handle : string).

Definition log : Type := list event.

(** The module-level configuration (lines 14-20) and the clients
    (lines 22-27).  Every client answers as a function of the calls made so
    far, so two equal requests may be answered differently.  [json_loads] is
    the standard library's decoder: [None] is [JSONDecodeError]. *)
Record services : Type := {
  QUEUE_URL : string;
  DDB_TABLE : string;
  OS_ENDPOINT : string;
  OS_INDEX : string;
  SES_FROM : string;
  NUM_RESULTS : Z;
  json_loads : string -> option value;
  http_request : log -> string -> string -> value -> result (Z * string);
  batch_get_item : log -> string -> list value -> result value;
  ses_send_email : log -> string -> string -> string -> string -> result value;
  receive_message : log -> string -> result (option (list message));
  delete_message : log -> string -> string -> result unit
}.

(** *** State and exceptions *)

Definition M (A : Type) : Type := log -> result A * log.

Definition ret {A} (a : A) : M A := fun w => (Ok a, w).

Definition bind {A B} (m : M A) (k : A -> M B) : M B := fun w =>
  match m w with
  | (Ok a, w') => k a w'
  | (Raise e, w') => (Raise e, w')
  end.

(** A pure computation that may raise. *)
Definition lift {A} (r : result A) : M A := fun w => (r, w).

(** A call to a client: it is answered from the log so far, then logged. *)
Definition call {A} (ev : event) (answer : log -> result A) : M A :=
  fun w => (answer w, (w ++ [ev])%list).

(** [try: x = m  except Exception as e: h e  else: k x] *)
Definition try_except {A B} (m : M A) (h : exn -> M B) (k : A -> M B) : M B := fun w =>
  match m w with
  | (Ok a, w') => k a w'
  | (Raise e, w') => h e w'
  end.

Declare Scope py_scope.
Delimit Scope py_scope with py.
Notation "x <- m ;; k" := (bind m (fun x => k))
  (at level 61, m at next level, right associativity) : py_scope.
Notation "'let?' x := r 'in' k" := (rbind r (fun x => k))
  (at level 61, x name, r at next level, right associativity) : py_scope.
Open Scope py_scope.

Section Worker.

Variable svc : services.

(** *** Lines 29-43 *)

(** The only caller passes no [params], so the URL is the endpoint followed
    by the path.  Headers and the SigV4 signature are not observable here. *)
Definition os_signed_request (method path : string) (body : value) : M value :=
  let url := OS_ENDPOINT svc ++ path in
  r <- call (HttpRequest method url body) (fun w => http_request svc w method url body) ;;
  let '(status, data) := r in
  if negb ((status =? 200)%Z || (status =? 201)%Z) then
    lift (Raise (RuntimeError ("OpenSearch " ++ str_of_Z status ++ ": " ++ data)))
  else
    match json_loads svc data with
    | Some v => ret v
    | None => lift (Raise ValueError)
    end.

(** *** Lines 45-64 *)

Definition search_query (cuisine : string) (size : Z) : value :=
  VDict [
    (VStr "size", VInt size);
    (VStr "query", VDict [
      (VStr "function_score", VDict [
        (VStr "query", VDict [(VStr "term", VDict [(VStr "cuisine", VStr cuisine)])]);
        (VStr "random_score", VDict [])])])].

(** The loop of lines 59-63, [ids] being the list built so far. *)
Fixpoint collect_ids (hits : list value) (ids : list value) : result (list value) :=
  match hits with
  | [] => Ok ids
  | h :: rest =>
      let? src0 := get h "_source" VNone in
      let src := por src0 (VDict []) in
      let? rid0 := get src "restaurant_id" VNone in
      let? rid := (if truthy rid0 then Ok rid0 else get h "_id" VNone) in
      collect_ids rest (if truthy rid then (ids ++ [rid])%list else ids)
  end.

Definition os_random_ids_by_cuisine (cuisine : string) (size : Z) : M (list value) :=
  let q := search_query cuisine size in
  res <- os_signed_request "POST" ("/" ++ OS_INDEX svc ++ "/_search") q ;;
  outer <- lift (get res "hits" (VDict [])) ;;
  inner <- lift (get outer "hits" (VList [])) ;;
  hits <- lift (iter inner) ;;
  lift (collect_ids hits []).

(** *** Lines 66-92 *)

(** [g(d, k, t)] of line 84 *)
Definition g (d : value) (k t : string) : result value :=
  let? a := get d k (VDict []) in
  get a t VNone.

Definition entity (bid name addr : value) : value :=
  VDict [(VStr "BusinessID", bid); (VStr "Name", name); (VStr "Address", addr)].

(** The loop of lines 83-90; [out[bid] = ...] needs a hashable [bid]. *)
Fixpoint fill_out (items : list value) (out : list (value * value))
  : result (list (value * value)) :=
  match items with
  | [] => Ok out
  | item :: rest =>
      let? bid := g item "BusinessID" "S" in
      let? name := g item "Name" "S" in
      let? addr := g item "Address" "S" in
      if hashable bid then fill_out rest (store bid (entity bid name addr) out)
      else Raise TypeError
  end.

Definition ddb_key (bid : value) : value :=
  VDict [(VStr "BusinessID", VDict [(VStr "S", bid)])].

Definition ddb_get_many (business_ids : list value) : M (list (value * value)) :=
  match business_ids with
  | [] => ret []
  | _ =>
      let keys := map ddb_key business_ids in
      res <- call (BatchGetItem (DDB_TABLE svc) keys)
                  (fun w => batch_get_item svc w (DDB_TABLE svc) keys) ;;
      responses <- lift (get res "Responses" (VDict [])) ;;
      rows <- lift (get responses (DDB_TABLE svc) (VList [])) ;;
      items <- lift (iter rows) ;;
      lift (fill_out items [])
  end.

(** *** Lines 94-134 *)

(** Lines 103-108.  [strptime] wants a [str]; on [ValueError] the field is
    read again and appended as it is. *)
Definition date_parts (body : value) : result (list string) :=
  let? field := get body "date" VNone in
  if truthy field then
    let? raw := getitem body "date" in
    match raw with
    | VStr s =>
        match strptime_date s with
        | Some date_obj => Ok [strftime_date date_obj]
        | None => let? again := getitem body "date" in Ok [str again]
        end
    | _ => Raise TypeError
    end
  else Ok [].

(** Lines 110-117 *)
Definition time_parts (body : value) : result (list string) :=
  let? field := get body "time" VNone in
  if truthy field then
    let? raw := getitem body "time" in
    match raw with
    | VStr s =>
        match strptime_time s with
        | Some time_obj => Ok ["at " ++ strftime_time time_obj]
        | None => let? again := getitem body "time" in Ok ["at " ++ str again]
        end
    | _ => Raise TypeError
    end
  else Ok [].

(** Lines 96-122 *)
Definition intro_line (body : value) : result string :=
  let? cuisine := getitem body "cuisine" in
  let? titled := str_method title cuisine in
  let intro := "Hello! Here are my " ++ titled ++ " restaurant suggestions" in
  let? party := get body "partySize" VNone in
  let? intro :=
    (if truthy party then
       let? n := getitem body "partySize" in
       Ok (intro ++ " for " ++ str n ++ " people")
     else Ok intro) in
  let? from_date := date_parts body in
  let? from_time := time_parts body in
  let when_parts := (from_date ++ from_time)%list in
  let intro :=
    match when_parts with
    | [] => intro
    | _ => intro ++ ", for " ++ join " " when_parts
    end in
  Ok (intro ++ ":").

(** Lines 127-129: the line of entity [r] at position [i]. *)
Definition piece_of (i : Z) (r : value) : result string :=
  let? name := getitem r "Name" in
  let piece := str_of_Z i ++ ". " ++ str name in
  let? address := get r "Address" VNone in
  if truthy address then
    let? shown := getitem r "Address" in
    Ok (piece ++ ", located at " ++ str shown)
  else Ok piece.

(** The loop of lines 126-130 over [enumerate(..., start=1)]. *)
Fixpoint listing (i : Z) (rs : list value) (lines : list string) : result (list string) :=
  match rs with
  | [] => Ok lines
  | r :: rest =>
      let? piece := piece_of i r in
      listing (i + 1)%Z rest (lines ++ [piece])%list
  end.

Definition closing : string := newline ++ "Enjoy your meal!".

Definition format_email (body : value) : result string :=
  let? intro := intro_line body in
  let? results := get body "results" (VList []) in
  let? rs := iter results in
  let? lines := listing 1 rs [intro] in
  Ok (join newline (lines ++ [closing])%list).

(** *** Lines 136-150 *)

Definition send_email (to_addr subject text : string) : M bool :=
  try_except
    (response <- call (SendEmail (SES_FROM svc) to_addr subject text)
                      (fun w => ses_send_email svc w (SES_FROM svc) to_addr subject text) ;;
     _ <- lift (getitem response "MessageId") ;;
     ret true)
    (fun e =>
       match e with
       | ClientError response =>
           _ <- lift (let? error := getitem response "Error" in getitem error "Message") ;;
           ret false
       | _ => lift (Raise e)
       end)
    ret.

(** *** Lines 153-208 *)

(** The eight [return] statements of [process_one_message], by what was
    found when each is reached. *)
Inductive return_site : Type :=
| BadBody        (* line 159 *)
| MissingField   (* line 165 *)
| SearchFailed   (* line 172 *)
| NoHits         (* line 177 *)
| StoreFailed    (* line 184 *)
| NoMatches      (* line 189 *)
| Sent           (* line 205 *)
| SendFailed.    (* line 208 *)

(** The boolean each of them returns. *)
Definition returned (r : return_site) : bool :=
  match r with
  | BadBody => false
  | MissingField => true
  | SearchFailed => false
  | NoHits => true
  | StoreFailed => false
  | NoMatches => true
  | Sent => true
  | SendFailed => false
  end.

(** [msg.get("Body") or "{}"] *)
Definition body_raw (msg : message) : string :=
  match Body msg with
  | Some b => if truthy (VStr b) then b else "{}"
  | None => "{}"
  end.

(** [[details[i] for i in ids if i in details]] *)
Fixpoint resolve (details : list (value * value)) (ids : list value) : list value :=
  match ids with
  | [] => []
  | i :: rest =>
      match lookup i details with
      | Some r => r :: resolve details rest
      | None => resolve details rest
      end
  end.

(** Line 174 *)
Definition dedup_truncate (ids : list value) : result (list value) :=
  let? unique := fromkeys ids in
  Ok (slice_to (NUM_RESULTS svc) unique).

(** [(payload.get(k) or "").strip()] of lines 161-162 *)
Definition trimmed (payload : value) (k : string) : result string :=
  let? v := get payload k VNone in
  str_method strip (por v (VStr "")).

(** Lines 168-174.  [None] stands for the [except] branch of line 170; the
    deduplication of line 174 is outside the [try]. *)
Definition sampling (cuisine : string) : M (option (list value)) :=
  try_except (os_random_ids_by_cuisine cuisine (NUM_RESULTS svc * 2))
    (fun _ => ret None)
    (fun ids => ids <- lift (dedup_truncate ids) ;; ret (Some ids)).

(** Lines 192-198 *)
Definition enrich (cuisine : string) (party date time : value) (results : list value) : value :=
  VDict [
    (VStr "cuisine", VStr cuisine);
    (VStr "partySize", party);
    (VStr "date", date);
    (VStr "time", time);
    (VStr "results", VList results)].

(** Line 199 *)
Definition subject_of (cuisine : string) : string :=
  title cuisine ++ " restaurant suggestions".

Definition process_steps (msg : message) : M return_site :=
  match json_loads svc (body_raw msg) with
  | None => ret BadBody
  | Some payload =>
      c <- lift (trimmed payload "cuisine") ;;
      let cuisine := lower c in
      email <- lift (trimmed payload "email") ;;
      if negb (truthy (VStr cuisine)) || negb (truthy (VStr email)) then ret MissingField
      else
        sampled <- sampling cuisine ;;
        match sampled with
        | None => ret SearchFailed
        | Some [] => ret NoHits
        | Some ids =>
            try_except (ddb_get_many ids)
              (fun _ => ret StoreFailed)
              (fun details =>
                 let results := resolve details ids in
                 match results with
                 | [] => ret NoMatches
                 | _ =>
                     party <- lift (get payload "num_people" VNone) ;;
                     date <- lift (get payload "dining_date" VNone) ;;
                     time <- lift (get payload "dining_time" VNone) ;;
                     let enriched := enrich cuisine party date time results in
                     let subject := subject_of cuisine in
                     text <- lift (format_email enriched) ;;
                     sent <- send_email email subject text ;;
                     if sent then ret Sent else ret SendFailed
                 end)
        end
  end.

Definition process_one_message (msg : message) : M bool :=
  r <- process_steps msg ;; ret (returned r).

(** *** Lines 210-231 *)

Definition summary (processed : Z) : value :=
  VDict [(VStr "ok", VBool true); (VStr "processed", VInt processed)].

(** One turn of the loop of lines 222-230. *)
Definition iteration (m : message) (processed : Z) : M Z :=
  ok <- try_except (process_one_message m) (fun _ => ret false) ret ;;
  if ok then
    _ <- call (DeleteMessage (QUEUE_URL svc) (ReceiptHandle m))
              (fun w => delete_message svc w (QUEUE_URL svc) (ReceiptHandle m)) ;;
    ret (processed + 1)%Z
  else ret processed.

Fixpoint for_messages (msgs : list message) (processed : Z) : M Z :=
  match msgs with
  | [] => ret processed
  | m :: rest => p <- iteration m processed ;; for_messages rest p
  end.

Definition lambda_handler : M value :=
  resp <- call (ReceiveMessage (QUEUE_URL svc) 10 30 3)
               (fun w => receive_message svc w (QUEUE_URL svc)) ;;
  let msgs := match resp with Some l => l | None => [] end in
  match msgs with
  | [] => ret (summary 0)
  | _ => processed <- for_messages msgs 0%Z ;; ret (summary processed)
  end.

(** *** Outcomes *)

(** The terminal outcomes of the design.  The code has no such type:
    [process_one_message] returns a boolean.  The outcome of each [return]
    is the one the state machine of the design (section 4.6) gives the state
    reached there: a payload that does not parse or lacks a field is
    malformed, a failed search, fetch or delivery is transient, an empty
    sample or an unresolved one has no results.  The code's own comment at
    line 159 calls the parse failure a transient failure. *)
Inductive outcome : Type :=
| Delivered
| DiscardMalformed
| DiscardNoResults
| TransientFailure.

Definition outcome_of_site (r : return_site) : outcome :=
  match r with
  | BadBody => DiscardMalformed
  | MissingField => DiscardMalformed
  | SearchFailed => TransientFailure
  | NoHits => DiscardNoResults
  | StoreFailed => TransientFailure
  | NoMatches => DiscardNoResults
  | Sent => Delivered
  | SendFailed => TransientFailure
  end.

(** An exception that leaves [process_one_message] is a transient failure. *)
Definition outcome_of (r : result return_site) : outcome :=
  match r with
  | Ok site => outcome_of_site site
  | Raise _ => TransientFailure
  end.

(** The acknowledgment policy of the design. *)
Definition acknowledges (o : outcome) : bool :=
  match o with
  | Delivered | DiscardMalformed | DiscardNoResults => true
  | TransientFailure => false
  end.

(** The policy with the exception line 159 makes: a body that does not
    parse is left on the queue. *)
Definition acknowledged (r : result return_site) : bool :=
  match r with
  | Ok BadBody => false
  | _ => acknowledges (outcome_of r)
  end.

Definition delete_of (m : message) : event :=
  DeleteMessage (QUEUE_URL svc) (ReceiptHandle m).

(** A batch under that policy: from log [w] and count [p], each message is
    processed once, in order, and its deletion is requested exactly when it
    is to be acknowledged; the count goes up by one for each deletion the
    queue carries out, and the run ends, with the queue's exception, at the
    first deletion the queue refuses. *)
Inductive policy_run : list message -> log -> Z -> result Z -> log -> Prop :=
| run_done w p :
    policy_run [] w p (Ok p) w
| run_acknowledge m rest w p r w1 out w2 :
    process_steps m w = (r, w1) ->
    acknowledged r = true ->
    delete_message svc w1 (QUEUE_URL svc) (ReceiptHandle m) = Ok tt ->
    policy_run rest (w1 ++ [delete_of m])%list (p + 1) out w2 ->
    policy_run (m :: rest) w p out w2
| run_refused m rest w p r w1 x :
    process_steps m w = (r, w1) ->
    acknowledged r = true ->
    delete_message svc w1 (QUEUE_URL svc) (ReceiptHandle m) = Raise x ->
    policy_run (m :: rest) w p (Raise x) (w1 ++ [delete_of m])%list
| run_leave m rest w p r w1 out w2 :
    process_steps m w = (r, w1) ->
    acknowledged r = false ->
    policy_run rest w1 p out w2 ->
    policy_run (m :: rest) w p out w2.

End Worker.

(** *** Vocabulary of the statements *)

(** [s] occurs in [t]. *)
Definition occurs_in (s t : string) : Prop :=
  exists before after, t = before ++ s ++ after.

(** [s] is the beginning of [t]. *)
Definition begins (s t : string) : Prop := exists rest, t = s ++ rest.

(** An optional text field of a request: absent ([null]) or a string. *)
Definition optional_text (v : value) : Prop := v = VNone \/ exists s, v = VStr s.

(** Deduplication keeping first occurrences: the head stays and its later
    copies go. *)
Inductive first_occurrences : list value -> list value -> Prop :=
| first_nil : first_occurrences [] []
| first_cons x xs u :
    first_occurrences (filter (fun y => negb (key_eqb y x)) xs) u ->
    first_occurrences (x :: xs) (x :: u).

(** [y] equals none of the keys seen so far. *)
Definition unseen (seen : list value) (y : value) : bool :=
  negb (existsb (key_eqb y) seen).

(** The formatted date: the long form, or the text as it came. *)
Definition date_text (s : string) : string :=
  match strptime_date s with
  | Some d => strftime_date d
  | None => s
  end.

Definition time_text (s : string) : string :=
  "at " ++ match strptime_time s with
           | Some t => strftime_time t
           | None => s
           end.

(** The parts of the "when" clause of a request with optional texts. *)
Definition when_texts (date time : value) : list string :=
  ((match date with
    | VStr s => if truthy date then [date_text s] else []
    | _ => []
    end) ++
   (match time with
    | VStr s => if truthy time then [time_text s] else []
    | _ => []
    end))%list.

Definition greeting (cuisine : string) : string :=
  "Hello! Here are my " ++ title cuisine ++ " restaurant suggestions".

Definition party_clause (party : value) : string :=
  if truthy party then " for " ++ str party ++ " people" else "".

Definition when_clause (date time : value) : string :=
  match when_texts date time with
  | [] => ""
  | parts => ", for " ++ join " " parts
  end.

(** The line of the listing for position [i]. *)
Definition entity_line (i : Z) (name address : value) : string :=
  str_of_Z i ++ ". " ++ str name ++
  (if truthy address then ", located at " ++ str address else "").

(** A record as [ddb_get_many] builds them. *)
Definition is_entity (r : value) : Prop :=
  exists bid name address, r = entity bid name address.

(** The rows a [batch_get_item] response carries for table [tbl]. *)
Definition rows_of (res : value) (tbl : string) (rows : list value) : Prop :=
  exists responses,
    get res "Responses" (VDict []) = Ok responses /\
    get responses tbl (VList []) = Ok (VList rows).

(** A row as DynamoDB returns it: attribute names mapped to typed values,
    the key attribute [BusinessID] being a string. *)
Definition is_row (row : value) : Prop :=
  exists attrs,
    row = VDict attrs /\
    Forall (fun kv => exists typed, snd kv = VDict typed) attrs /\
    exists id, g row "BusinessID" "S" = Ok (VStr id).

Definition row_id (row : value) : value :=
  match g row "BusinessID" "S" with
  | Ok v => v
  | Raise _ => VNone
  end.

(** The value [payload.get(k)] yields. *)
Definition field_of (payload : value) (k : string) : value :=
  match get payload k VNone with
  | Ok v => v
  | Raise _ => VNone
  end.

(** A field [(payload.get(k) or "").strip()] can trim: missing, falsy or a
    text; and what trimming it gives. *)
Definition trimmable (v : value) : Prop := truthy v = false \/ exists s, v = VStr s.

Definition trimmed_text (v : value) : string :=
  match v with
  | VStr s => strip s
  | _ => ""
  end.

(** The message decodes to a request with a category [c] (before
    lower-casing) and an address [e], both non-empty after trimming. *)
Definition well_addressed (svc : services) (msg : message)
    (payload : value) (c e : string) : Prop :=
  json_loads svc (body_raw msg) = Some payload /\
  trimmed payload "cuisine" = Ok c /\
  trimmed payload "email" = Ok e /\
  c <> "" /\ e <> "".

(** The three transient failures of a message processed from log [w]. *)
Definition search_unavailable (svc : services) (msg : message) (w : log) : Prop :=
  exists payload c e x,
    well_addressed svc msg payload c e /\
    fst (os_random_ids_by_cuisine svc (lower c) (NUM_RESULTS svc * 2) w) = Raise x.

Definition store_unavailable (svc : services) (msg : message) (w : log) : Prop :=
  exists payload c e ids w1 x,
    well_addressed svc msg payload c e /\
    sampling svc (lower c) w = (Ok (Some ids), w1) /\
    ids <> [] /\
    fst (ddb_get_many svc ids w1) = Raise x.

(** Nothing to send: the sample is empty, or the table resolves none of it. *)
Definition no_results (svc : services) (msg : message) (w : log) : Prop :=
  exists payload c e w1,
    well_addressed svc msg payload c e /\
    (sampling svc (lower c) w = (Ok (Some []), w1) \/
     exists ids details w2,
       sampling svc (lower c) w = (Ok (Some ids), w1) /\
       ids <> [] /\
       ddb_get_many svc ids w1 = (Ok details, w2) /\
       resolve details ids = []).

(** What the worker does once a message is composed: the address, the
    subject, the text and the log at the time of the delivery. *)
Definition composed (svc : services) (msg : message) (w : log)
    (e subject text : string) (w2 : log) : Prop :=
  exists payload c ids w1 details,
    well_addressed svc msg payload c e /\
    sampling svc (lower c) w = (Ok (Some ids), w1) /\
    ids <> [] /\
    ddb_get_many svc ids w1 = (Ok details, w2) /\
    resolve details ids <> [] /\
    subject = subject_of (lower c) /\
    format_email (enrich (lower c) (field_of payload "num_people")
                    (field_of payload "dining_date") (field_of payload "dining_time")
                    (resolve details ids)) = Ok text.

Definition delivery_failed (svc : services) (msg : message) (w : log) : Prop :=
  exists e subject text w2,
    composed svc msg w e subject text w2 /\
    fst (send_email svc e subject text w2) = Ok false.

(** A search hit as the ingestion writes documents: the identifier is both
    the document id and the [restaurant_id] field. *)
Definition hit_of (id : string) : value :=
  VDict [(VStr "_id", VStr id);
         (VStr "_source", VDict [(VStr "restaurant_id", VStr id)])].

End LF2.

(* ================================================================== *)
(** ** A concrete run *)
(* ================================================================== *)

(** Services to run the worker with: an index answering with three hits
    (one of them twice), a table holding two of the three, and a mail
    provider that accepts or rejects. *)
Module Scenario.

Import Py LF2.
Open Scope string_scope.

Definition field (k v : string) : string := Json.quoted k ++ ": " ++ v.

Definition hit (rid : string) : string :=
  "{" ++ field "_id" (Json.quoted rid) ++ ", " ++
  field "_source" ("{" ++ field "restaurant_id" (Json.quoted rid) ++ "}") ++ "}".

Definition search_response : string :=
  "{" ++ field "hits" ("{" ++ field "hits"
     ("[" ++ hit "id1" ++ ", " ++ hit "id2" ++ ", " ++ hit "id1" ++ ", " ++ hit "id3" ++ "]") ++ "}") ++ "}".

Definition attr (v : string) : value := VDict [(VStr "S", VStr v)].

Definition table_rows : list value := [
  VDict [(VStr "BusinessID", attr "id1"); (VStr "Name", attr "Trattoria");
         (VStr "Address", attr "1 Main St")];
  VDict [(VStr "BusinessID", attr "id3"); (VStr "Name", attr "Luigi's")]
].

Definition request_body : string :=
  "{" ++ field "cuisine" (Json.quoted "italian") ++ ", " ++
  field "email" (Json.quoted "a@b.com") ++ ", " ++
  field "num_people" (Json.quoted "2") ++ ", " ++
  field "dining_date" (Json.quoted "2025-10-09") ++ ", " ++
  field "dining_time" (Json.quoted "19:00") ++ "}".

Definition services_with
    (search : result (Z * string)) (fetch : result value) (deliver : result value)
    (inbox : list message) : services := {|
  QUEUE_URL := "queue";
  DDB_TABLE := "yelp-restaurants";
  OS_ENDPOINT := "https://search.example";
  OS_INDEX := "restaurants";
  SES_FROM := "bot@example.com";
  NUM_RESULTS := 3;
  json_loads := Json.loads;
  http_request := fun _ _ _ _ => search;
  batch_get_item := fun _ _ _ => fetch;
  ses_send_email := fun _ _ _ _ _ => deliver;
  receive_message := fun _ _ => Ok (Some inbox);
  delete_message := fun _ _ _ => Ok tt
|}.

Definition found : result value :=
  Ok (VDict [(VStr "Responses", VDict [(VStr "yelp-restaurants", VList table_rows)])]).

Definition accepted : result value := Ok (VDict [(VStr "MessageId", VStr "m-1")]).

(** An error response as botocore parses it from a service's answer. *)
Definition error_response (code message : string) : value :=
  VDict [(VStr "Error", VDict [(VStr "Code", VStr code); (VStr "Message", VStr message)])].

Definition healthy (inbox : list message) : services :=
  services_with (Ok (200%Z, search_response)) found accepted inbox.

Definition request : message := {| Body := Some request_body; ReceiptHandle := "rh-1" |}.

(** The same worker with the index down, the table down, or the mail
    provider rejecting the message. *)
Definition search_down (inbox : list message) : services :=
  services_with (Ok (503%Z, "busy")) found accepted inbox.

Definition store_down (inbox : list message) : services :=
  services_with (Ok (200%Z, search_response)) (Raise TransportError) accepted inbox.

Definition delivery_rejected (inbox : list message) : services :=
  services_with (Ok (200%Z, search_response)) found
    (Raise (ClientError (error_response "MessageRejected" "Email address is not verified.")))
    inbox.

(** A body that is not JSON, and a request whose cuisine is blank. *)
Definition garbled : message := {| Body := Some "not json"; ReceiptHandle := "rh-2" |}.

Definition blank_body : string :=
  "{" ++ field "cuisine" (Json.quoted "  ") ++ ", " ++
  field "email" (Json.quoted "a@b.com") ++ "}".

Definition blank : message := {| Body := Some blank_body; ReceiptHandle := "rh-3" |}.

(** A request with an empty cuisine and a number where the address goes. *)
Definition numbered_body : string :=
  "{" ++ field "cuisine" (Json.quoted "") ++ ", " ++ field "email" "5" ++ "}".

Definition numbered : message := {| Body := Some numbered_body; ReceiptHandle := "rh-5" |}.

(** A body that is JSON but no object: [payload.get] raises. *)
Definition listed : message := {| Body := Some "[1, 2]"; ReceiptHandle := "rh-4" |}.

Definition inbox : list message := [request; garbled; blank; listed].

(** The two records the table resolves. *)
Definition trattoria : value := entity (VStr "id1") (VStr "Trattoria") (VStr "1 Main St").
Definition luigis : value := entity (VStr "id3") (VStr "Luigi's") VNone.
Definition records : list value := [trattoria; luigis].

Definition italian (party date time : value) : value :=
  enrich "italian" party date time records.

End Scenario.

(* ================================================================== *)
(** ** Vocabulary for the calls the worker makes *)
(* ================================================================== *)

From Stdlib Require Import Permutation.

Module Trace.

Import Py LF2.
Open Scope string_scope.

(** The three calls processing one message can make. *)
Definition search_call (svc : services) (cuisine : string) : event :=
  HttpRequest "POST" (OS_ENDPOINT svc ++ "/" ++ OS_INDEX svc ++ "/_search")
    (search_query cuisine (NUM_RESULTS svc * 2)).

Definition fetch_call (svc : services) (ids : list value) : event :=
  BatchGetItem (DDB_TABLE svc) (map ddb_key ids).

Definition mail_call (svc : services) (to_addr subject text : string) : event :=
  SendEmail (SES_FROM svc) to_addr subject text.

(** How many calls have been made when a [return] is reached. *)
Definition calls_before (site : return_site) : nat :=
  match site with
  | BadBody | MissingField => 0
  | SearchFailed | NoHits => 1
  | StoreFailed | NoMatches => 2
  | Sent | SendFailed => 3
  end.

(** The receipt handles whose deletion a log requests, in order. *)
Fixpoint deletions (evs : log) : list string :=
  match evs with
  | [] => []
  | DeleteMessage _ h :: rest => h :: deletions rest
  | _ :: rest => deletions rest
  end.

(** The number of [receive_message] calls in a log. *)
Fixpoint receptions (evs : log) : nat :=
  match evs with
  | [] => 0
  | ReceiveMessage _ _ _ _ :: rest => S (receptions rest)
  | _ :: rest => receptions rest
  end.

(** [u] is [l] with some elements left out. *)
Inductive subsequence {A : Type} : list A -> list A -> Prop :=
| sub_nil : subsequence [] []
| sub_keep x u l : subsequence u l -> subsequence (x :: u) (x :: l)
| sub_skip x u l : subsequence u l -> subsequence u (x :: l).

(** A hit as the search may return it: an object whose [_source], when it
    is there and not null, is an object. *)
Definition is_hit (h : value) : Prop :=
  exists kv,
    h = VDict kv /\
    (truthy (field_of h "_source") = true -> exists src, field_of h "_source" = VDict src).

(** What lines 60-61 read off a hit: its source, and its identifier, the
    [restaurant_id] of the source before the document's [_id]. *)
Definition source_of (h : value) : value := por (field_of h "_source") (VDict []).

Definition hit_id (h : value) : value :=
  por (field_of (source_of h) "restaurant_id") (field_of h "_id").

(** A decoded search response without a hit: the outer or the inner
    [hits] key is missing, or the inner list is empty. *)
Definition without_hits (res : value) : Prop :=
  exists kv,
    res = VDict kv /\
    (lookup (VStr "hits") kv = None \/
     exists inner,
       lookup (VStr "hits") kv = Some (VDict inner) /\
       (lookup (VStr "hits") inner = None \/
        lookup (VStr "hits") inner = Some (VList []))).

End Trace.

(* ================================================================== *)
(** ** More concrete runs *)
(* ================================================================== *)

Module Cases.

Import Py LF2 Trace.
Open Scope string_scope.

(** The request of [Scenario.request], decoded. *)
Definition request_payload : value :=
  VDict [(VStr "cuisine", VStr "italian"); (VStr "email", VStr "a@b.com");
         (VStr "num_people", VStr "2"); (VStr "dining_date", VStr "2025-10-09");
         (VStr "dining_time", VStr "19:00")].

(** An index whose only hit carries a list where the identifier belongs. *)
Definition odd_response : string :=
  "{" ++ Scenario.field "hits" ("{" ++ Scenario.field "hits"
     ("[{" ++ Scenario.field "_source" ("{" ++ Scenario.field "restaurant_id" "[1]" ++ "}")
      ++ "}]") ++ "}") ++ "}".

Definition odd_index : services :=
  Scenario.services_with (Ok (200%Z, odd_response)) Scenario.found Scenario.accepted [].

(** An index that answers with an empty object. *)
Definition empty_index : services :=
  Scenario.services_with (Ok (200%Z, "{}")) Scenario.found Scenario.accepted [].

(** Hits of every shape the loop tolerates. *)
Definition mixed_hits : list value := [
  hit_of "id1";
  VDict [(VStr "_id", VStr "doc-2")];
  VDict [];
  VDict [(VStr "_source", VNone); (VStr "_id", VStr "doc-4")];
  VDict [(VStr "_source", VDict [(VStr "restaurant_id", VStr "")]); (VStr "_id", VStr "doc-5")]
].

(** A queue that refuses every deletion. *)
Definition stuck_queue (inbox : list message) : services := {|
  QUEUE_URL := "queue";
  DDB_TABLE := "yelp-restaurants";
  OS_ENDPOINT := "https://search.example";
  OS_INDEX := "restaurants";
  SES_FROM := "bot@example.com";
  NUM_RESULTS := 3;
  json_loads := Json.loads;
  http_request := fun _ _ _ _ => Ok (200%Z, Scenario.search_response);
  batch_get_item := fun _ _ _ => Scenario.found;
  ses_send_email := fun _ _ _ _ _ => Scenario.accepted;
  receive_message := fun _ _ => Ok (Some inbox);
  delete_message := fun _ _ _ => Raise (ClientError (Scenario.error_response "ReceiptHandleIsInvalid" "The receipt handle is invalid."))
|}.

End Cases.


(* ================================================================== *)
(** ** More of Python's built-ins *)
(* ================================================================== *)

(** Built-ins the other programs of the repository use. *)
Module Builtins.

Import Py.
Open Scope string_scope.

(** The texts [sep.join] accepts: [TypeError] on an item that is no text. *)
Fixpoint texts (items : list value) : result (list string) :=
  match items with
  | [] => Ok []
  | VStr s :: rest =>
      match texts rest with
      | Ok ss => Ok (s :: ss)
      | Raise e => Raise e
      end
  | _ :: _ => Raise TypeError
  end.

(** [list(range(start, stop, step))] for a positive step; [count] bounds the
    number of elements. *)
Fixpoint range_upto (count : nat) (start stop step : Z) : list Z :=
  match count with
  | O => []
  | S n => if (start <? stop)%Z then start :: range_upto n (start + step) stop step else []
  end.

Definition range (start stop step : Z) : list Z :=
  range_upto (Z.to_nat (stop - start)) start stop step.

(** [s.startswith(prefixes)] for a tuple of prefixes. *)
Definition startswith (prefixes : list string) (s : string) : bool :=
  existsb (fun p => String.prefix p s) prefixes.

(** [k in d] for a dictionary whose keys are listed in [keys]:
    [TypeError] on an unhashable [k]. *)
Definition is_key (k : value) (keys : list value) : result bool :=
  if hashable k then Ok (existsb (key_eqb k) keys) else Raise TypeError.

End Builtins.
(* ================================================================== *)
(** ** The dialog hook that fills the queue *)
(* ================================================================== *)

(** [src/lambda_functions/LF1.py]: the validators of the slots, and the
    handler that sends a completed request to the queue the worker reads. *)
Module LF1.

Import Py Clock.
Open Scope string_scope.

Declare Scope lex_scope.
Notation "'let?' x := r 'in' k" := (rbind r (fun x => k))
  (at level 61, x name, r at next level, right associativity) : lex_scope.
Open Scope lex_scope.

Definition QUEUE_URL : string :=
  "https://sqs.us-east-1.amazonaws.com/244086559221/Dining-Email".

Definition ALLOWED_CUISINES : list string :=
  ["Italian"; "Chinese"; "Mexican"; "Indian"; "Japanese"].

(** The outside of the hook: the encoder of the standard library, the
    queue, and the interpreter's Unicode tables.  The queue answers as a
    function of the bodies sent so far.  Texts are UTF-8 here, and
    [str.strip] and [str.capitalize] follow the Unicode tables: on a text
    with a character outside ASCII they are [unicode_strip] and
    [unicode_capitalize], whatever the interpreter makes them. *)
Record clients : Type := {
  json_dumps : value -> string;
  send_message : list string -> string -> string -> result value;
  unicode_strip : string -> string;
  unicode_capitalize : string -> string
}.

Fixpoint is_ascii (s : string) : bool :=
  match s with
  | EmptyString => true
  | String c rest => (code c <? 128)%nat && is_ascii rest
  end.

(** [s.capitalize()] on ASCII text. *)
Definition capitalize (s : string) : string :=
  match s with
  | EmptyString => EmptyString
  | String c rest => String (to_upper c) (lower rest)
  end.

(** [s.strip()] and [s.capitalize()] on any text. *)
Definition str_strip (cl : clients) (s : string) : string :=
  if is_ascii s then strip s else unicode_strip cl s.

Definition str_capitalize (cl : clients) (s : string) : string :=
  if is_ascii s then capitalize s else unicode_capitalize cl s.

(** [needle in haystack] for two strings. *)
Fixpoint is_substring (needle haystack : string) : bool :=
  String.prefix needle haystack ||
  match haystack with
  | EmptyString => false
  | String _ rest => is_substring needle rest
  end.

(** [needle in v] for a string [needle]: a substring of a string, an element
    of a list, a key of a dictionary; [TypeError] on anything else. *)
Definition contains (needle : string) (v : value) : result bool :=
  match v with
  | VStr s => Ok (is_substring needle s)
  | VList l => Ok (existsb (key_eqb (VStr needle)) l)
  | VDict kv =>
      Ok (match lookup (VStr needle) kv with Some _ => true | None => false end)
  | _ => Raise TypeError
  end.

(** [v == "text"] *)
Definition equals_text (v : value) (text : string) : bool :=
  match v with
  | VStr s => String.eqb s text
  | _ => false
  end.

(** *** Lines 61-65 *)

Definition get_slot_value (slots : value) (slot_name : string) : result value :=
  let? slot := get slots slot_name VNone in
  if truthy slot then
    let? has_value := contains "value" slot in
    if has_value then
      let? inner := getitem slot "value" in
      let? has_interpreted := contains "interpretedValue" inner in
      if has_interpreted then
        let? inner := getitem slot "value" in
        getitem inner "interpretedValue"
      else Ok VNone
    else Ok VNone
  else Ok VNone.

(** *** Lines 68-96 *)

(** [email and "@" in email]: the operand that decides, as Python's [and]
    returns it. *)
Definition is_valid_email (email : value) : result value :=
  if truthy email then
    let? found := contains "@" email in Ok (VBool found)
  else Ok email.

(** Decimal digits with single underscores between them, as [int] reads
    them: the number and how many digits. *)
Fixpoint digits_of (acc : Z) (count : nat) (after_digit : bool) (s : string)
  : option (Z * nat) :=
  match s with
  | EmptyString => if after_digit then Some (acc, count) else None
  | String c rest =>
      if is_digit c then digits_of (10 * acc + digit c)%Z (S count) true rest
      else if Ascii.eqb c "_"%char then
        if after_digit then digits_of acc count false rest else None
      else None
  end.

(** The blanks [int] skips around the digits: those of C's [isspace]. *)
Definition is_c_space (c : ascii) : bool :=
  let n := code c in ((9 <=? n) && (n <=? 13) || (n =? 32))%nat.

Fixpoint skip_left (s : string) : string :=
  match s with
  | String c s' => if is_c_space c then skip_left s' else s
  | EmptyString => EmptyString
  end.

Fixpoint skip_right (s : string) : string :=
  match s with
  | EmptyString => EmptyString
  | String c s' =>
      match skip_right s' with
      | EmptyString => if is_c_space c then EmptyString else String c EmptyString
      | t => String c t
      end
  end.

(** [int(s)] for a string: blanks around, a sign, digits; [None] is
    [ValueError], also raised beyond 4300 digits. *)
Definition int_of_text (s : string) : option Z :=
  let parse t :=
    match digits_of 0 0 false t with
    | Some (n, count) => if (count <=? 4300)%nat then Some n else None
    | None => None
    end in
  match skip_right (skip_left s) with
  | String "-"%char t => option_map Z.opp (parse t)
  | String "+"%char t => parse t
  | t => parse t
  end.

(** [int(v)] *)
Definition int_of (v : value) : result Z :=
  match v with
  | VInt z => Ok z
  | VBool b => Ok (Z.b2z b)
  | VStr s =>
      match int_of_text s with
      | Some z => Ok z
      | None => Raise ValueError
      end
  | _ => Raise TypeError
  end.

(** The bare [except] turns every exception into [False]. *)
Definition is_valid_number (num : value) : bool :=
  match int_of num with
  | Ok z => (0 <? z)%Z
  | Raise _ => false
  end.

Definition is_valid_cuisine (cl : clients) (cuisine : value) : bool :=
  match cuisine with
  | VStr s =>
      existsb (String.eqb (str_capitalize cl (str_strip cl s))) ALLOWED_CUISINES
  | _ => false
  end.

(** [a >= b] on calendar dates. *)
Definition date_geb (a b : date) : bool :=
  (year b <? year a)%Z ||
  (year b =? year a)%Z &&
    ((month b <? month a)%Z || (month b =? month a)%Z && (day b <=? day a)%Z).

(** [today] is what [datetime.today().date()] reads off the clock. *)
Definition is_valid_date (today : date) (date_str : value) : bool :=
  match date_str with
  | VStr s =>
      match strptime_date s with
      | Some date_obj => date_geb date_obj today
      | None => false
      end
  | _ => false
  end.

Definition is_valid_time (time_str : value) : bool :=
  match time_str with
  | VStr s =>
      match strptime_time s with
      | Some _ => true
      | None => false
      end
  | _ => false
  end.

(** *** Lines 13-59 *)

(** State: the bodies sent to the queue so far. *)
Definition Q (A : Type) : Type := list string -> result A * list string.

Definition qret {A} (a : A) : Q A := fun sent => (Ok a, sent).

Definition qbind {A B} (m : Q A) (k : A -> Q B) : Q B := fun sent =>
  match m sent with
  | (Ok a, sent') => k a sent'
  | (Raise e, sent') => (Raise e, sent')
  end.

Definition qlift {A} (r : result A) : Q A := fun sent => (r, sent).

Definition push_to_sqs (cl : clients) (data : value) : Q unit := fun sent =>
  let body := json_dumps cl data in
  (match send_message cl sent QUEUE_URL body with
   | Ok _ => Ok tt
   | Raise e => Raise e
   end, (sent ++ [body])%list).

Definition plain_text (message : string) : value :=
  VList [VDict [(VStr "contentType", VStr "PlainText"); (VStr "content", VStr message)]].

Definition intent_of (event : value) : result value :=
  let? state := getitem event "sessionState" in
  getitem state "intent".

Definition close (fulfillment_state message : string) (event : value) : result value :=
  let? intent := intent_of event in
  let? name := getitem intent "name" in
  Ok (VDict [
    (VStr "sessionState", VDict [
       (VStr "dialogAction", VDict [(VStr "type", VStr "Close")]);
       (VStr "intent", VDict [(VStr "name", name);
                              (VStr "state", VStr fulfillment_state)])]);
    (VStr "messages", plain_text message)]).

Definition elicit_slot (event : value) (slot_to_elicit message : string) : result value :=
  let? intent := intent_of event in
  let? name := getitem intent "name" in
  let? slots := getitem intent "slots" in
  Ok (VDict [
    (VStr "sessionState", VDict [
       (VStr "dialogAction", VDict [(VStr "type", VStr "ElicitSlot");
                                    (VStr "slotToElicit", VStr slot_to_elicit)]);
       (VStr "intent", VDict [(VStr "name", name); (VStr "slots", slots);
                              (VStr "state", VStr "InProgress")])]);
    (VStr "messages", plain_text message)]).

(** The typographic apostrophe of the messages, in UTF-8. *)
Definition apostrophe : string :=
  String (ascii_of_nat 226) (String (ascii_of_nat 128) (String (ascii_of_nat 153) EmptyString)).

Definition sorry_cuisine : string :=
  "Sorry, I don" ++ apostrophe ++ "t know that one. Try one of these cuisines: " ++
  join ", " ALLOWED_CUISINES ++ ".".

Definition sorry_email : string :=
  "That doesn" ++ apostrophe ++ "t look like a valid email. Please try again.".

Definition sorry_date : string := "That date looks invalid or in the past. Try another one.".

Definition sorry_time : string := "That time format looks wrong. Use HH:MM (24-hour).".

Definition sorry_number : string := "Please enter a number greater than 0.".

Definition thanks : string :=
  "Thanks! We" ++ apostrophe ++ "ve received your request. You" ++ apostrophe ++
  "ll get restaurant suggestions soon.".

(** Lines 134-139 *)
Definition delegate (event : value) : result value :=
  let? intent := intent_of event in
  Ok (VDict [
    (VStr "sessionState", VDict [
       (VStr "dialogAction", VDict [(VStr "type", VStr "Delegate")]);
       (VStr "intent", intent)])]).

(** Lines 145-152 *)
Definition request_of (location cuisine dining_date dining_time num_people email : value)
  : value :=
  VDict [
    (VStr "location", location);
    (VStr "cuisine", cuisine);
    (VStr "dining_time", dining_time);
    (VStr "dining_date", dining_date);
    (VStr "num_people", num_people);
    (VStr "email", email)].

(** Lines 143-144: [cuisine.strip().lower()] when there is a cuisine. *)
Definition normalised (cuisine : value) : result value :=
  if truthy cuisine then
    let? s := str_method strip cuisine in Ok (VStr (lower s))
  else Ok cuisine.

(** *** Lines 99-155 *)

Notation "x <-- m ;; k" := (qbind m (fun x => k))
  (at level 61, m at next level, right associativity) : lex_scope.

Definition lambda_handler (cl : clients) (today : date) (event : value) : Q value :=
  intent <-- qlift (intent_of event) ;;
  intent_name <-- qlift (getitem intent "name") ;;
  invocation_source <-- qlift (get event "invocationSource" VNone) ;;
  intent <-- qlift (intent_of event) ;;
  slots <-- qlift (getitem intent "slots") ;;
  if equals_text intent_name "DiningSuggestionsIntent" then
    location <-- qlift (get_slot_value slots "Location") ;;
    cuisine <-- qlift (get_slot_value slots "Cuisine") ;;
    dining_date <-- qlift (get_slot_value slots "DiningDate") ;;
    dining_time <-- qlift (get_slot_value slots "DiningTime") ;;
    num_people <-- qlift (get_slot_value slots "NumberOfPeople") ;;
    email <-- qlift (get_slot_value slots "Email") ;;
    if equals_text invocation_source "DialogCodeHook" then
      if truthy cuisine && negb (is_valid_cuisine cl cuisine) then
        qlift (elicit_slot event "Cuisine" sorry_cuisine)
      else
        email_wrong <-- qlift (if truthy email
                               then let? ok := is_valid_email email in Ok (negb (truthy ok))
                               else Ok false) ;;
        if email_wrong then qlift (elicit_slot event "Email" sorry_email)
        else if truthy dining_date && negb (is_valid_date today dining_date) then
          qlift (elicit_slot event "DiningDate" sorry_date)
        else if truthy dining_time && negb (is_valid_time dining_time) then
          qlift (elicit_slot event "DiningTime" sorry_time)
        else if truthy num_people && negb (is_valid_number num_people) then
          qlift (elicit_slot event "NumberOfPeople" sorry_number)
        else qlift (delegate event)
    else if equals_text invocation_source "FulfillmentCodeHook" then
      cuisine <-- qlift (normalised cuisine) ;;
      let data := request_of location cuisine dining_date dining_time num_people email in
      _ <-- push_to_sqs cl data ;;
      qlift (close "Fulfilled" thanks event)
    else qret VNone
  else qret VNone.

End LF1.

(* ================================================================== *)
(** ** The ingestion scripts *)
(* ================================================================== *)

(** [src/data_filter_and_injection_scripts/dynamoDB.py]: collects the
    restaurants of each cuisine from the search API, page by page, and
    writes those of Manhattan to the table. *)
Module Ingest.

Import Py Builtins.
Open Scope string_scope.

Declare Scope ingest_scope.
Notation "'let?' x := r 'in' k" := (rbind r (fun x => k))
  (at level 61, x name, r at next level, right associativity) : ingest_scope.
Open Scope ingest_scope.

(** Lines 11-22.  Durations are in milliseconds: [SLEEP_SEC] is 0.25 s and
    [RETRY_429_SLEEP] is 2.0 s. *)
Definition CUISINES : list string := ["chinese"; "japanese"; "italian"; "mexican"; "indian"].
Definition TARGET_PER_CUISINE : Z := 200.
Definition LOCATION : string := "Manhattan, NY".
Definition LIMIT : Z := 50.
Definition MAX_OFFSET : Z := 240 - LIMIT.
Definition OFFSETS : list Z := range 0 (MAX_OFFSET + 1) LIMIT.
Definition SLEEP_SEC : Z := 250.
Definition RETRY_429_SLEEP : Z := 2000.
Definition MAX_RETRIES : nat := 3.

(** Line 25 *)
Definition MANHATTAN_ZIP_PREFIXES : list string := ["100"; "101"; "102"].

(** What the script does to the outside, in order. *)
Inductive event : Type :=
| Get (term location : string) (limit offset : Z)
| Sleep (milliseconds : Z)
| BatchWrite (items : list value).

(** A response of the search API: [resp.status_code] and [resp.json()]. *)
Record response : Type := {
  status_code : Z;
  json : result value
}.

(** The outside: the conversion to [float] and the bounding box of lines
    54-61 ([within], which yields [False] where line 57 catches), the search
    API, [Decimal] on a text, the clock of line 97 and the table's batch
    writer.  The API, the clock and the table are given the events so far. *)
Record world : Type := {
  within : value -> value -> result bool;
  requests_get : list event -> string -> string -> Z -> Z -> result response;
  decimal : string -> result value;
  utcnow : list event -> string;
  put_items : list event -> list value -> result unit
}.

Definition Y (A : Type) : Type := list event -> result A * list event.

Definition yret {A} (a : A) : Y A := fun evs => (Ok a, evs).

Definition ybind {A B} (m : Y A) (k : A -> Y B) : Y B := fun evs =>
  match m evs with
  | (Ok a, evs') => k a evs'
  | (Raise e, evs') => (Raise e, evs')
  end.

Definition ylift {A} (r : result A) : Y A := fun evs => (r, evs).

Definition sleep (milliseconds : Z) : Y unit := fun evs =>
  (Ok tt, (evs ++ [Sleep milliseconds])%list).

Notation "x <~ m ;; k" := (ybind m (fun x => k))
  (at level 61, m at next level, right associativity) : ingest_scope.

(** *** Lines 40-61 *)

Definition is_none (v : value) : bool :=
  match v with
  | VNone => true
  | _ => false
  end.

Definition is_manhattan (w : world) (biz : value) : result bool :=
  let? loc0 := get biz "location" VNone in
  let loc := por loc0 (VDict []) in
  let? zip0 := get loc "zip_code" VNone in
  let? zip_code := str_method strip (por zip0 (VStr "")) in
  if negb (startswith MANHATTAN_ZIP_PREFIXES zip_code) then Ok false
  else
    let? coords0 := get biz "coordinates" VNone in
    let coords := por coords0 (VDict []) in
    let? lat := get coords "latitude" VNone in
    let? lon := get coords "longitude" VNone in
    if is_none lat || is_none lon then Ok false
    else within w lat lon.

(** *** Lines 64-88 *)

(** The attempts from number [attempt] on, [left] of them. *)
Fixpoint attempts (w : world) (term location : string) (limit offset : Z)
    (left : nat) (attempt : Z) : Y value :=
  match left with
  | O => yret (VDict [])
  | S left' => fun evs =>
      let evs' := (evs ++ [Get term location limit offset])%list in
      match requests_get w evs term location limit offset with
      | Raise e => (Raise e, evs')
      | Ok resp =>
          if (status_code resp =? 200)%Z then (json resp, evs')
          else
            let pause :=
              if (status_code resp =? 429)%Z then (RETRY_429_SLEEP * attempt)%Z
              else 1000%Z in
            (_ <~ sleep pause ;;
             attempts w term location limit offset left' (attempt + 1)%Z) evs'
      end
  end.

Definition yelp_search (w : world) (term location : string) (limit offset : Z) : Y value :=
  attempts w term location limit offset MAX_RETRIES 1%Z.

(** *** Lines 91-114 *)

(** [str(d.get(k, default))], the default given as its text. *)
Definition text_of (d : value) (k : string) (default : string) : result string :=
  match d with
  | VDict kv =>
      match lookup (VStr k) kv with
      | Some v => Ok (str v)
      | None => Ok default
      end
  | _ => Raise AttributeError
  end.

Definition to_ddb_item (w : world) (evs : list event) (biz : value) (cuisine : string)
  : result value :=
  let? loc0 := get biz "location" VNone in
  let loc := por loc0 (VDict []) in
  let? coords0 := get biz "coordinates" VNone in
  let coords := por coords0 (VDict []) in
  let? a1 := get loc "address1" VNone in
  let? a2 := get loc "address2" VNone in
  let? a3 := get loc "address3" VNone in
  let? parts := texts (filter truthy [a1; a2; a3]) in
  let address := join ", " parts in
  let inserted_ts := utcnow w evs ++ "Z" in
  let? bid := getitem biz "id" in
  let? name := get biz "name" (VStr "") in
  let? city := get loc "city" (VStr "") in
  let? state := get loc "state" (VStr "") in
  let? zip := get loc "zip_code" (VStr "") in
  let? lat := text_of coords "latitude" "" in
  let? lon := text_of coords "longitude" "" in
  let? reviews0 := text_of biz "review_count" "0" in
  let? reviews := decimal w reviews0 in
  let? rating0 := text_of biz "rating" "0.0" in
  let? rating := decimal w rating0 in
  Ok (VDict [
    (VStr "BusinessID", bid);
    (VStr "Name", name);
    (VStr "Address", VStr address);
    (VStr "City", city);
    (VStr "State", state);
    (VStr "ZipCode", zip);
    (VStr "Coordinates", VDict [(VStr "lat", VStr lat); (VStr "lon", VStr lon)]);
    (VStr "NumReviews", reviews);
    (VStr "Rating", rating);
    (VStr "Cuisine", VStr cuisine);
    (VStr "InsertedAtTimestamp", VStr inserted_ts)]).

(** *** Lines 117-123 *)

Definition batch_write (w : world) (items : list value) : Y unit :=
  match items with
  | [] => yret tt
  | _ => fun evs => (put_items w evs items, (evs ++ [BatchWrite items])%list)
  end.

(** *** Lines 126-161 *)

(** The state of the loops: the keys of [have], and [total_added]. *)
Record tally : Type := {
  have : list value;
  total_added : Z
}.

(** The loop of lines 140-150 over the businesses of one page; [new_items]
    is the list built so far.  The [break] of line 150 leaves the rest of
    the page unread. *)
Fixpoint select (w : world) (evs : list event) (cuisine : string)
    (businesses : list value) (t : tally) (new_items : list value)
  : result (tally * list value) :=
  match businesses with
  | [] => Ok (t, new_items)
  | biz :: rest =>
      let? manhattan := is_manhattan w biz in
      if negb manhattan then select w evs cuisine rest t new_items
      else
        let? bid := getitem biz "id" in
        let? seen := is_key bid (have t) in
        if seen then select w evs cuisine rest t new_items
        else
          let? item := to_ddb_item w evs biz cuisine in
          let t' := {| have := (have t ++ [bid])%list; total_added := total_added t + 1 |} in
          let new_items' := (new_items ++ [item])%list in
          if (TARGET_PER_CUISINE <=? total_added t')%Z then Ok (t', new_items')
          else select w evs cuisine rest t' new_items'
  end.

(** The loop of lines 132-158 over the offsets. *)
Fixpoint pages (w : world) (cuisine : string) (offsets : list Z) (t : tally) : Y tally :=
  match offsets with
  | [] => yret t
  | off :: rest =>
      data <~ yelp_search w (cuisine ++ " restaurants") LOCATION LIMIT off ;;
      found <~ ylift (get data "businesses" VNone) ;;
      let businesses := por found (VList []) in
      if negb (truthy businesses) then pages w cuisine rest t
      else
        listed <~ ylift (iter businesses) ;;
        chosen <~ (fun evs => (select w evs cuisine listed t [], evs)) ;;
        let '(t', new_items) := chosen in
        _ <~ batch_write w new_items ;;
        if (TARGET_PER_CUISINE <=? total_added t')%Z then yret t'
        else
          _ <~ sleep SLEEP_SEC ;;
          pages w cuisine rest t'
  end.

Definition collect_for_cuisine (w : world) (cuisine : string) : Y Z :=
  t <~ pages w cuisine OFFSETS {| have := []; total_added := 0 |} ;;
  yret (total_added t).

(** *** Lines 164-168: the number printed at the end. *)

Fixpoint for_cuisines (w : world) (cuisines : list string) (total : Z) : Y Z :=
  match cuisines with
  | [] => yret total
  | cuisine :: rest =>
      added <~ collect_for_cuisine w cuisine ;;
      for_cuisines w rest (total + added)%Z
  end.

Definition main (w : world) : Y Z := for_cuisines w CUISINES 0%Z.

(** *** Reading a log *)

Definition is_get (e : event) : bool :=
  match e with
  | Get _ _ _ _ => true
  | _ => false
  end.

(** The time slept, in milliseconds. *)
Fixpoint slept (evs : list event) : Z :=
  match evs with
  | [] => 0
  | Sleep ms :: rest => ms + slept rest
  | _ :: rest => slept rest
  end.

(** The items written, in order. *)
Fixpoint written (evs : list event) : list value :=
  match evs with
  | [] => []
  | BatchWrite items :: rest => (items ++ written rest)%list
  | _ :: rest => written rest
  end.

(** No two of these values are equal as dictionary keys. *)
Fixpoint distinct_keys (ids : list value) : Prop :=
  match ids with
  | [] => True
  | i :: rest => existsb (key_eqb i) rest = false /\ distinct_keys rest
  end.

Definition ids_of (items : list value) : list value :=
  map (fun item => LF2.field_of item "BusinessID") items.

(** The longest a search may sleep over [left] attempts from number
    [attempt] on. *)
Fixpoint longest_pause (left : nat) (attempt : Z) : Z :=
  match left with
  | O => 0
  | S left' => RETRY_429_SLEEP * attempt + longest_pause left' (attempt + 1)
  end.


(** An item written for [cuisine]: its zip code, trimmed, starts with one
    of the three prefixes, and its address is a text. *)
Definition stored_for (cuisine : string) (item : value) : Prop :=
  LF2.field_of item "Cuisine" = VStr cuisine /\
  (exists zip,
     LF2.field_of item "ZipCode" = VStr zip /\
     startswith MANHATTAN_ZIP_PREFIXES (strip zip) = true) /\
  (exists address, LF2.field_of item "Address" = VStr address).

(** A search for a page of [cuisine] at one of [offsets]. *)
Definition page_request (cuisine : string) (offsets : list Z) (e : event) : Prop :=
  match e with
  | Get term location limit offset =>
      term = cuisine ++ " restaurants" /\ location = LOCATION /\ limit = LIMIT /\
      In offset offsets
  | _ => True
  end.

(** A business of Manhattan with an identifier, and an API that always
    answers with the same page of two such businesses and one elsewhere. *)
Definition business (id zip : string) : value :=
  VDict [
    (VStr "id", VStr id);
    (VStr "name", VStr ("Chez " ++ id));
    (VStr "location", VDict [(VStr "zip_code", VStr zip); (VStr "address1", VStr "1 Main St")]);
    (VStr "coordinates", VDict [(VStr "latitude", VStr "40.7"); (VStr "longitude", VStr "-74.0")])].

Definition same_page : world := {|
  within := fun _ _ => Ok true;
  requests_get := fun _ _ _ _ _ =>
    Ok {| status_code := 200;
          json := Ok (VDict [(VStr "businesses",
                              VList [business "a" "10001"; business "b" "07030";
                                     business "a" "10001"; business "c" " 10211"])]) |};
  decimal := fun s => Ok (VStr s);
  utcnow := fun _ => "2025-10-01T12:00:00";
  put_items := fun _ _ => Ok tt
|}.

(** An API that is always busy. *)
Definition busy : world := {|
  within := fun _ _ => Ok true;
  requests_get := fun _ _ _ _ _ => Ok {| status_code := 429; json := Raise ValueError |};
  decimal := fun s => Ok (VStr s);
  utcnow := fun _ => "2025-10-01T12:00:00";
  put_items := fun _ _ => Ok tt
|}.

End Ingest.

(** Events and slots as Lex hands them to the hook. *)
Module Lex.

Import Py.
Open Scope string_scope.

(** A slot with an interpreted value, or an empty slot. *)
Definition slot_of (v : option string) : value :=
  match v with
  | Some s => VDict [(VStr "value", VDict [(VStr "interpretedValue", VStr s)])]
  | None => VNone
  end.

(** What [get_slot_value] is to read off such a slot. *)
Definition value_of (v : option string) : value :=
  match v with
  | Some s => VStr s
  | None => VNone
  end.

Record slots : Type := {
  Location : option string;
  Cuisine : option string;
  DiningDate : option string;
  DiningTime : option string;
  NumberOfPeople : option string;
  Email : option string
}.

Definition slots_of (s : slots) : value :=
  VDict [
    (VStr "Location", slot_of (Location s));
    (VStr "Cuisine", slot_of (Cuisine s));
    (VStr "DiningDate", slot_of (DiningDate s));
    (VStr "DiningTime", slot_of (DiningTime s));
    (VStr "NumberOfPeople", slot_of (NumberOfPeople s));
    (VStr "Email", slot_of (Email s))].

Definition intent_of (name : string) (s : slots) : value :=
  VDict [(VStr "name", VStr name); (VStr "slots", slots_of s)].

(** An event for intent [name], invoked from [source]. *)
Definition event_of (source name : string) (s : slots) : value :=
  VDict [
    (VStr "invocationSource", VStr source);
    (VStr "sessionState", VDict [(VStr "intent", intent_of name s)])].

(** The checks of lines 117-131, on the values read off the slots. *)
Definition cuisine_ok (cl : LF1.clients) (s : slots) : bool :=
  match Cuisine s with
  | Some c => negb (truthy (VStr c)) || LF1.is_valid_cuisine cl (VStr c)
  | None => true
  end.

Definition email_ok (s : slots) : bool :=
  match Email s with
  | Some e => negb (truthy (VStr e)) || LF1.is_substring "@" e
  | None => true
  end.

Definition date_ok (today : Clock.date) (s : slots) : bool :=
  match DiningDate s with
  | Some d => negb (truthy (VStr d)) || LF1.is_valid_date today (VStr d)
  | None => true
  end.

Definition time_ok (s : slots) : bool :=
  match DiningTime s with
  | Some t => negb (truthy (VStr t)) || LF1.is_valid_time (VStr t)
  | None => true
  end.

Definition number_ok (s : slots) : bool :=
  match NumberOfPeople s with
  | Some n => negb (truthy (VStr n)) || LF1.is_valid_number (VStr n)
  | None => true
  end.

(** The slot a reply asks for again, if it is such a reply. *)
Definition elicited (reply : value) : option value :=
  match LF2.field_of (LF2.field_of (LF2.field_of reply "sessionState") "dialogAction") "type" with
  | VStr "ElicitSlot" =>
      Some (LF2.field_of (LF2.field_of (LF2.field_of reply "sessionState") "dialogAction")
              "slotToElicit")
  | _ => None
  end.

(** The request the hook sends for these slots (lines 143-152). *)
Definition request_for (s : slots) : value :=
  LF1.request_of (value_of (Location s))
    (match Cuisine s with
     | Some c => VStr (if truthy (VStr c) then lower (strip c) else c)
     | None => VNone
     end)
    (value_of (DiningDate s)) (value_of (DiningTime s))
    (value_of (NumberOfPeople s)) (value_of (Email s)).

(** A text that does not start with a blank. *)
Definition left_trimmed (s : string) : Prop :=
  match s with
  | EmptyString => True
  | String c _ => is_space c = false
  end.

End Lex.


(* ================================================================== *)
(** ** From the hook to the worker *)
(* ================================================================== *)

Module Handoff.

Import Py LF2.
Open Scope string_scope.

(** A conversation with every slot filled. *)
Definition order : Lex.slots := {|
  Lex.Location := Some "Manhattan";
  Lex.Cuisine := Some " Italian ";
  Lex.DiningDate := Some "2025-10-09";
  Lex.DiningTime := Some "19:00";
  Lex.NumberOfPeople := Some "2";
  Lex.Email := Some "a@b.com"
|}.

(** The JSON text of the request sent for [order], keys in the order of
    lines 145-152. *)
Definition order_body : string :=
  "{" ++ Scenario.field "location" (Json.quoted "Manhattan") ++ ", " ++
  Scenario.field "cuisine" (Json.quoted "italian") ++ ", " ++
  Scenario.field "dining_time" (Json.quoted "19:00") ++ ", " ++
  Scenario.field "dining_date" (Json.quoted "2025-10-09") ++ ", " ++
  Scenario.field "num_people" (Json.quoted "2") ++ ", " ++
  Scenario.field "email" (Json.quoted "a@b.com") ++ "}".

Definition delivered : message := {| Body := Some order_body; ReceiptHandle := "rh-9" |}.

(** A hook to run: the queue accepts every message. *)
Definition hook : LF1.clients := {|
  LF1.json_dumps := repr;
  LF1.send_message := fun _ _ _ => Ok (VDict [(VStr "MessageId", VStr "m-2")]);
  LF1.unicode_strip := fun s => s;
  LF1.unicode_capitalize := fun s => s
|}.

End Handoff.

(* ================================================================== *)
(** ** The gateway handler in front of the bot *)
(* ================================================================== *)

(** [src/lambda_functions/LF0.py]: the handler behind the chat endpoint.  It
    forwards the text of the first message to the bot and wraps the bot's
    answer for the frontend. *)
Module LF0.

Import Py Builtins.
Open Scope string_scope.

Declare Scope gateway_scope.
Notation "'let?' x := r 'in' k" := (rbind r (fun x => k))
  (at level 61, x name, r at next level, right associativity) : gateway_scope.
Open Scope gateway_scope.

(** The keyword arguments of one [recognize_text] call. *)
Record call : Type := {
  botId : value;
  botAliasId : value;
  localeId : string;
  sessionId : string;
  text : value
}.

(** The environment (lines 12-14: the two identifiers may be unset), the
    [json] module, the bot, and the two readings every reply takes:
    [str(uuid.uuid4())] and [datetime.datetime.now().isoformat()]. *)
Record runtime : Type := {
  BOT_ID : value;
  BOT_ALIAS_ID : value;
  LOCALE_ID : string;
  json_loads : string -> option value;
  json_dumps : value -> string;
  recognize_text : list call -> call -> result value;
  uuid4 : string;
  now : string
}.

(** Lines 17-21 *)
Definition headers : value :=
  VDict [
    (VStr "Access-Control-Allow-Origin", VStr "*");
    (VStr "Access-Control-Allow-Headers", VStr "Content-Type");
    (VStr "Access-Control-Allow-Methods", VStr "OPTIONS,POST")].

(** What the handler returns: the status is always 200. *)
Definition response (body : string) : value :=
  VDict [
    (VStr "statusCode", VInt 200);
    (VStr "headers", headers);
    (VStr "body", VStr body)].

(** [json.loads(v)]: [TypeError] when [v] is no text, [JSONDecodeError] (a
    [ValueError]) when the text is not JSON. *)
Definition loads (rt : runtime) (v : value) : result value :=
  match v with
  | VStr s =>
      match json_loads rt s with
      | Some x => Ok x
      | None => Raise ValueError
      end
  | _ => Raise TypeError
  end.

(** [v[0]].  [IndexError] is not among the classes of [exn]; it is written
    as [KeyError], its sibling under [LookupError]: the handler catches both
    as [Exception]. *)
Definition first (v : value) : result value :=
  match v with
  | VList (x :: _) => Ok x
  | VList [] => Raise KeyError
  | VStr (String c _) => Ok (VStr (String c EmptyString))
  | VStr EmptyString => Raise KeyError
  | VDict kv =>
      match lookup (VInt 0) kv with
      | Some x => Ok x
      | None => Raise KeyError
      end
  | _ => Raise TypeError
  end.

(** Lines 29-30 *)
Definition user_text (rt : runtime) (event : value) : result value :=
  let? raw := get event "body" (VStr "{}") in
  let? body := loads rt raw in
  let? messages := getitem body "messages" in
  let? message := first messages in
  let? unstructured := getitem message "unstructured" in
  getitem unstructured "text".

(** Lines 37-43 *)
Definition lex_call (rt : runtime) (user_message : value) : call := {|
  botId := BOT_ID rt;
  botAliasId := BOT_ALIAS_ID rt;
  localeId := LOCALE_ID rt;
  sessionId := "test-session";
  text := user_message
|}.

(** [[m.get("content") for m in messages]] *)
Fixpoint contents (messages : list value) : result (list value) :=
  match messages with
  | [] => Ok []
  | m :: rest =>
      let? c := get m "content" VNone in
      let? cs := contents rest in
      Ok (c :: cs)
  end.

(** Lines 47-49 *)
Definition reply_text (lex_response : value) : result string :=
  let? messages := get lex_response "messages" VNone in
  if truthy messages then
    let? messages := getitem lex_response "messages" in
    let? items := iter messages in
    let? cs := contents items in
    let? ss := texts cs in
    Ok (join " " ss)
  else Ok "No response from Lex.".

(** Lines 52-63 and 68-79 *)
Definition bot_response (rt : runtime) (reply : string) : value :=
  VDict [(VStr "messages", VList [
    VDict [
      (VStr "type", VStr "unstructured");
      (VStr "unstructured", VDict [
         (VStr "id", VStr (uuid4 rt));
         (VStr "text", VStr reply);
         (VStr "timestamp", VStr (now rt))])]])].

Definition apology : string := "Sorry, something went wrong in Lambda.".

(** The [try] block, lines 28-63: the reply text, and the calls made. *)
Definition attempt (rt : runtime) (event : value) (calls : list call)
  : result string * list call :=
  match user_text rt event with
  | Raise e => (Raise e, calls)
  | Ok user_message =>
      let c := lex_call rt user_message in
      (let? lex_response := recognize_text rt calls c in reply_text lex_response,
       (calls ++ [c])%list)
  end.

(** Lines 16-86 *)
Definition lambda_handler (rt : runtime) (event : value) (calls : list call)
  : result value * list call :=
  match get event "httpMethod" VNone with
  | Raise e => (Raise e, calls)
  | Ok method =>
      if LF1.equals_text method "OPTIONS" then (Ok (response ""), calls)
      else
        let (r, calls') := attempt rt event calls in
        let reply :=
          match r with
          | Ok reply => reply
          | Raise _ => apology
          end in
        (Ok (response (json_dumps rt (bot_response rt reply))), calls')
  end.

(** The chat request of the frontend carrying [user_message]. *)
Definition chat (user_message : value) : value :=
  VDict [(VStr "messages", VList [
    VDict [
      (VStr "type", VStr "unstructured");
      (VStr "unstructured", VDict [(VStr "text", user_message)])]])].

(** An answer of the bot with these messages. *)
Definition said (contents : list value) : value :=
  VDict [(VStr "messages",
          VList (map (fun c => VDict [(VStr "contentType", VStr "PlainText");
                                      (VStr "content", c)]) contents))].

(** A runtime for concrete runs: the bot's answer is fixed. *)
Definition runtime_with (answer : result value) : runtime := {|
  BOT_ID := VStr "BOT";
  BOT_ALIAS_ID := VStr "ALIAS";
  LOCALE_ID := "en_US";
  json_loads := Json.loads;
  json_dumps := fun v => repr v;
  recognize_text := fun _ _ => answer;
  uuid4 := "00000000-0000-4000-8000-000000000000";
  now := "2025-10-01T12:00:00.000000"
|}.

Definition hello_body : string :=
  "{" ++ Scenario.field "messages"
    ("[{" ++ Scenario.field "type" (Json.quoted "unstructured") ++ ", " ++
     Scenario.field "unstructured" ("{" ++ Scenario.field "text" (Json.quoted "hello") ++ "}")
     ++ "}]") ++ "}".

Definition post (body : string) : value :=
  VDict [(VStr "httpMethod", VStr "POST"); (VStr "body", VStr body)].

End LF0.

(* ================================================================== *)
(** ** The script that fills the index *)
(* ================================================================== *)

(** [src/data_filter_and_injection_scripts/opensearch_injection.py]: scans
    the table and sends one index action and one document per restaurant to
    the bulk endpoint, in batches. *)
Module OpensearchInjection.

Import Py.
Open Scope string_scope.

Definition OS_ENDPOINT : string :=
  "https://search-opensearchdinning-id7jzgvfbjqqpobndub2h3h4am.aos.us-east-1.on.aws".

Definition BATCH_SIZE : Z := 500.

(** The [json] module, the HTTP pool and the table.  [http_post] answers
    with the status and the decoded data that line 31 prints; [scan] is
    given the [ExclusiveStartKey] of the call, if any.  Both are given the
    calls made before. *)
Record cluster : Type := {
  json_dumps : value -> string;
  http_post : list (list string) -> string -> string -> result (Z * string);
  scan : list (option value) -> option value -> result value
}.

(** Bulk requests sent so far, each with the lines it was given. *)
Definition W (A : Type) : Type := list (list string) -> result A * list (list string).

(** Line 27 *)
Definition ndjson (lines : list string) : string := join newline lines ++ newline.

(** Lines 21-31: the status of the answer is printed, never tested. *)
Definition es_bulk (c : cluster) (lines : list string) : W unit := fun sent =>
  let url := OS_ENDPOINT ++ "/_bulk" in
  (match http_post c sent url (ndjson lines) with
   | Ok _ => Ok tt
   | Raise e => Raise e
   end, (sent ++ [lines])%list).

(** Lines 38-48.  [fuel] bounds the number of pages read; [None] when it
    runs out. *)
Fixpoint scan_all_from (c : cluster) (fuel : nat) (start : option value)
    (items : list value) (scans : list (option value))
  : option (result (list value)) * list (option value) :=
  match fuel with
  | O => (None, scans)
  | S fuel' =>
      let scans' := (scans ++ [start])%list in
      match scan c scans start with
      | Raise e => (Some (Raise e), scans')
      | Ok r =>
          match rbind (get r "Items" (VList [])) iter with
          | Raise e => (Some (Raise e), scans')
          | Ok page =>
              let items' := (items ++ page)%list in
              match LF1.contains "LastEvaluatedKey" r with
              | Raise e => (Some (Raise e), scans')
              | Ok true =>
                  match getitem r "LastEvaluatedKey" with
                  | Raise e => (Some (Raise e), scans')
                  | Ok k => scan_all_from c fuel' (Some k) items' scans'
                  end
              | Ok false => (Some (Ok items'), scans')
              end
          end
      end
  end.

Definition scan_all (c : cluster) (fuel : nat)
  : option (result (list value)) * list (option value) :=
  scan_all_from c fuel None [] [].

(** Line 62 *)
Definition action (rid : string) : value :=
  VDict [(VStr "index", VDict [(VStr "_index", VStr "restaurants"); (VStr "_id", VStr rid)])].

(** Lines 63-66 *)
Definition document (rid cuisine : string) : value :=
  VDict [(VStr "restaurant_id", VStr rid); (VStr "cuisine", VStr cuisine)].

(** The loop of lines 57-70, from a batch and a count. *)
Fixpoint for_items (c : cluster) (items : list value) (batch : list string) (indexed : Z)
  : W (list string * Z) := fun sent =>
  match items with
  | [] => (Ok (batch, indexed), sent)
  | it :: rest =>
      match get it "BusinessID" VNone with
      | Raise e => (Raise e, sent)
      | Ok rid =>
          match get it "Cuisine" VNone with
          | Raise e => (Raise e, sent)
          | Ok cuisine =>
              if negb (truthy rid) || negb (truthy cuisine)
              then for_items c rest batch indexed sent
              else
                let batch1 :=
                  (batch ++ [json_dumps c (action (str rid));
                             json_dumps c (document (str rid) (str cuisine))])%list in
                if (BATCH_SIZE * 2 <=? Z.of_nat (List.length batch1))%Z then
                  match es_bulk c batch1 sent with
                  | (Raise e, sent') => (Raise e, sent')
                  | (Ok _, sent') =>
                      for_items c rest []
                        (indexed + Z.of_nat (List.length batch1) / 2)%Z sent'
                  end
                else for_items c rest batch1 indexed sent
          end
      end
  end.

(** Lines 55-76: the number printed as [Indexed docs]. *)
Definition index_items (c : cluster) (items : list value) : W Z := fun sent =>
  match for_items c items [] 0%Z sent with
  | (Raise e, sent') => (Raise e, sent')
  | (Ok (batch, indexed), sent') =>
      match batch with
      | [] => (Ok indexed, sent')
      | _ =>
          match es_bulk c batch sent' with
          | (Raise e, sent'') => (Raise e, sent'')
          | (Ok _, sent'') => (Ok (indexed + Z.of_nat (List.length batch) / 2)%Z, sent'')
          end
      end
  end.

(** Lines 51-76: the scan, then the loop.  The scans made, the bulk
    requests sent, and the number printed at the end. *)
Definition main (c : cluster) (fuel : nat)
  : option (result Z) * list (option value) * list (list string) :=
  match scan_all c fuel with
  | (None, scans) => (None, scans, [])
  | (Some (Raise e), scans) => (Some (Raise e), scans, [])
  | (Some (Ok items), scans) =>
      let (r, sent) := index_items c items [] in (Some r, scans, sent)
  end.

(** An item that line 60 lets through. *)
Definition eligible (it : value) : bool :=
  truthy (LF2.field_of it "BusinessID") && truthy (LF2.field_of it "Cuisine").

(** The two lines of an item. *)
Definition lines_of (c : cluster) (it : value) : list string :=
  [json_dumps c (action (str (LF2.field_of it "BusinessID")));
   json_dumps c (document (str (LF2.field_of it "BusinessID"))
                          (str (LF2.field_of it "Cuisine")))].

Definition is_object (v : value) : Prop := exists kv, v = VDict kv.

(** The table answers a scan from [start] with the pages [pages], each
    with the key of the next, and then with a last page. *)
Fixpoint paged (c : cluster) (scans : list (option value)) (start : option value)
    (pages : list (list value * value)) (last : list value) : Prop :=
  match pages with
  | [] =>
      exists kv,
        scan c scans start = Ok (VDict kv) /\
        lookup (VStr "LastEvaluatedKey") kv = None /\
        (lookup (VStr "Items") kv = Some (VList last) \/
         lookup (VStr "Items") kv = None /\ last = [])
  | (page, k) :: rest =>
      exists kv,
        scan c scans start = Ok (VDict kv) /\
        lookup (VStr "LastEvaluatedKey") kv = Some k /\
        lookup (VStr "Items") kv = Some (VList page) /\
        paged c (scans ++ [start])%list (Some k) rest last
  end.

(** A table of two pages and an index that refuses every request. *)
Definition row (rid cuisine : value) : value :=
  VDict [(VStr "BusinessID", rid); (VStr "Cuisine", cuisine)].

Definition small_table : cluster := {|
  json_dumps := repr;
  http_post := fun _ _ _ => Ok (403%Z, "forbidden");
  scan := fun _ start =>
    match start with
    | None =>
        Ok (VDict [(VStr "Items", VList [row (VStr "id1") (VStr "italian");
                                         row (VStr "id2") VNone]);
                   (VStr "LastEvaluatedKey", VDict [(VStr "BusinessID", VStr "id2")])])
    | Some _ =>
        Ok (VDict [(VStr "Items", VList [row (VStr "id3") (VStr "chinese")])])
    end
|}.

(** A table whose every page names a next key. *)
Definition endless_table : cluster := {|
  json_dumps := repr;
  http_post := fun _ _ _ => Ok (200%Z, "ok");
  scan := fun _ _ =>
    Ok (VDict [(VStr "Items", VList [row (VStr "id1") (VStr "italian")]);
               (VStr "LastEvaluatedKey", VDict [(VStr "BusinessID", VStr "id1")])])
|}.

End OpensearchInjection.
(* ================================================================== *)
(** ** Properties *)
(* ================================================================== *)

Import Py Clock LF2.
Open Scope string_scope.

(** *** The library model on concrete inputs *)

Example title_of_words : title "new  york-stYLE o'neil 3rd" = "New  York-Style O'Neil 3Rd".
Proof. reflexivity. Qed.

Example strip_blanks : strip "  a b  " = "a b".
Proof. reflexivity. Qed.

Example fromkeys_order :
  fromkeys [VStr "a"; VInt 1; VBool true; VStr "a"; VStr "b"] = Ok [VStr "a"; VInt 1; VStr "b"].
Proof. reflexivity. Qed.

Example slice_examples :
  slice_to 2 [1; 2; 3]%Z = [1; 2]%Z /\ slice_to 5 [1; 2; 3]%Z = [1; 2; 3]%Z /\
  slice_to (-1) [1; 2; 3]%Z = [1; 2]%Z.
Proof. repeat split. Qed.

Example strptime_dates :
  option_map strftime_date (strptime_date "2025-10-09") = Some "Thursday, October 9, 2025" /\
  option_map strftime_date (strptime_date "2025-1- 9") = Some "Thursday, January 9, 2025" /\
  strptime_date "2025-13-40" = None /\
  strptime_date "2025-02-29" = None /\
  strptime_date "2025-10-091" = None.
Proof. repeat split. Qed.

Example strptime_times :
  option_map strftime_time (strptime_time "19:00") = Some "7 pm" /\
  option_map strftime_time (strptime_time "0:5") = Some "12 am" /\
  option_map strftime_time (strptime_time "12:30") = Some "12 pm" /\
  strptime_time "24:00" = None /\
  strptime_time "19:60" = None.
Proof. repeat split. Qed.

Example loads_examples :
  Json.loads "not json" = None /\
  Json.loads "{}" = Some (VDict []) /\
  Json.loads "[1, 2]" = Some (VList [VInt 1; VInt 2]) /\
  Json.loads Scenario.blank_body =
    Some (VDict [(VStr "cuisine", VStr "  "); (VStr "email", VStr "a@b.com")]).
Proof. repeat split. Qed.

(** *** Strings and lists *)

Lemma append_assoc (a b c : string) : (a ++ b) ++ c = a ++ (b ++ c).
Proof.
  induction a as [|x a IH]; simpl; [reflexivity | now rewrite IH].
Qed.

Lemma append_empty_r (a : string) : a ++ "" = a.
Proof.
  induction a as [|x a IH]; simpl; [reflexivity | now rewrite IH].
Qed.

Lemma join_cons sep (x : string) (l : list string) :
  l <> [] -> join sep (x :: l) = x ++ sep ++ join sep l.
Proof.
  destruct l; [congruence | reflexivity].
Qed.

Lemma join_head sep (x : string) (l : list string) :
  exists rest, join sep (x :: l) = x ++ rest.
Proof.
  destruct l as [|y l].
  - exists "". simpl. now rewrite append_empty_r.
  - exists (sep ++ join sep (y :: l)). reflexivity.
Qed.

Lemma join_last sep (l : list string) (x : string) :
  exists front, join sep (l ++ [x]) = front ++ x.
Proof.
  induction l as [|y l [front IH]].
  - exists "". reflexivity.
  - exists (y ++ sep ++ front).
    change ((y :: l) ++ [x])%list with (y :: (l ++ [x]))%list.
    rewrite join_cons by (destruct l; discriminate).
    rewrite IH. now rewrite !append_assoc.
Qed.

Lemma occurs_in_empty (t : string) : occurs_in "" t.
Proof.
  exists "", t. reflexivity.
Qed.

Lemma truthy_str (s : string) : truthy (VStr s) = true <-> s <> "".
Proof.
  simpl. destruct (String.eqb_spec s ""); simpl; split; congruence.
Qed.

(** *** Reading a dictionary twice *)

Lemma get_then_getitem (d : value) (k : string) (v : value) :
  get d k VNone = Ok v -> truthy v = true -> getitem d k = Ok v.
Proof.
  unfold get, getitem. destruct d; try discriminate.
  destruct (lookup (VStr k) kv); intros H T; inversion H; subst.
  - reflexivity.
  - discriminate.
Qed.

(** *** The composer on an enriched request *)

Section Composer.

Variables (c : string) (p d t : value) (rs : list value).

Let body := enrich c p d t rs.

Lemma date_parts_enrich :
  optional_text d ->
  date_parts body = Ok (when_texts d VNone).
Proof.
  intros [-> | [s ->]]; [reflexivity|].
  unfold date_parts, body, enrich, when_texts. cbn [get getitem lookup key_eqb String.eqb Ascii.eqb Bool.eqb rbind].
  cbn.
  destruct (String.eqb_spec s ""); cbn; [reflexivity|].
  unfold date_text. destruct (strptime_date s); reflexivity.
Qed.

Lemma time_parts_enrich :
  optional_text t ->
  time_parts body = Ok (when_texts VNone t).
Proof.
  intros [-> | [s ->]]; [reflexivity|].
  unfold time_parts, body, enrich, when_texts. cbn.
  destruct (String.eqb_spec s ""); cbn; [reflexivity|].
  unfold time_text. destruct (strptime_time s); reflexivity.
Qed.

Lemma when_texts_split : when_texts d t = (when_texts d VNone ++ when_texts VNone t)%list.
Proof.
  unfold when_texts. cbn. now rewrite app_nil_r.
Qed.

(** The intro line in closed form. *)
Lemma intro_line_enrich :
  optional_text d -> optional_text t ->
  intro_line body = Ok (greeting c ++ party_clause p ++ when_clause d t ++ ":").
Proof.
  intros Hd Ht. unfold intro_line.
  rewrite (date_parts_enrich Hd), (time_parts_enrich Ht).
  unfold body, enrich.
  cbn [get getitem lookup key_eqb rbind str_method String.eqb Ascii.eqb Bool.eqb].
  unfold when_clause, party_clause, greeting. rewrite <- when_texts_split.
  destruct (truthy p); cbn [rbind];
    destruct (when_texts d t); f_equal;
    repeat rewrite append_assoc; repeat rewrite append_empty_r; reflexivity.
Qed.

End Composer.

Lemma piece_of_entity (i : Z) (bid name address : value) :
  piece_of i (entity bid name address) = Ok (entity_line i name address).
Proof.
  unfold piece_of, entity, entity_line.
  cbn [get getitem lookup key_eqb rbind String.eqb Ascii.eqb Bool.eqb].
  destruct (truthy address); cbn [rbind].
  - now rewrite !append_assoc.
  - now rewrite append_empty_r.
Qed.

(** The loop appends one line per record, numbered from [i]. *)
Lemma listing_entities (rs : list value) :
  Forall is_entity rs ->
  forall (i : Z) (lines : list string),
  exists pieces,
    listing i rs lines = Ok (lines ++ pieces)%list /\
    List.length pieces = List.length rs /\
    forall k bid name address,
      nth_error rs k = Some (entity bid name address) ->
      nth_error pieces k = Some (entity_line (i + Z.of_nat k) name address).
Proof.
  induction 1 as [|r rs [bid [name [address ->]]] _ IH]; intros i lines.
  - exists []. rewrite app_nil_r. repeat split; trivial.
    intros [|k]; discriminate.
  - cbn [listing]. rewrite piece_of_entity. cbn [rbind].
    destruct (IH (i + 1)%Z (lines ++ [entity_line i name address])%list)
      as [pieces [E [L N]]].
    exists (entity_line i name address :: pieces). split; [|split].
    + rewrite E. now rewrite <- app_assoc.
    + simpl. now rewrite L.
    + intros [|k] b n a Hk; cbn [nth_error] in *.
      * inversion Hk; subst. now rewrite Z.add_0_r.
      * rewrite (N _ _ _ _ Hk). do 2 f_equal. lia.
Qed.

(** The whole message: intro, one line per record, closing. *)
Lemma format_email_enrich (c : string) (p d t : value) (rs : list value) (intro : string) :
  intro_line (enrich c p d t rs) = Ok intro ->
  Forall is_entity rs ->
  exists pieces,
    format_email (enrich c p d t rs) = Ok (join newline (intro :: pieces ++ [closing])) /\
    List.length pieces = List.length rs /\
    forall k bid name address,
      nth_error rs k = Some (entity bid name address) ->
      nth_error pieces k = Some (entity_line (Z.of_nat k + 1) name address).
Proof.
  intros Hi Hrs. unfold format_email. rewrite Hi. cbn [rbind].
  unfold enrich. cbn [get lookup key_eqb rbind iter String.eqb Ascii.eqb Bool.eqb].
  destruct (listing_entities rs Hrs 1%Z [intro]) as [pieces [E [L N]]].
  exists pieces. rewrite E. cbn [rbind]. repeat split; trivial.
  intros k b n a Hk. rewrite (N _ _ _ _ Hk). do 2 f_equal. lia.
Qed.

Lemma when_clause_present (d t : value) :
  optional_text d -> optional_text t ->
  when_clause d t =
    if truthy d || truthy t then ", for " ++ join " " (when_texts d t) else "".
Proof.
  unfold when_clause, when_texts.
  intros [-> | [sd ->]] [-> | [st ->]]; cbn [truthy orb app];
    try destruct (negb (sd =? "")); try destruct (negb (st =? "")); reflexivity.
Qed.

(** *** The claims about the composer *)

(** C3, as the specification words it, fails: the subject and the intro
    carry the word "restaurant" and the intro opens with "Hello! ". *)
Lemma C3_counterexample :
  subject_of "italian" <> title "italian" ++ " suggestions" /\
  exists body,
    format_email (enrich "italian" VNone VNone VNone [entity (VStr "id1") (VStr "Trattoria") VNone])
      = Ok body /\
    ~ begins ("Here are my " ++ title "italian" ++ " suggestions") body.
Proof.
  split.
  - vm_compute. discriminate.
  - eexists. split.
    + vm_compute. reflexivity.
    + intros [rest H]. vm_compute in H. discriminate.
Qed.

(** C3 (amended): for every category [c] and entity list, the subject is
    "<c title-cased> restaurant suggestions"; the body begins with the intro
    "Hello! Here are my <c title-cased> restaurant suggestions", followed by
    " for <N> people" exactly when the party size is truthy, followed by
    ", for " and the formatted date and/or "at <time>" joined by a blank
    exactly when a date or a time is present, followed by a colon. *)
Theorem C3_subject_and_intro (c : string) (p d t : value) (rs : list value) :
  optional_text d -> optional_text t -> Forall is_entity rs ->
  subject_of c = title c ++ " restaurant suggestions" /\
  (exists rest,
     format_email (enrich c p d t rs) =
       Ok (("Hello! Here are my " ++ title c ++ " restaurant suggestions" ++
            (if truthy p then " for " ++ str p ++ " people" else "") ++
            (if truthy d || truthy t then ", for " ++ join " " (when_texts d t) else "") ++
            ":") ++ rest)) /\
  (forall sd, d = VStr sd -> truthy d = true -> truthy t = false ->
     join " " (when_texts d t) = date_text sd) /\
  (forall st, t = VStr st -> truthy d = false -> truthy t = true ->
     join " " (when_texts d t) = time_text st) /\
  (forall sd st, d = VStr sd -> t = VStr st -> truthy d = true -> truthy t = true ->
     join " " (when_texts d t) = date_text sd ++ " " ++ time_text st).
Proof.
  intros Hd Ht Hrs. split; [reflexivity|]. split; [|repeat split].
  - destruct (format_email_enrich c p d t rs _ (intro_line_enrich c p d t rs Hd Ht) Hrs)
      as [pieces [E _]].
    rewrite E. rewrite <- (when_clause_present d t Hd Ht).
    destruct (join_head newline (greeting c ++ party_clause p ++ when_clause d t ++ ":")
                (pieces ++ [closing])) as [rest R].
    exists rest. rewrite R. unfold greeting, party_clause.
    now rewrite !append_assoc.
  - intros sd -> Td Tf. unfold when_texts. rewrite Td.
    destruct Ht as [-> | [st ->]]; [reflexivity|]. rewrite Tf. reflexivity.
  - intros st -> Tf Tt. unfold when_texts. rewrite Tt.
    destruct Hd as [-> | [sd ->]]; [reflexivity|]. rewrite Tf. reflexivity.
  - intros sd st -> -> Td Tt. unfold when_texts. rewrite Td, Tt. reflexivity.
Qed.

Lemma records_are_entities : Forall is_entity Scenario.records.
Proof.
  repeat constructor; do 3 eexists; reflexivity.
Qed.

Lemma C3_witness :
  optional_text (VStr "2025-10-09") /\ optional_text (VStr "19:00") /\
  Forall is_entity Scenario.records /\
  subject_of "italian" = "Italian restaurant suggestions" /\
  exists rest,
    format_email (Scenario.italian (VStr "2") (VStr "2025-10-09") (VStr "19:00")) =
      Ok ("Hello! Here are my Italian restaurant suggestions for 2 people, for Thursday, October 9, 2025 at 7 pm:" ++ rest).
Proof.
  assert (Hd : optional_text (VStr "2025-10-09")) by (right; eexists; reflexivity).
  assert (Ht : optional_text (VStr "19:00")) by (right; eexists; reflexivity).
  destruct (C3_subject_and_intro "italian" (VStr "2") _ _ _ Hd Ht records_are_entities)
    as [Hs [[rest E] _]].
  split; [exact Hd|]. split; [exact Ht|]. split; [exact records_are_entities|].
  split; [exact Hs|]. exists rest. exact E.
Defined.

(** C5: for every request and every sequence of entity records, the body is
    the intro, then exactly one line per record in input order, then the
    closing, joined by newlines; the line at position [k] (from 0) starts with
    the index [k + 1] and the record's name, and ends with
    ", located at <address>" exactly when the record's address is present. *)
Theorem C5_one_line_per_entity (c : string) (p d t : value) (rs : list value) (intro : string) :
  Forall is_entity rs ->
  intro_line (enrich c p d t rs) = Ok intro ->
  exists lines,
    format_email (enrich c p d t rs) = Ok (join newline (intro :: lines ++ [closing])) /\
    List.length lines = List.length rs /\
    forall k bid name address,
      nth_error rs k = Some (entity bid name address) ->
      nth_error lines k =
        Some (str_of_Z (Z.of_nat k + 1) ++ ". " ++ str name ++
              (if truthy address then ", located at " ++ str address else "")).
Proof.
  intros Hrs Hi. exact (format_email_enrich c p d t rs intro Hi Hrs).
Qed.

Lemma C5_witness :
  Forall is_entity Scenario.records /\
  intro_line (Scenario.italian VNone VNone VNone) =
    Ok "Hello! Here are my Italian restaurant suggestions:" /\
  exists lines,
    format_email (Scenario.italian VNone VNone VNone) =
      Ok (join newline ("Hello! Here are my Italian restaurant suggestions:" :: lines ++ [closing])) /\
    nth_error lines 0 = Some "1. Trattoria, located at 1 Main St" /\
    nth_error lines 1 = Some "2. Luigi's" /\
    List.length lines = 2%nat.
Proof.
  assert (Hi : intro_line (Scenario.italian VNone VNone VNone) =
               Ok "Hello! Here are my Italian restaurant suggestions:") by reflexivity.
  destruct (C5_one_line_per_entity "italian" VNone VNone VNone _ _ records_are_entities Hi)
    as [lines [E [L N]]].
  split; [exact records_are_entities|]. split; [exact Hi|].
  exists lines. split; [exact E|]. split; [|split].
  - exact (N 0%nat _ _ _ eq_refl).
  - exact (N 1%nat _ _ _ eq_refl).
  - exact L.
Defined.

(** The body of an enriched request with optional texts and well-formed
    records: the intro in closed form, a line break, then the rest. *)
Lemma body_of_enrich (c : string) (p d t : value) (rs : list value) :
  optional_text d -> optional_text t -> Forall is_entity rs ->
  exists rest,
    begins newline rest /\
    format_email (enrich c p d t rs) =
      Ok (greeting c ++ party_clause p ++ when_clause d t ++ ":" ++ rest).
Proof.
  intros Hd Ht Hrs.
  destruct (format_email_enrich c p d t rs _ (intro_line_enrich c p d t rs Hd Ht) Hrs)
    as [pieces [E _]].
  exists (newline ++ join newline (pieces ++ [closing])).
  split; [eexists; reflexivity|].
  rewrite E, join_cons by (destruct pieces; discriminate).
  now rewrite !append_assoc.
Qed.

Lemma prefix_append (s t : string) : String.prefix s (s ++ t) = true.
Proof.
  induction s as [|a s IH]; cbn; [now destruct t|].
  destruct (ascii_dec a a); [exact IH | congruence].
Qed.

Lemma occurs_in_substring (s t : string) :
  occurs_in s t -> LF1.is_substring s t = true.
Proof.
  intros [before [after ->]].
  induction before as [|a before IH].
  - cbn [append]. destruct (s ++ after) eqn:E; cbn [LF1.is_substring];
      rewrite <- E, prefix_append; reflexivity.
  - change ((String a before) ++ s ++ after) with (String a (before ++ s ++ after)).
    cbn [LF1.is_substring]. rewrite IH. apply orb_true_r.
Qed.

(** C6, as the specification words it, fails for the empty time: it does
    not parse as HH:MM, and line 110 takes it for a missing one, so that the
    body has no "at " at all. *)
Lemma C6_counterexample :
  strptime_time "" = None /\
  format_email (enrich "italian" VNone VNone (VStr "") [Scenario.luigis]) =
    Ok ("Hello! Here are my Italian restaurant suggestions:" ++ newline ++
        "1. Luigi's" ++ newline ++ closing) /\
  ~ occurs_in ("at " ++ "")
      ("Hello! Here are my Italian restaurant suggestions:" ++ newline ++
       "1. Luigi's" ++ newline ++ closing).
Proof.
  split; [reflexivity|]. split; [reflexivity|].
  intros H. apply occurs_in_substring in H. vm_compute in H. discriminate.
Qed.

(** C6 (amended): on a request whose date and time are absent or strings,
    and whose records are well formed, the composer returns a body and
    raises nothing; a date that does not parse as YYYY-MM-DD occurs verbatim
    in the body; for a time that is not empty and does not parse as HH:MM
    the body contains "at " followed by the time as it came; and an empty
    time is composed as a missing one. *)
Theorem C6_total_with_fallback (c : string) (p d t : value) (rs : list value) :
  optional_text d -> optional_text t -> Forall is_entity rs ->
  exists body,
    format_email (enrich c p d t rs) = Ok body /\
    (forall s, d = VStr s -> strptime_date s = None -> occurs_in s body) /\
    (forall s, t = VStr s -> s <> "" -> strptime_time s = None ->
       occurs_in ("at " ++ s) body) /\
    (t = VStr "" -> format_email (enrich c p d VNone rs) = Ok body).
Proof.
  intros Hd Ht Hrs.
  destruct (body_of_enrich c p d t rs Hd Ht Hrs) as [rest [_ E]].
  eexists. split; [exact E|]. split; [|split].
  - intros s -> Hs.
    destruct (String.eqb_spec s "") as [-> | Hne]; [apply occurs_in_empty|].
    rewrite (when_clause_present _ _ Hd Ht).
    assert (T : truthy (VStr s) = true) by now apply truthy_str.
    rewrite T. cbn [orb]. rewrite when_texts_split.
    unfold when_texts at 1. rewrite T. cbn [app]. unfold date_text. rewrite Hs.
    destruct (join_head " " s (when_texts VNone t)) as [r1 R1]. rewrite R1.
    exists (greeting c ++ party_clause p ++ ", for "), (r1 ++ ":" ++ rest).
    now rewrite !append_assoc.
  - intros s -> Hne Hs.
    rewrite (when_clause_present _ _ Hd Ht).
    assert (T : truthy (VStr s) = true) by now apply truthy_str.
    rewrite T, orb_true_r. rewrite when_texts_split.
    unfold when_texts at 2. rewrite T. cbn [app]. unfold time_text. rewrite Hs.
    destruct (join_last " " (when_texts d VNone) ("at " ++ s)) as [front F]. rewrite F.
    exists (greeting c ++ party_clause p ++ ", for " ++ front), (":" ++ rest).
    now rewrite !append_assoc.
  - intros ->. rewrite <- E. unfold format_email.
    assert (I : intro_line (enrich c p d VNone rs) = intro_line (enrich c p d (VStr "") rs)).
    { rewrite (intro_line_enrich c p d VNone rs Hd (or_introl eq_refl)).
      rewrite (intro_line_enrich c p d (VStr "") rs Hd Ht).
      unfold when_clause, when_texts. reflexivity. }
    rewrite I. reflexivity.
Qed.

Lemma C6_witness :
  optional_text (VStr "2025-13-40") /\ optional_text (VStr "7 o'clock") /\
  Forall is_entity Scenario.records /\
  exists body,
    format_email (Scenario.italian VNone (VStr "2025-13-40") (VStr "7 o'clock")) = Ok body /\
    occurs_in "2025-13-40" body /\
    occurs_in "at 7 o'clock" body.
Proof.
  assert (Hd : optional_text (VStr "2025-13-40")) by (right; eexists; reflexivity).
  assert (Ht : optional_text (VStr "7 o'clock")) by (right; eexists; reflexivity).
  destruct (C6_total_with_fallback "italian" VNone _ _ _ Hd Ht records_are_entities)
    as [body [E [D [T _]]]].
  split; [exact Hd|]. split; [exact Ht|]. split; [exact records_are_entities|].
  exists body. split; [exact E|]. split.
  - apply (D "2025-13-40"); reflexivity.
  - apply (T "7 o'clock"); [reflexivity | discriminate | reflexivity].
Defined.

(** C7, as the specification words it, fails for the display name: a table
    row without a [Name] attribute is fetched as a record whose name is
    [None], and its line reads "1. None". *)
Lemma C7_counterexample :
  fill_out [VDict [(VStr "BusinessID", VDict [(VStr "S", VStr "id3")])]] [] =
    Ok [(VStr "id3", entity (VStr "id3") VNone VNone)] /\
  piece_of 1 (entity (VStr "id3") VNone VNone) = Ok "1. None" /\
  format_email (enrich "italian" VNone VNone VNone [entity (VStr "id3") VNone VNone]) =
    Ok ("Hello! Here are my Italian restaurant suggestions:" ++ newline ++
        "1. None" ++ newline ++ closing).
Proof.
  repeat split; reflexivity.
Qed.

(** C7 (amended): a table row without an [Address] attribute is fetched as a
    record whose address is [None]; and for every record whose address is
    missing, null or empty, the line is the index and the name alone: no
    address clause and no placeholder text.  A name that is a string is
    rendered as it is. *)
Theorem C7_absent_address (i : Z) (bid name address : value) :
  truthy address = false ->
  piece_of i (entity bid name address) = Ok (str_of_Z i ++ ". " ++ str name) /\
  (forall n, name = VStr n ->
     piece_of i (entity bid name address) = Ok (str_of_Z i ++ ". " ++ n)) /\
  (forall attrs, lookup (VStr "Address") attrs = None ->
     g (VDict attrs) "Address" "S" = Ok VNone).
Proof.
  intros T. rewrite piece_of_entity. unfold entity_line. rewrite T, append_empty_r.
  repeat split.
  - now intros n ->.
  - intros attrs H. unfold g. cbn [get]. rewrite H. reflexivity.
Qed.

Lemma C7_witness :
  truthy VNone = false /\
  piece_of 2 Scenario.luigis = Ok "2. Luigi's" /\
  g (VDict [(VStr "BusinessID", Scenario.attr "id3"); (VStr "Name", Scenario.attr "Luigi's")])
    "Address" "S" = Ok VNone.
Proof.
  destruct (C7_absent_address 2 (VStr "id3") (VStr "Luigi's") VNone eq_refl) as [_ [N A]].
  split; [reflexivity|]. split.
  - exact (N "Luigi's" eq_refl).
  - apply A. reflexivity.
Defined.

(** C10: the composed body carries " for <N> people" after the greeting
    exactly when the party size is truthy, whatever its type: a non-empty
    string, "0" included, is rendered as it is; the number 0, the empty
    string and null leave the suffix out.  In each case the intro is the
    first line of the body. *)
Theorem C10_party_clause (c : string) (p d t : value) (rs : list value) :
  optional_text d -> optional_text t -> Forall is_entity rs ->
  exists rest,
    begins newline rest /\
    (truthy p = true ->
       format_email (enrich c p d t rs) =
         Ok (greeting c ++ " for " ++ str p ++ " people" ++ when_clause d t ++ ":" ++ rest)) /\
    (truthy p = false ->
       format_email (enrich c p d t rs) = Ok (greeting c ++ when_clause d t ++ ":" ++ rest)) /\
    (forall s, p = VStr s -> s <> "" ->
       format_email (enrich c p d t rs) =
         Ok (greeting c ++ " for " ++ s ++ " people" ++ when_clause d t ++ ":" ++ rest)) /\
    (p = VStr "0" ->
       format_email (enrich c p d t rs) =
         Ok (greeting c ++ " for 0 people" ++ when_clause d t ++ ":" ++ rest)) /\
    (p = VInt 0 \/ p = VStr "" \/ p = VNone ->
       format_email (enrich c p d t rs) = Ok (greeting c ++ when_clause d t ++ ":" ++ rest)).
Proof.
  intros Hd Ht Hrs.
  destruct (body_of_enrich c p d t rs Hd Ht Hrs) as [rest [B E]].
  exists rest. split; [exact B|]. rewrite E. unfold party_clause.
  assert (Hyes : truthy p = true ->
            Ok (greeting c ++ (if truthy p then " for " ++ str p ++ " people" else "") ++
                when_clause d t ++ ":" ++ rest) =
            Ok (greeting c ++ " for " ++ str p ++ " people" ++ when_clause d t ++ ":" ++ rest)).
  { intros ->. now rewrite !append_assoc. }
  assert (Hno : truthy p = false ->
            Ok (greeting c ++ (if truthy p then " for " ++ str p ++ " people" else "") ++
                when_clause d t ++ ":" ++ rest) =
            Ok (greeting c ++ when_clause d t ++ ":" ++ rest)).
  { now intros ->. }
  repeat split.
  - exact Hyes.
  - exact Hno.
  - intros s -> Hs. rewrite Hyes; [reflexivity | now apply truthy_str].
  - intros ->. rewrite Hyes; reflexivity.
  - intros [-> | [-> | ->]]; apply Hno; reflexivity.
Qed.

Lemma C10_witness :
  optional_text VNone /\ Forall is_entity Scenario.records /\
  (exists rest,
     begins newline rest /\
     format_email (Scenario.italian (VStr "0") VNone VNone) =
       Ok ("Hello! Here are my Italian restaurant suggestions for 0 people:" ++ rest)) /\
  (exists rest,
     begins newline rest /\
     format_email (Scenario.italian (VStr "a few") VNone VNone) =
       Ok ("Hello! Here are my Italian restaurant suggestions for a few people:" ++ rest)) /\
  (exists rest,
     begins newline rest /\
     format_email (Scenario.italian (VInt 0) VNone VNone) =
       Ok ("Hello! Here are my Italian restaurant suggestions:" ++ rest)).
Proof.
  assert (H : optional_text VNone) by (left; reflexivity).
  split; [exact H|]. split; [exact records_are_entities|]. split; [|split].
  - destruct (C10_party_clause "italian" (VStr "0") VNone VNone Scenario.records H H
                records_are_entities) as [rest [B [_ [_ [_ [Z _]]]]]].
    exists rest. split; [exact B | exact (Z eq_refl)].
  - destruct (C10_party_clause "italian" (VStr "a few") VNone VNone Scenario.records H H
                records_are_entities) as [rest [B [_ [_ [S _]]]]].
    exists rest. split; [exact B|]. refine (S "a few" eq_refl _). discriminate.
  - destruct (C10_party_clause "italian" (VInt 0) VNone VNone Scenario.records H H
                records_are_entities) as [rest [B [_ [_ [_ [_ N]]]]]].
    exists rest. split; [exact B | exact (N (or_introl eq_refl))].
Defined.

(** *** The delivery client *)

(** C9: [send_email] makes one call to the provider; it returns [True]
    exactly when the provider accepts the message (answers with a message
    identifier), and returns [False], raising nothing, exactly when the
    provider rejects it: a [ClientError] whose error response carries the
    provider's message, [Error.Message], which line 149 prints.  Nothing
    else is converted: an exception of another class leaves [send_email] as
    it is, and so does the [KeyError] or [TypeError] of line 149 on an
    error response without a message. *)
Theorem C9_send_email (svc : services) (to_addr subject text : string) (w : log) :
  let answer := ses_send_email svc w (SES_FROM svc) to_addr subject text in
  snd (send_email svc to_addr subject text w) =
    (w ++ [SendEmail (SES_FROM svc) to_addr subject text])%list /\
  (fst (send_email svc to_addr subject text w) = Ok true <->
     exists response id, answer = Ok response /\ getitem response "MessageId" = Ok id) /\
  (fst (send_email svc to_addr subject text w) = Ok false <->
     exists response error message,
       answer = Raise (ClientError response) /\
       getitem response "Error" = Ok error /\ getitem error "Message" = Ok message) /\
  (forall response x,
     answer = Raise (ClientError response) ->
     rbind (getitem response "Error") (fun error => getitem error "Message") = Raise x ->
     fst (send_email svc to_addr subject text w) = Raise x /\
     (x = KeyError \/ x = TypeError)) /\
  (forall x,
     answer = Raise x -> (forall response, x <> ClientError response) ->
     fst (send_email svc to_addr subject text w) = Raise x).
Proof.
  intros answer. unfold send_email, try_except, bind, call, lift, ret. fold answer.
  assert (K : forall d k x, getitem d k = Raise x -> x = KeyError \/ x = TypeError).
  { intros d k x G. unfold getitem in G. destruct d; try (inversion G; auto; fail).
    destruct (lookup (VStr k) kv); inversion G; auto. }
  destruct answer as [response | e].
  - destruct (getitem response "MessageId") as [id | e] eqn:G; cbn [fst snd].
    + split; [reflexivity|]. split; [|split; [|split]].
      * split; intros H; [exists response, id; now split | reflexivity].
      * split; [discriminate | intros [r [er [m [H _]]]]; discriminate].
      * intros r x H. discriminate.
      * intros x H. discriminate.
    + destruct (K _ _ _ G) as [-> | ->]; cbn [fst snd];
        (split; [reflexivity|]);
        (split; [split; [discriminate|];
                 intros [r [id [H1 H2]]]; inversion H1; subst; rewrite G in H2; discriminate|]);
        (split; [split; [discriminate | intros [r [er [m [H _]]]]; discriminate]|]);
        (split; [intros r x0 H; discriminate | intros x0 H; discriminate]).
  - destruct e as [| | | | msg | response |]; cbn [fst snd];
      try (split; [reflexivity|];
           split; [split; [discriminate | intros [r [id [H _]]]; discriminate]|];
           split; [split; [discriminate | intros [r [er [m [H _]]]]; discriminate]|];
           split; [intros r x H; discriminate|];
           intros x H _; inversion H; reflexivity).
    destruct (getitem response "Error") as [error | x1] eqn:E1; cbn [rbind fst snd].
    + destruct (getitem error "Message") as [message | x2] eqn:E2; cbn [fst snd].
      * split; [reflexivity|].
        split; [split; [discriminate | intros [r [id [H _]]]; discriminate]|].
        split; [split; [intros _; exists response, error, message; repeat split; assumption
                       | reflexivity]|].
        split; [intros r x H; inversion H; subst r; rewrite E1; cbn [rbind];
                rewrite E2; discriminate|].
        intros x H N. inversion H; subst x. now destruct (N response).
      * split; [reflexivity|].
        split; [split; [discriminate | intros [r [id [H _]]]; discriminate]|].
        split; [split; [discriminate|];
                intros [r [er [m [H [H1 H2]]]]]; inversion H; subst r;
                rewrite E1 in H1; inversion H1; subst er; rewrite E2 in H2; discriminate|].
        split; [intros r x H; inversion H; subst r; rewrite E1; cbn [rbind]; rewrite E2;
                intros Hx; inversion Hx; subst x; split; [reflexivity | exact (K _ _ _ E2)]|].
        intros x H N. inversion H; subst x. now destruct (N response).
    + split; [reflexivity|].
      split; [split; [discriminate | intros [r [id [H _]]]; discriminate]|].
      split; [split; [discriminate|];
              intros [r [er [m [H [H1 _]]]]]; inversion H; subst r;
              rewrite E1 in H1; discriminate|].
      split; [intros r x H; inversion H; subst r; rewrite E1; cbn [rbind];
              intros Hx; inversion Hx; subst x; split; [reflexivity | exact (K _ _ _ E1)]|].
      intros x H N. inversion H; subst x. now destruct (N response).
Qed.

Example send_email_error_paths :
  fst (send_email (Scenario.delivery_rejected []) "a@b.com" "s" "t" []) = Ok false /\
  fst (send_email
         (Scenario.services_with (Ok (200%Z, Scenario.search_response)) Scenario.found
            (Raise (ClientError (VDict []))) [])
         "a@b.com" "s" "t" []) = Raise KeyError /\
  fst (send_email (Scenario.store_down []) "a@b.com" "s" "t" []) = Ok true.
Proof.
  repeat split; reflexivity.
Qed.

(** *** The detail fetcher *)

Lemma lookup_store_same (a : string) (v : value) (kv : list (value * value)) :
  lookup (VStr a) (store (VStr a) v kv) = Some v.
Proof.
  induction kv as [|[k' v'] kv IH]; cbn [store lookup].
  - cbn. now rewrite String.eqb_refl.
  - destruct (key_eqb (VStr a) k') eqn:E; cbn [lookup]; rewrite E; [reflexivity | exact IH].
Qed.

Lemma lookup_store_other (a b : string) (v : value) (kv : list (value * value)) :
  a <> b -> lookup (VStr a) (store (VStr b) v kv) = lookup (VStr a) kv.
Proof.
  intros Hab. apply String.eqb_neq in Hab.
  induction kv as [|[k' v'] kv IH]; cbn [store lookup].
  - cbn. now rewrite Hab.
  - destruct (key_eqb (VStr b) k') eqn:E; cbn [lookup].
    + destruct k'; cbn in E; try discriminate.
      apply String.eqb_eq in E. subst s. cbn. now rewrite Hab.
    + destruct (key_eqb (VStr a) k'); [reflexivity | exact IH].
Qed.

Lemma lookup_In (k : value) (kv : list (value * value)) (v : value) :
  lookup k kv = Some v -> exists k', In (k', v) kv.
Proof.
  induction kv as [|[k' v'] kv IH]; cbn [lookup]; [discriminate|].
  destruct (key_eqb k k').
  - intros H. inversion H; subst. exists k'. now left.
  - intros H. destruct (IH H) as [k2 H2]. exists k2. now right.
Qed.

(** On a row, [g] finds the attribute or yields [None]; it never raises. *)
Lemma g_on_row (attrs : list (value * value)) (k t : string) :
  Forall (fun kv => exists typed, snd kv = VDict typed) attrs ->
  exists v, g (VDict attrs) k t = Ok v.
Proof.
  intros F. unfold g. cbn [get].
  destruct (lookup (VStr k) attrs) as [a|] eqn:L; cbn [rbind].
  - destruct (lookup_In _ _ _ L) as [k' Hin].
    rewrite Forall_forall in F. destruct (F _ Hin) as [typed Ht]. cbn in Ht. subst a.
    cbn [get]. destruct (lookup (VStr t) typed); eexists; reflexivity.
  - exists VNone. reflexivity.
Qed.

Lemma fill_out_rows (rows : list value) :
  Forall is_row rows -> NoDup (map row_id rows) ->
  forall out, exists out',
    fill_out rows out = Ok out' /\
    (forall row id, In row rows -> g row "BusinessID" "S" = Ok (VStr id) ->
       exists name address,
         g row "Name" "S" = Ok name /\ g row "Address" "S" = Ok address /\
         lookup (VStr id) out' = Some (entity (VStr id) name address)) /\
    (forall id, (forall row, In row rows -> g row "BusinessID" "S" <> Ok (VStr id)) ->
       lookup (VStr id) out' = lookup (VStr id) out).
Proof.
  induction 1 as [|row rest [attrs [-> [Fa [id0 Hid]]]] _ IH]; intros ND out.
  - exists out. repeat split; trivial. intros row id [].
  - cbn [map] in ND. inversion ND as [|x l Hnotin ND']; subst.
    destruct (g_on_row attrs "Name" "S" Fa) as [name0 Hn].
    destruct (g_on_row attrs "Address" "S" Fa) as [addr0 Ha].
    cbn [fill_out]. rewrite Hid, Hn, Ha. cbn [rbind hashable].
    destruct (IH ND' (store (VStr id0) (entity (VStr id0) name0 addr0) out))
      as [out' [E [Hin Hout]]].
    assert (Fresh : forall row, In row rest -> g row "BusinessID" "S" <> Ok (VStr id0)).
    { intros row Hrow Hg. apply Hnotin. apply in_map_iff. exists row. split; [|exact Hrow].
      unfold row_id at 1. rewrite Hg. unfold row_id. now rewrite Hid. }
    exists out'. split; [exact E|]. split.
    + intros row id [<- | Hrow] Hg.
      * rewrite Hid in Hg. inversion Hg; subst id.
        exists name0, addr0. repeat split; trivial.
        rewrite (Hout id0 Fresh). apply lookup_store_same.
      * exact (Hin row id Hrow Hg).
    + intros id Hnone. rewrite Hout.
      * apply lookup_store_other. intros ->. apply (Hnone (VDict attrs)); [now left | exact Hid].
      * intros row Hrow. apply Hnone. now right.
Qed.

Lemma store_entities (k v : value) (kv : list (value * value)) :
  is_entity v ->
  Forall (fun p => is_entity (snd p)) kv ->
  Forall (fun p => is_entity (snd p)) (store k v kv).
Proof.
  intros Hv. induction 1 as [|[k' v'] kv Hp Hkv IH]; cbn [store].
  - constructor; [exact Hv | constructor].
  - destruct (key_eqb k k'); constructor; assumption.
Qed.

Lemma fill_out_entities (rows : list value) :
  forall out out',
    Forall (fun p => is_entity (snd p)) out ->
    fill_out rows out = Ok out' ->
    Forall (fun p => is_entity (snd p)) out'.
Proof.
  induction rows as [|row rows IH]; intros out out' Hout; cbn [fill_out].
  - intros H. inversion H; subst. exact Hout.
  - destruct (g row "BusinessID" "S") as [bid|]; [|discriminate].
    destruct (g row "Name" "S") as [name|]; [|discriminate].
    destruct (g row "Address" "S") as [address|]; [|discriminate].
    cbn [rbind]. destruct (hashable bid); [|discriminate].
    apply IH. apply store_entities; [|exact Hout].
    exists bid, name, address. reflexivity.
Qed.

(** What the worker hands to the composer is a list of well-formed records. *)
Lemma resolved_entities (svc : services) (ids : list value) (w : log)
    (details : list (value * value)) :
  fst (ddb_get_many svc ids w) = Ok details ->
  Forall is_entity (resolve details ids).
Proof.
  intros H.
  assert (D : Forall (fun p => is_entity (snd p)) details).
  { unfold ddb_get_many in H. destruct ids as [|i ids].
    - inversion H. constructor.
    - unfold bind, call, lift in H.
      destruct (batch_get_item svc w (DDB_TABLE svc) (map ddb_key (i :: ids))) as [res|];
        [|discriminate].
      destruct (get res "Responses" (VDict [])) as [responses|]; [|discriminate].
      destruct (get responses (DDB_TABLE svc) (VList [])) as [rows|]; [|discriminate].
      destruct (iter rows) as [items|]; [|discriminate].
      cbn [fst] in H. exact (fill_out_entities items [] details (Forall_nil _) H). }
  clear H. induction ids as [|i ids IH]; cbn [resolve]; [constructor|].
  destruct (lookup i details) as [r|] eqn:L; [|exact IH].
  constructor; [|exact IH].
  destruct (lookup_In _ _ _ L) as [k Hin].
  rewrite Forall_forall in D. exact (D _ Hin).
Qed.

(** C8: for every non-empty list of identifiers, [ddb_get_many] makes a
    single batched call for all of them, with one key [BusinessID] of type
    [S] per identifier, in order; when that call raises, so does the
    fetch; when it answers, whatever rows it answers with, the fetch returns
    a mapping that holds exactly the identifiers of those rows, each mapped
    to its record, so that identifiers the store did not find are left out
    and are no error. *)
Theorem C8_fetch_many (svc : services) (ids : list value) (w : log) :
  ids <> [] ->
  let keys := map ddb_key ids in
  let answer := batch_get_item svc w (DDB_TABLE svc) keys in
  snd (ddb_get_many svc ids w) = (w ++ [BatchGetItem (DDB_TABLE svc) keys])%list /\
  Forall2 (fun id key => key = VDict [(VStr "BusinessID", VDict [(VStr "S", id)])]) ids keys /\
  (forall e, answer = Raise e -> fst (ddb_get_many svc ids w) = Raise e) /\
  (forall res rows,
     answer = Ok res -> rows_of res (DDB_TABLE svc) rows ->
     Forall is_row rows -> NoDup (map row_id rows) ->
     exists out,
       fst (ddb_get_many svc ids w) = Ok out /\
       (forall row id, In row rows -> g row "BusinessID" "S" = Ok (VStr id) ->
          exists name address,
            g row "Name" "S" = Ok name /\ g row "Address" "S" = Ok address /\
            lookup (VStr id) out = Some (entity (VStr id) name address)) /\
       (forall id, (forall row, In row rows -> g row "BusinessID" "S" <> Ok (VStr id)) ->
          lookup (VStr id) out = None)).
Proof.
  intros Hne keys answer.
  assert (K : Forall2 (fun id key => key = VDict [(VStr "BusinessID", VDict [(VStr "S", id)])])
                ids keys).
  { unfold keys. clear. induction ids as [|i ids IH]; cbn [map]; constructor;
      [reflexivity | exact IH]. }
  destruct ids as [|i ids]; [congruence|].
  unfold ddb_get_many, bind, call, lift. fold keys. fold answer.
  destruct answer as [res | e] eqn:A.
  - split; [|split; [exact K|split]].
    + destruct (get res "Responses" (VDict [])) as [responses|]; [|reflexivity].
      destruct (get responses (DDB_TABLE svc) (VList [])) as [rows|]; [|reflexivity].
      destruct (iter rows); reflexivity.
    + discriminate.
    + intros res' rows Hres [responses [R1 R2]] Frows ND.
      inversion Hres; subst res'. rewrite R1, R2. cbn [iter].
      destruct (fill_out_rows rows Frows ND []) as [out [E [Hin Hout]]].
      exists out. rewrite E. split; [reflexivity|]. split; [exact Hin|].
      intros id Hnone. now rewrite (Hout id Hnone).
  - split; [reflexivity|]. split; [exact K|]. split.
    + intros e' He. inversion He; subst. reflexivity.
    + discriminate.
Qed.

Lemma C8_witness :
  [VStr "id1"; VStr "id2"; VStr "id3"] <> [] /\
  rows_of (VDict [(VStr "Responses", VDict [(VStr "yelp-restaurants", VList Scenario.table_rows)])])
    "yelp-restaurants" Scenario.table_rows /\
  Forall is_row Scenario.table_rows /\
  NoDup (map row_id Scenario.table_rows) /\
  snd (ddb_get_many (Scenario.healthy []) [VStr "id1"; VStr "id2"; VStr "id3"] []) =
    [BatchGetItem "yelp-restaurants"
       [VDict [(VStr "BusinessID", VDict [(VStr "S", VStr "id1")])];
        VDict [(VStr "BusinessID", VDict [(VStr "S", VStr "id2")])];
        VDict [(VStr "BusinessID", VDict [(VStr "S", VStr "id3")])]]] /\
  exists out,
    fst (ddb_get_many (Scenario.healthy []) [VStr "id1"; VStr "id2"; VStr "id3"] []) = Ok out /\
    lookup (VStr "id1") out = Some Scenario.trattoria /\
    lookup (VStr "id2") out = None.
Proof.
  assert (Hne : [VStr "id1"; VStr "id2"; VStr "id3"] <> []) by discriminate.
  assert (Hrows : rows_of
            (VDict [(VStr "Responses", VDict [(VStr "yelp-restaurants", VList Scenario.table_rows)])])
            "yelp-restaurants" Scenario.table_rows).
  { eexists. split; reflexivity. }
  assert (Frows : Forall is_row Scenario.table_rows).
  { repeat constructor; eexists; (split; [reflexivity|]);
      (split; [repeat constructor; eexists; reflexivity | eexists; reflexivity]). }
  assert (ND : NoDup (map row_id Scenario.table_rows)).
  { repeat constructor; cbn; intuition discriminate. }
  destruct (C8_fetch_many (Scenario.healthy []) [VStr "id1"; VStr "id2"; VStr "id3"] [] Hne)
    as [L [K [_ H]]].
  destruct (H _ Scenario.table_rows eq_refl Hrows Frows ND) as [out [E [Hin Hout]]].
  split; [exact Hne|]. split; [exact Hrows|]. split; [exact Frows|]. split; [exact ND|].
  split.
  { rewrite L. reflexivity. }
  exists out. split; [exact E|]. split.
  - destruct (Hin _ "id1" (or_introl eq_refl) eq_refl) as [name [address [Hn [Ha Hl]]]].
    inversion Hn; subst. inversion Ha; subst. exact Hl.
  - apply Hout. intros row [<- | [<- | []]]; discriminate.
Defined.

(** *** The candidate sampler *)

Lemma key_eqb_refl (x : value) : hashable x = true -> key_eqb x x = true.
Proof.
  destruct x; cbn; try discriminate; intros _.
  - reflexivity.
  - apply Bool.eqb_reflx.
  - apply Z.eqb_refl.
  - apply String.eqb_refl.
Qed.

Lemma filter_unseen_snoc (seen : list value) (x : value) (xs : list value) :
  filter (unseen (seen ++ [x])) xs =
  filter (fun y => negb (key_eqb y x)) (filter (unseen seen) xs).
Proof.
  induction xs as [|y xs IH]; [reflexivity|].
  cbn [filter].
  assert (U : unseen (seen ++ [x]) y = unseen seen y && negb (key_eqb y x)).
  { unfold unseen. rewrite existsb_app. cbn [existsb].
    now rewrite orb_false_r, negb_orb. }
  rewrite U. destruct (unseen seen y); cbn [andb filter].
  - destruct (key_eqb y x); cbn [negb]; now rewrite IH.
  - exact IH.
Qed.

Lemma filter_unseen_nil (xs : list value) : filter (unseen []) xs = xs.
Proof.
  induction xs as [|y xs IH]; [reflexivity|]. cbn. now f_equal.
Qed.

Lemma fromkeys_acc_first (xs : list value) :
  Forall (fun x => hashable x = true) xs ->
  forall seen, exists u,
    fromkeys_acc seen xs = Ok (seen ++ u)%list /\
    first_occurrences (filter (unseen seen) xs) u.
Proof.
  induction 1 as [|x xs Hx _ IH]; intros seen.
  - exists []. rewrite app_nil_r. split; [reflexivity | constructor].
  - cbn [fromkeys_acc filter]. rewrite Hx. cbn [negb]. unfold unseen at 1.
    destruct (existsb (key_eqb x) seen) eqn:E; cbn [negb].
    + exact (IH seen).
    + destruct (IH (seen ++ [x])%list) as [u [F O]].
      exists (x :: u). split.
      * rewrite F. now rewrite <- app_assoc.
      * constructor. now rewrite <- filter_unseen_snoc.
Qed.

(** [list(dict.fromkeys(xs))] keeps the first occurrences, in order. *)
Lemma fromkeys_first (xs : list value) :
  Forall (fun x => hashable x = true) xs ->
  exists u, fromkeys xs = Ok u /\ first_occurrences xs u.
Proof.
  intros H. destruct (fromkeys_acc_first xs H []) as [u [F O]].
  exists u. rewrite filter_unseen_nil in O. split; [exact F | exact O].
Qed.

Lemma first_occurrences_incl (xs u : list value) :
  first_occurrences xs u -> forall y, In y u -> In y xs.
Proof.
  induction 1 as [|x xs u _ IH]; intros y; [intros []|].
  intros [<- | Hy]; [now left | right].
  apply IH in Hy. apply filter_In in Hy. tauto.
Qed.

Lemma first_occurrences_NoDup (xs u : list value) :
  first_occurrences xs u ->
  Forall (fun x => hashable x = true) xs ->
  NoDup u.
Proof.
  induction 1 as [|x xs u O IH]; intros F; constructor.
  - intros Hin. apply (first_occurrences_incl _ _ O) in Hin.
    apply filter_In in Hin. destruct Hin as [_ Hneq].
    inversion F; subst. rewrite key_eqb_refl in Hneq by assumption. discriminate.
  - apply IH. inversion F; subst.
    rewrite Forall_forall in *. intros y Hy. apply filter_In in Hy. now apply H2.
Qed.

Lemma NoDup_firstn {A : Type} (n : nat) (l : list A) : NoDup l -> NoDup (firstn n l).
Proof.
  intros H. revert n. induction H as [|x l Hx _ IH]; intros [|n]; cbn; try constructor.
  - intros Hin. apply Hx. rewrite <- (firstn_skipn n l). apply in_or_app. now left.
  - apply IH.
Qed.

Lemma slice_to_firstn {A : Type} (n : Z) (l : list A) :
  (0 <= n)%Z -> slice_to n l = firstn (Z.to_nat n) l.
Proof.
  intros H. unfold slice_to. destruct (0 <=? n)%Z eqn:E; [reflexivity|].
  apply Z.leb_gt in E. lia.
Qed.

Lemma os_signed_request_log (svc : services) (method path : string) (body : value) (w : log) :
  snd (os_signed_request svc method path body w) =
    (w ++ [HttpRequest method (OS_ENDPOINT svc ++ path) body])%list.
Proof.
  unfold os_signed_request, bind, call, lift, ret.
  destruct (http_request svc w method (OS_ENDPOINT svc ++ path) body) as [[status data] | e];
    [|reflexivity].
  destruct (negb ((status =? 200)%Z || (status =? 201)%Z)); [reflexivity|].
  destruct (json_loads svc data); reflexivity.
Qed.

(** The search makes one signed request, whatever comes back. *)
Lemma os_random_ids_log (svc : services) (cuisine : string) (size : Z) (w : log) :
  snd (os_random_ids_by_cuisine svc cuisine size w) =
    (w ++ [HttpRequest "POST" (OS_ENDPOINT svc ++ "/" ++ OS_INDEX svc ++ "/_search")
             (search_query cuisine size)])%list.
Proof.
  unfold os_random_ids_by_cuisine, bind.
  pose proof (os_signed_request_log svc "POST" ("/" ++ OS_INDEX svc ++ "/_search")
                (search_query cuisine size) w) as L.
  destruct (os_signed_request svc "POST" ("/" ++ OS_INDEX svc ++ "/_search")
              (search_query cuisine size) w) as [[res | e] w1];
    cbn [snd] in L; subst w1; [|reflexivity].
  unfold lift.
  destruct (get res "hits" (VDict [])) as [outer|]; [|reflexivity].
  destruct (get outer "hits" (VList [])) as [inner|]; [|reflexivity].
  destruct (iter inner); reflexivity.
Qed.

(** A document written by the ingestion yields its identifier; the loop
    keeps the hits' order. *)
Lemma collect_ids_hits (ids : list string) :
  Forall (fun s => s <> "") ids ->
  forall acc, collect_ids (map hit_of ids) acc = Ok (acc ++ map VStr ids)%list.
Proof.
  induction 1 as [|s ids Hs _ IH]; intros acc; cbn [map collect_ids].
  - now rewrite app_nil_r.
  - assert (T : truthy (VStr s) = true) by now apply truthy_str.
    unfold hit_of at 1 2.
    cbn [get lookup key_eqb String.eqb Ascii.eqb Bool.eqb rbind por].
    change (por (VDict [(VStr "restaurant_id", VStr s)]) (VDict []))
      with (VDict [(VStr "restaurant_id", VStr s)]).
    cbn [get lookup key_eqb String.eqb Ascii.eqb Bool.eqb rbind].
    rewrite T. cbn [rbind]. rewrite T. rewrite IH. now rewrite <- app_assoc.
Qed.

(** C4: the sampling stage asks the index for twice [NUM_RESULTS] hits in a
    single request; and for every sequence of identifiers the search
    returns, duplicates included, it produces the first occurrences of those
    identifiers, in the returned order, cut to the first [NUM_RESULTS]: a
    sequence without duplicates, of length at most [NUM_RESULTS].  The
    search itself keeps the order of the hits. *)
Theorem C4_sampling (svc : services) (cuisine : string) (w : log) :
  (0 <= NUM_RESULTS svc)%Z ->
  (exists query,
     snd (sampling svc cuisine w) =
       (w ++ [HttpRequest "POST" (OS_ENDPOINT svc ++ "/" ++ OS_INDEX svc ++ "/_search")
                query])%list /\
     field_of query "size" = VInt (2 * NUM_RESULTS svc) /\
     field_of (field_of (field_of (field_of (field_of query "query") "function_score")
                           "query") "term") "cuisine" = VStr cuisine /\
     field_of (field_of (field_of query "query") "function_score") "random_score"
       = VDict []) /\
  (forall found,
     fst (os_random_ids_by_cuisine svc cuisine (NUM_RESULTS svc * 2) w) = Ok found ->
     Forall (fun x => hashable x = true) found ->
     exists unique,
       first_occurrences found unique /\
       fst (sampling svc cuisine w) =
         Ok (Some (firstn (Z.to_nat (NUM_RESULTS svc)) unique)) /\
       NoDup (firstn (Z.to_nat (NUM_RESULTS svc)) unique) /\
       (Z.of_nat (List.length (firstn (Z.to_nat (NUM_RESULTS svc)) unique))
          <= NUM_RESULTS svc)%Z) /\
  (forall ids acc,
     Forall (fun s => s <> "") ids ->
     collect_ids (map hit_of ids) acc = Ok (acc ++ map VStr ids)%list).
Proof.
  intros Hn.
  pose proof (os_random_ids_log svc cuisine (NUM_RESULTS svc * 2) w) as L.
  assert (Q : field_of (search_query cuisine (NUM_RESULTS svc * 2)) "size"
                = VInt (2 * NUM_RESULTS svc) /\
              field_of (field_of (field_of (field_of (field_of
                (search_query cuisine (NUM_RESULTS svc * 2)) "query") "function_score")
                "query") "term") "cuisine" = VStr cuisine /\
              field_of (field_of (field_of (search_query cuisine (NUM_RESULTS svc * 2))
                "query") "function_score") "random_score" = VDict []).
  { split; [|split; reflexivity].
    unfold search_query, field_of.
    cbn [get lookup key_eqb String.eqb Ascii.eqb Bool.eqb]. f_equal. lia. }
  unfold sampling, try_except, bind, lift, ret.
  destruct (os_random_ids_by_cuisine svc cuisine (NUM_RESULTS svc * 2) w)
    as [[found | e] w1]; cbn [snd fst] in *; subst w1.
  - split; [exists (search_query cuisine (NUM_RESULTS svc * 2));
            split; [destruct (dedup_truncate svc found); reflexivity | exact Q]|]. split.
    + intros found' Hf Hh. inversion Hf; subst found'.
      destruct (fromkeys_first found Hh) as [unique [F O]].
      exists unique. split; [exact O|].
      unfold dedup_truncate. rewrite F. cbn [rbind fst].
      rewrite (slice_to_firstn _ _ Hn). split; [reflexivity|]. split.
      * apply NoDup_firstn. exact (first_occurrences_NoDup _ _ O Hh).
      * pose proof (firstn_le_length (Z.to_nat (NUM_RESULTS svc)) unique). lia.
    + intros ids acc H. exact (collect_ids_hits ids H acc).
  - split; [exists (search_query cuisine (NUM_RESULTS svc * 2));
            split; [reflexivity | exact Q]|]. split; [discriminate|].
    intros ids acc H. exact (collect_ids_hits ids H acc).
Qed.

Lemma C4_witness :
  (0 <= NUM_RESULTS (Scenario.healthy []))%Z /\
  Forall (fun x => hashable x = true) [VStr "id1"; VStr "id2"; VStr "id1"; VStr "id3"] /\
  fst (os_random_ids_by_cuisine (Scenario.healthy []) "italian" 6 []) =
    Ok [VStr "id1"; VStr "id2"; VStr "id1"; VStr "id3"] /\
  fst (sampling (Scenario.healthy []) "italian" []) =
    Ok (Some [VStr "id1"; VStr "id2"; VStr "id3"]) /\
  (exists query,
     snd (sampling (Scenario.healthy []) "italian" []) =
       [HttpRequest "POST" "https://search.example/restaurants/_search" query] /\
     field_of query "size" = VInt 6) /\
  exists unique,
    first_occurrences [VStr "id1"; VStr "id2"; VStr "id1"; VStr "id3"] unique /\
    fst (sampling (Scenario.healthy []) "italian" []) = Ok (Some (firstn 3 unique)) /\
    NoDup (firstn 3 unique) /\
    (List.length (firstn 3 unique) <= 3)%nat.
Proof.
  assert (Hn : (0 <= NUM_RESULTS (Scenario.healthy []))%Z) by (cbn; lia).
  assert (Hh : Forall (fun x => hashable x = true)
                 [VStr "id1"; VStr "id2"; VStr "id1"; VStr "id3"])
    by (repeat constructor).
  assert (Hf : fst (os_random_ids_by_cuisine (Scenario.healthy []) "italian"
                      (NUM_RESULTS (Scenario.healthy []) * 2) []) =
               Ok [VStr "id1"; VStr "id2"; VStr "id1"; VStr "id3"])
    by (vm_compute; reflexivity).
  destruct (C4_sampling (Scenario.healthy []) "italian" [] Hn)
    as [[query [Lq [Sz _]]] [S _]].
  destruct (S _ Hf Hh) as [unique [O [E [ND Len]]]].
  split; [exact Hn|]. split; [exact Hh|]. split; [exact Hf|].
  split; [vm_compute; reflexivity|].
  split; [exists query; split; [exact Lq | exact Sz]|].
  exists unique. split; [exact O|]. split; [exact E|]. split; [exact ND|].
  change (Z.of_nat (List.length (firstn 3 unique)) <= 3)%Z in Len. lia.
Defined.

(** *** The orchestrator *)

(** C1, as the specification words it, fails twice.  A body that is not
    JSON makes [process_one_message] return [False] at line 159, which the
    code calls a transient failure, and the handler requests no deletion.
    And a request whose cuisine is empty is not discarded when its address
    is a number: line 162 raises, and the handler leaves the message. *)
Lemma C1_counterexample :
  (json_loads (Scenario.healthy [Scenario.garbled]) (body_raw Scenario.garbled) = None /\
   process_one_message (Scenario.healthy [Scenario.garbled]) Scenario.garbled [] =
     (Ok false, []) /\
   lambda_handler (Scenario.healthy [Scenario.garbled]) [] =
     (Ok (VDict [(VStr "ok", VBool true); (VStr "processed", VInt 0)]),
      [ReceiveMessage "queue" 10 30 3])) /\
  (json_loads (Scenario.healthy [Scenario.numbered]) (body_raw Scenario.numbered) =
     Some (VDict [(VStr "cuisine", VStr ""); (VStr "email", VInt 5)]) /\
   process_one_message (Scenario.healthy [Scenario.numbered]) Scenario.numbered [] =
     (Raise AttributeError, []) /\
   lambda_handler (Scenario.healthy [Scenario.numbered]) [] =
     (Ok (VDict [(VStr "ok", VBool true); (VStr "processed", VInt 0)]),
      [ReceiveMessage "queue" 10 30 3])).
Proof.
  repeat split; vm_compute; reflexivity.
Qed.

Lemma trimmed_field (kv : list (value * value)) (k : string) :
  trimmable (field_of (VDict kv) k) ->
  trimmed (VDict kv) k = Ok (trimmed_text (field_of (VDict kv) k)).
Proof.
  unfold trimmed, field_of. cbn [get].
  destruct (lookup (VStr k) kv) as [v|]; cbn [rbind]; [|reflexivity].
  unfold por. intros [F | [s ->]].
  - rewrite F. destruct v; try reflexivity.
    cbn [truthy] in F. destruct (String.eqb_spec s ""); [subst; reflexivity | discriminate].
  - destruct (truthy (VStr s)) eqn:T; [reflexivity|].
    cbn [truthy] in T. destruct (String.eqb_spec s ""); [subst; reflexivity | discriminate].
Qed.

(** C1 (amended): for every dequeued message whose body decodes to an
    object in which the cuisine and the email are each missing, falsy or a
    text, and one of the two is empty after trimming, processing ends in
    [DiscardMalformed] without calling any service, and the handler requests
    the deletion of the message; a message whose body is not JSON returns
    [False] at line 159 and is left on the queue. *)
Theorem C1_malformed_payload (svc : services) (msg : message) (processed : Z) (w : log) :
  (forall kv,
     json_loads svc (body_raw msg) = Some (VDict kv) ->
     trimmable (field_of (VDict kv) "cuisine") ->
     trimmable (field_of (VDict kv) "email") ->
     trimmed_text (field_of (VDict kv) "cuisine") = "" \/
     trimmed_text (field_of (VDict kv) "email") = "" ->
     process_steps svc msg w = (Ok MissingField, w) /\
     outcome_of (fst (process_steps svc msg w)) = DiscardMalformed /\
     process_one_message svc msg w = (Ok true, w) /\
     iteration svc msg processed w =
       (match delete_message svc w (QUEUE_URL svc) (ReceiptHandle msg) with
        | Ok _ => Ok (processed + 1)%Z
        | Raise x => Raise x
        end,
        (w ++ [DeleteMessage (QUEUE_URL svc) (ReceiptHandle msg)])%list)) /\
  (json_loads svc (body_raw msg) = None ->
     process_steps svc msg w = (Ok BadBody, w) /\
     process_one_message svc msg w = (Ok false, w) /\
     iteration svc msg processed w = (Ok processed, w)).
Proof.
  split.
  - intros kv Hp Tc Te Hempty.
    assert (P : process_steps svc msg w = (Ok MissingField, w)).
    { unfold process_steps. rewrite Hp. unfold bind, lift, ret.
      rewrite (trimmed_field kv "cuisine" Tc), (trimmed_field kv "email" Te).
      destruct Hempty as [-> | ->]; cbn [lower truthy String.eqb negb orb].
      - reflexivity.
      - now rewrite orb_true_r. }
    split; [exact P|]. split; [now rewrite P|].
    assert (Q : process_one_message svc msg w = (Ok true, w)).
    { unfold process_one_message, bind, ret. now rewrite P. }
    split; [exact Q|].
    unfold iteration, try_except, bind, ret, call. rewrite Q.
    destruct (delete_message svc w (QUEUE_URL svc) (ReceiptHandle msg));
      reflexivity.
  - intros Hp.
    assert (P : process_steps svc msg w = (Ok BadBody, w)).
    { unfold process_steps. now rewrite Hp. }
    split; [exact P|].
    assert (Q : process_one_message svc msg w = (Ok false, w)).
    { unfold process_one_message, bind, ret. now rewrite P. }
    split; [exact Q|].
    unfold iteration, try_except, bind, ret. rewrite Q. reflexivity.
Qed.

Lemma C1_witness :
  json_loads (Scenario.healthy []) (body_raw Scenario.blank) =
    Some (VDict [(VStr "cuisine", VStr "  "); (VStr "email", VStr "a@b.com")]) /\
  process_steps (Scenario.healthy []) Scenario.blank [] = (Ok MissingField, []) /\
  iteration (Scenario.healthy []) Scenario.blank 0 [] = (Ok 1%Z, [DeleteMessage "queue" "rh-3"]) /\
  iteration (Scenario.healthy []) Scenario.garbled 0 [] = (Ok 0%Z, []).
Proof.
  destruct (C1_malformed_payload (Scenario.healthy []) Scenario.blank 0 []) as [B _].
  destruct (C1_malformed_payload (Scenario.healthy []) Scenario.garbled 0 []) as [_ G].
  assert (Hp : json_loads (Scenario.healthy []) (body_raw Scenario.blank) =
               Some (VDict [(VStr "cuisine", VStr "  "); (VStr "email", VStr "a@b.com")]))
    by reflexivity.
  assert (Tc : trimmable (field_of (VDict [(VStr "cuisine", VStr "  ");
                                           (VStr "email", VStr "a@b.com")]) "cuisine"))
    by (right; eexists; reflexivity).
  assert (Te : trimmable (field_of (VDict [(VStr "cuisine", VStr "  ");
                                           (VStr "email", VStr "a@b.com")]) "email"))
    by (right; eexists; reflexivity).
  destruct (B _ Hp Tc Te (or_introl eq_refl)) as [P [_ [_ I]]].
  destruct (G eq_refl) as [_ [_ I']].
  split; [exact Hp|]. split; [exact P|]. split; [exact I | exact I'].
Defined.

(** Processing, up to the search. *)
Lemma process_steps_addressed (svc : services) (msg : message)
    (payload : value) (c e : string) (w : log) :
  well_addressed svc msg payload c e ->
  process_steps svc msg w =
    bind (sampling svc (lower c)) (fun sampled =>
      match sampled with
      | None => ret SearchFailed
      | Some [] => ret NoHits
      | Some ids =>
          try_except (ddb_get_many svc ids)
            (fun _ => ret StoreFailed)
            (fun details =>
               match resolve details ids with
               | [] => ret NoMatches
               | results =>
                   bind (lift (format_email
                           (enrich (lower c) (field_of payload "num_people")
                              (field_of payload "dining_date")
                              (field_of payload "dining_time") results)))
                     (fun text =>
                        bind (send_email svc e (subject_of (lower c)) text)
                          (fun sent => if sent then ret Sent else ret SendFailed))
               end)
      end) w.
Proof.
  intros [Hp [Hc [He [Nc Ne]]]].
  unfold process_steps. rewrite Hp. unfold bind at 1, lift at 1. rewrite Hc.
  unfold bind at 1, lift at 1. rewrite He.
  assert (Tc : truthy (VStr (lower c)) = true).
  { apply truthy_str. destruct c; [congruence | discriminate]. }
  assert (Te : truthy (VStr e) = true) by now apply truthy_str.
  rewrite Tc, Te. cbn [negb orb].
  assert (D : exists kv, payload = VDict kv).
  { unfold trimmed in Hc. destruct payload; try discriminate. eexists; reflexivity. }
  destruct D as [kv ->].
  unfold bind. destruct (sampling svc (lower c) w) as [[[ [|i ids] |] | x] w1]; try reflexivity.
  unfold try_except.
  destruct (ddb_get_many svc (i :: ids) w1) as [[details | x] w2]; [|reflexivity].
  destruct (resolve details (i :: ids)) as [|r results]; [reflexivity|].
  unfold lift, field_of. cbn [get].
  destruct (lookup (VStr "num_people") kv), (lookup (VStr "dining_date") kv),
    (lookup (VStr "dining_time") kv); reflexivity.
Qed.

(** Every [return] of [process_one_message] hands the handler the decision
    of the policy, but for line 159. *)
Lemma returned_is_policy (site : return_site) :
  returned site = acknowledged (Ok site).
Proof.
  destruct site; reflexivity.
Qed.

(** The loop follows the policy, and counts what it deletes. *)
Lemma for_messages_policy (svc : services) :
  forall msgs processed w,
  exists out w',
    for_messages svc msgs processed w = (out, w') /\
    policy_run svc msgs w processed out w'.
Proof.
  induction msgs as [|m rest IH]; intros processed w.
  - exists (Ok processed), w. split; [reflexivity | constructor].
  - cbn [for_messages]. unfold bind at 1.
    unfold iteration, process_one_message, try_except, bind, ret, call.
    destruct (process_steps svc m w) as [[site | e] w1] eqn:P.
    + destruct (returned site) eqn:R.
      * destruct (delete_message svc w1 (QUEUE_URL svc) (ReceiptHandle m)) as [[] | x] eqn:D.
        -- destruct (IH (processed + 1)%Z
                       (w1 ++ [DeleteMessage (QUEUE_URL svc) (ReceiptHandle m)])%list)
             as [out [w' [E Run]]].
           exists out, w'. split; [exact E|].
           apply (run_acknowledge svc m rest w processed (Ok site) w1 out w' P);
             [now rewrite <- returned_is_policy | exact D | exact Run].
        -- exists (Raise x), (w1 ++ [DeleteMessage (QUEUE_URL svc) (ReceiptHandle m)])%list.
           split; [reflexivity|].
           apply (run_refused svc m rest w processed (Ok site) w1 x P);
             [now rewrite <- returned_is_policy | exact D].
      * destruct (IH processed w1) as [out [w' [E Run]]].
        exists out, w'. split; [exact E|].
        apply (run_leave svc m rest w processed (Ok site) w1 out w' P); [|exact Run].
        now rewrite <- returned_is_policy.
    + destruct (IH processed w1) as [out [w' [E Run]]].
      exists out, w'. split; [exact E|].
      apply (run_leave svc m rest w processed (Raise e) w1 out w' P); [reflexivity | exact Run].
Qed.

(** A run ends with an exception only where the queue refuses a deletion. *)
Lemma policy_run_refusal (svc : services) (msgs : list message) (w : log) (p : Z)
    (out : result Z) (w' : log) :
  policy_run svc msgs w p out w' ->
  forall x, out = Raise x ->
  exists m w1,
    In m msgs /\
    delete_message svc w1 (QUEUE_URL svc) (ReceiptHandle m) = Raise x /\
    w' = (w1 ++ [delete_of svc m])%list.
Proof.
  induction 1 as [w p | m rest w p r w1 out w2 P A D Run IH
                  | m rest w p r w1 y P A D | m rest w p r w1 out w2 P A Run IH];
    intros x Hx.
  - discriminate.
  - destruct (IH x Hx) as [m' [w1' [I [D' E]]]].
    exists m', w1'. split; [now right | now split].
  - inversion Hx; subst y. exists m, w1. split; [now left | now split].
  - destruct (IH x Hx) as [m' [w1' [I [D' E]]]].
    exists m', w1'. split; [now right | now split].
Qed.

Lemma search_unavailable_site (svc : services) (msg : message) (w : log) :
  search_unavailable svc msg w -> fst (process_steps svc msg w) = Ok SearchFailed.
Proof.
  intros [payload [c [e [x [Hw Hs]]]]].
  rewrite (process_steps_addressed svc msg payload c e w Hw).
  unfold bind, sampling, try_except.
  destruct (os_random_ids_by_cuisine svc (lower c) (NUM_RESULTS svc * 2) w)
    as [[found | x'] w1]; cbn [fst] in Hs; [discriminate | reflexivity].
Qed.

Lemma store_unavailable_site (svc : services) (msg : message) (w : log) :
  store_unavailable svc msg w -> fst (process_steps svc msg w) = Ok StoreFailed.
Proof.
  intros [payload [c [e [ids [w1 [x [Hw [Hs [Hne Hf]]]]]]]]].
  rewrite (process_steps_addressed svc msg payload c e w Hw).
  unfold bind. rewrite Hs. destruct ids as [|i ids]; [congruence|].
  unfold try_except.
  destruct (ddb_get_many svc (i :: ids) w1) as [[details | x'] w2]; cbn [fst] in Hf;
    [discriminate | reflexivity].
Qed.

Lemma no_results_site (svc : services) (msg : message) (w : log) :
  no_results svc msg w ->
  fst (process_steps svc msg w) = Ok NoHits \/ fst (process_steps svc msg w) = Ok NoMatches.
Proof.
  intros [payload [c [e [w1 [Hw H]]]]].
  rewrite (process_steps_addressed svc msg payload c e w Hw). unfold bind.
  destruct H as [Hs | [ids [details [w2 [Hs [Hne [Hf Hr]]]]]]]; rewrite Hs.
  - left. reflexivity.
  - right. destruct ids as [|i ids]; [congruence|].
    unfold try_except. rewrite Hf, Hr. reflexivity.
Qed.

(** Once a message is composed, its fate is the delivery's. *)
Lemma composed_site (svc : services) (msg : message) (w : log)
    (e subject text : string) (w2 : log) :
  composed svc msg w e subject text w2 ->
  fst (process_steps svc msg w) =
    match fst (send_email svc e subject text w2) with
    | Ok true => Ok Sent
    | Ok false => Ok SendFailed
    | Raise x => Raise x
    end.
Proof.
  intros [payload [c [ids [w1 [details [Hw [Hs [Hne [Hf [Hr [-> Ht]]]]]]]]]]].
  rewrite (process_steps_addressed svc msg payload c e w Hw).
  unfold bind at 1. rewrite Hs. destruct ids as [|i ids]; [congruence|].
  unfold try_except. rewrite Hf.
  destruct (resolve details (i :: ids)) as [|r results]; [congruence|].
  unfold bind at 1, lift. rewrite Ht. unfold bind.
  destruct (send_email svc e (subject_of (lower c)) text w2) as [[[|] | x] w3]; reflexivity.
Qed.

(** C2, as the specification words it, fails twice.  A body that is not
    JSON ends in the outcome the design acknowledges, [DiscardMalformed],
    and yet no deletion is requested (line 159).  And the deletion is outside
    the [try] of lines 224-227: when the queue refuses it, the handler
    raises for that message, and the messages after it are not processed. *)
Lemma C2_counterexample :
  (outcome_of (fst (process_steps (Scenario.healthy [Scenario.garbled]) Scenario.garbled []))
     = DiscardMalformed /\
   acknowledges DiscardMalformed = true /\
   lambda_handler (Scenario.healthy [Scenario.garbled]) [] =
     (Ok (VDict [(VStr "ok", VBool true); (VStr "processed", VInt 0)]),
      [ReceiveMessage "queue" 10 30 3])) /\
  lambda_handler (Cases.stuck_queue [Scenario.blank; Scenario.request]) [] =
    (Raise (ClientError (Scenario.error_response "ReceiptHandleIsInvalid"
                           "The receipt handle is invalid.")),
     [ReceiveMessage "queue" 10 30 3; DeleteMessage "queue" "rh-3"]).
Proof.
  repeat split; vm_compute; reflexivity.
Qed.

(** C2 (amended): the handler asks the queue for at most 10 messages and
    processes those it receives in order.  It requests the deletion of a
    message exactly when [process_one_message] returns [True]: when the
    outcome is [Delivered], [DiscardNoResults], or [DiscardMalformed] for a
    request that lacks a field; a body that is not JSON is left on the
    queue, as is every transient failure: a failed search, fetch or
    delivery, or an exception out of [process_one_message], none of which
    leaves the handler.  The handler raises only when the queue refuses a
    call, and then with the queue's exception, right after that call;
    otherwise it returns an object whose [processed] is the number of
    messages deleted. *)
Theorem C2_acknowledgment (svc : services) (w : log) (inbox : option (list message)) :
  receive_message svc w (QUEUE_URL svc) = Ok inbox ->
  (exists out w',
     policy_run svc (match inbox with Some l => l | None => [] end)
       (w ++ [ReceiveMessage (QUEUE_URL svc) 10 30 3])%list 0 out w' /\
     snd (lambda_handler svc w) = w' /\
     match out with
     | Ok n =>
         exists reply,
           fst (lambda_handler svc w) = Ok reply /\
           field_of reply "processed" = VInt n /\
           field_of reply "ok" = VBool true
     | Raise x =>
         fst (lambda_handler svc w) = Raise x /\
         exists m w1,
           In m (match inbox with Some l => l | None => [] end) /\
           delete_message svc w1 (QUEUE_URL svc) (ReceiptHandle m) = Raise x /\
           w' = (w1 ++ [DeleteMessage (QUEUE_URL svc) (ReceiptHandle m)])%list
     end) /\
  (forall o, acknowledges o = true <->
             o = Delivered \/ o = DiscardMalformed \/ o = DiscardNoResults) /\
  (forall r, acknowledged r = true <->
             acknowledges (outcome_of r) = true /\ r <> Ok BadBody) /\
  (forall msg w0,
     json_loads svc (body_raw msg) = None ->
     process_steps svc msg w0 = (Ok BadBody, w0) /\
     outcome_of (fst (process_steps svc msg w0)) = DiscardMalformed /\
     acknowledged (fst (process_steps svc msg w0)) = false) /\
  (forall msg w0,
     search_unavailable svc msg w0 \/ store_unavailable svc msg w0 \/
     delivery_failed svc msg w0 \/ (exists x, fst (process_steps svc msg w0) = Raise x) ->
     outcome_of (fst (process_steps svc msg w0)) = TransientFailure /\
     acknowledged (fst (process_steps svc msg w0)) = false) /\
  (forall msg w0 e subject text w2,
     composed svc msg w0 e subject text w2 ->
     fst (send_email svc e subject text w2) = Ok true ->
     outcome_of (fst (process_steps svc msg w0)) = Delivered /\
     acknowledged (fst (process_steps svc msg w0)) = true) /\
  (forall msg w0,
     no_results svc msg w0 ->
     outcome_of (fst (process_steps svc msg w0)) = DiscardNoResults /\
     acknowledged (fst (process_steps svc msg w0)) = true).
Proof.
  intros Hrecv. split; [|split; [|split; [|split; [|split; [|split]]]]].
  - set (msgs := match inbox with Some l => l | None => [] end).
    set (w1 := (w ++ [ReceiveMessage (QUEUE_URL svc) 10 30 3])%list).
    assert (L : lambda_handler svc w =
                match msgs with
                | [] => (Ok (summary 0), w1)
                | _ =>
                    match for_messages svc msgs 0%Z w1 with
                    | (Ok n, w') => (Ok (summary n), w')
                    | (Raise x, w') => (Raise x, w')
                    end
                end).
    { unfold lambda_handler, bind, call, ret. rewrite Hrecv. fold msgs. fold w1.
      destruct msgs; [reflexivity|]. destruct (for_messages svc (m :: msgs) 0%Z w1) as [[n | x] w'];
        reflexivity. }
    rewrite L. destruct msgs as [|m rest] eqn:Hm.
    + exists (Ok 0%Z), w1. split; [constructor|]. split; [reflexivity|].
      eexists. split; [reflexivity|]. split; reflexivity.
    + destruct (for_messages_policy svc (m :: rest) 0%Z w1) as [out [w' [E Run]]].
      exists out, w'. split; [exact Run|].
      rewrite E. destruct out as [n | x]; cbn [fst snd].
      * split; [reflexivity|]. eexists. split; [reflexivity|]. split; reflexivity.
      * split; [reflexivity|]. split; [reflexivity|].
        exact (policy_run_refusal svc (m :: rest) w1 0%Z (Raise x) w' Run x eq_refl).
  - intros o. destruct o; cbn; split; intros H; try discriminate; auto;
      destruct H as [H | [H | H]]; discriminate.
  - intros [[] | x]; cbn; split; try (intros [H N]); try intros H;
      try discriminate; try (now destruct N); split; congruence.
  - intros msg w0 Hp.
    assert (P : process_steps svc msg w0 = (Ok BadBody, w0))
      by (unfold process_steps; now rewrite Hp).
    rewrite P. repeat split.
  - intros msg w0 [H | [H | [H | [x H]]]].
    + now rewrite (search_unavailable_site svc msg w0 H).
    + now rewrite (store_unavailable_site svc msg w0 H).
    + destruct H as [e [subject [text [w2 [Hc Hs]]]]].
      rewrite (composed_site svc msg w0 e subject text w2 Hc), Hs. split; reflexivity.
    + now rewrite H.
  - intros msg w0 e subject text w2 Hc Hs.
    rewrite (composed_site svc msg w0 e subject text w2 Hc), Hs. split; reflexivity.
  - intros msg w0 H. destruct (no_results_site svc msg w0 H) as [-> | ->]; split; reflexivity.
Qed.

Lemma C2_witness :
  receive_message (Scenario.healthy Scenario.inbox) []
    (QUEUE_URL (Scenario.healthy Scenario.inbox)) = Ok (Some Scenario.inbox) /\
  exists w',
    policy_run (Scenario.healthy Scenario.inbox) Scenario.inbox
      [ReceiveMessage "queue" 10 30 3] 0 (Ok 2%Z) w' /\
    lambda_handler (Scenario.healthy Scenario.inbox) [] =
      (Ok (VDict [(VStr "ok", VBool true); (VStr "processed", VInt 2)]), w').
Proof.
  assert (Hrecv : receive_message (Scenario.healthy Scenario.inbox) []
                    (QUEUE_URL (Scenario.healthy Scenario.inbox)) = Ok (Some Scenario.inbox))
    by reflexivity.
  destruct (C2_acknowledgment (Scenario.healthy Scenario.inbox) [] (Some Scenario.inbox)
              Hrecv) as [[out [w' [Run [Hw Hout]]]] _].
  assert (C : fst (lambda_handler (Scenario.healthy Scenario.inbox) []) =
              Ok (VDict [(VStr "ok", VBool true); (VStr "processed", VInt 2)]))
    by (vm_compute; reflexivity).
  split; [exact Hrecv|]. exists w'.
  destruct out as [n | x].
  - destruct Hout as [reply [Hr [Hn _]]]. rewrite C in Hr. inversion Hr; subst reply.
    cbn in Hn. inversion Hn; subst n. split; [exact Run|].
    rewrite (surjective_pairing (lambda_handler (Scenario.healthy Scenario.inbox) [])).
    now rewrite C, Hw.
  - destruct Hout as [Hout _]. rewrite C in Hout. discriminate.
Defined.

(** *** The run of the design's end-to-end scenario *)

(** One request for Italian food for two: three identifiers sampled, of
    which the table resolves two; the mail lists those two, the message is
    deleted and the run reports one processed. *)
Example end_to_end :
  lambda_handler (Scenario.healthy [Scenario.request]) [] =
    (Ok (summary 1),
     [ReceiveMessage "queue" 10 30 3;
      HttpRequest "POST" "https://search.example/restaurants/_search"
        (search_query "italian" 6);
      BatchGetItem "yelp-restaurants" (map ddb_key [VStr "id1"; VStr "id2"; VStr "id3"]);
      SendEmail "bot@example.com" "a@b.com" "Italian restaurant suggestions"
        ("Hello! Here are my Italian restaurant suggestions for 2 people, for Thursday, October 9, 2025 at 7 pm:"
         ++ newline ++ "1. Trattoria, located at 1 Main St"
         ++ newline ++ "2. Luigi's"
         ++ newline ++ newline ++ "Enjoy your meal!");
      DeleteMessage "queue" "rh-1"]).
Proof.
  vm_compute. reflexivity.
Qed.

(** The same request under each transient failure: no deletion, nothing
    processed, and no exception out of the handler. *)
Example transient_failures :
  lambda_handler (Scenario.search_down [Scenario.request]) [] =
    (Ok (summary 0),
     [ReceiveMessage "queue" 10 30 3;
      HttpRequest "POST" "https://search.example/restaurants/_search"
        (search_query "italian" 6)]) /\
  fst (lambda_handler (Scenario.store_down [Scenario.request]) []) = Ok (summary 0) /\
  fst (lambda_handler (Scenario.delivery_rejected [Scenario.request]) []) = Ok (summary 0) /\
  fst (process_steps (Scenario.search_down []) Scenario.request []) = Ok SearchFailed /\
  fst (process_steps (Scenario.store_down []) Scenario.request []) = Ok StoreFailed /\
  fst (process_steps (Scenario.delivery_rejected []) Scenario.request []) = Ok SendFailed /\
  fst (process_steps (Scenario.healthy []) Scenario.listed []) = Raise AttributeError.
Proof.
  repeat split; vm_compute; reflexivity.
Qed.

(* ================================================================== *)
(** ** Further properties of the worker *)
(* ================================================================== *)

Import Trace.

(** *** Logs of the stages *)

Lemma sampling_calls (svc : services) (cuisine : string) (w : log) :
  snd (sampling svc cuisine w) = (w ++ [search_call svc cuisine])%list.
Proof.
  pose proof (os_random_ids_log svc cuisine (NUM_RESULTS svc * 2) w) as L.
  unfold sampling, try_except, bind, lift, ret.
  destruct (os_random_ids_by_cuisine svc cuisine (NUM_RESULTS svc * 2) w)
    as [[found | e] w1]; cbn [snd] in *; subst w1; [|reflexivity].
  destruct (dedup_truncate svc found); reflexivity.
Qed.

Lemma ddb_get_many_calls (svc : services) (ids : list value) (w : log) :
  ids <> [] ->
  snd (ddb_get_many svc ids w) = (w ++ [fetch_call svc ids])%list.
Proof.
  intros Hne. destruct ids as [|i ids]; [congruence|].
  unfold ddb_get_many, bind, call, lift.
  destruct (batch_get_item svc w (DDB_TABLE svc) (map ddb_key (i :: ids))) as [res|];
    [|reflexivity].
  destruct (get res "Responses" (VDict [])) as [responses|]; [|reflexivity].
  destruct (get responses (DDB_TABLE svc) (VList [])) as [rows|]; [|reflexivity].
  destruct (iter rows); reflexivity.
Qed.

Lemma send_email_calls (svc : services) (to_addr subject text : string) (w : log) :
  snd (send_email svc to_addr subject text w) =
    (w ++ [mail_call svc to_addr subject text])%list.
Proof.
  unfold send_email, try_except, bind, call, lift, ret.
  destruct (ses_send_email svc w (SES_FROM svc) to_addr subject text) as [response | e].
  - destruct (getitem response "MessageId") as [id | e]; [reflexivity|].
    destruct e as [| | | | msg | r |]; try reflexivity.
    destruct (rbind (getitem r "Error") (fun error => getitem error "Message")); reflexivity.
  - destruct e as [| | | | msg | r |]; try reflexivity.
    destruct (rbind (getitem r "Error") (fun error => getitem error "Message")); reflexivity.
Qed.

(** *** What reaches the store *)

Lemma collect_ids_truthy (hits : list value) :
  forall acc ids,
    collect_ids hits acc = Ok ids ->
    exists new,
      ids = (acc ++ new)%list /\
      Forall (fun x => truthy x = true) new /\
      (List.length new <= List.length hits)%nat.
Proof.
  induction hits as [|h hits IH]; intros acc ids; cbn [collect_ids].
  - intros H. inversion H; subst. exists []. rewrite app_nil_r.
    repeat split; [constructor | reflexivity].
  - destruct (get h "_source" VNone) as [src0|]; [|discriminate]. cbn [rbind].
    destruct (get (por src0 (VDict [])) "restaurant_id" VNone) as [rid0|]; [|discriminate].
    cbn [rbind].
    destruct (if truthy rid0 then Ok rid0 else get h "_id" VNone) as [rid|]; [|discriminate].
    cbn [rbind]. destruct (truthy rid) eqn:T; intros H.
    + destruct (IH _ _ H) as [new [E [F L]]].
      exists (rid :: new). rewrite E, <- app_assoc. split; [reflexivity|].
      split; [constructor; assumption | cbn; lia].
    + destruct (IH _ _ H) as [new [E [F L]]].
      exists new. split; [exact E|]. split; [exact F | cbn; lia].
Qed.

Lemma os_random_ids_truthy (svc : services) (cuisine : string) (size : Z) (w : log)
    (found : list value) :
  fst (os_random_ids_by_cuisine svc cuisine size w) = Ok found ->
  Forall (fun x => truthy x = true) found.
Proof.
  unfold os_random_ids_by_cuisine, bind, lift.
  destruct (os_signed_request svc "POST" ("/" ++ OS_INDEX svc ++ "/_search")
              (search_query cuisine size) w) as [[res | e] w1]; [|discriminate].
  destruct (get res "hits" (VDict [])) as [outer|]; [|discriminate].
  destruct (get outer "hits" (VList [])) as [inner|]; [|discriminate].
  destruct (iter inner) as [hits|]; [|discriminate].
  cbn [fst]. intros H. destruct (collect_ids_truthy hits [] found H) as [new [E [F _]]].
  subst found. exact F.
Qed.

Lemma fromkeys_acc_hashable (xs : list value) :
  forall seen u, fromkeys_acc seen xs = Ok u -> Forall (fun x => hashable x = true) xs.
Proof.
  induction xs as [|x xs IH]; intros seen u; cbn [fromkeys_acc]; [constructor|].
  destruct (hashable x) eqn:Hx; cbn [negb]; [|discriminate].
  destruct (existsb (key_eqb x) seen); intros H; constructor; eauto.
Qed.

Lemma in_firstn {A : Type} (n : nat) (l : list A) (y : A) :
  In y (firstn n l) -> In y l.
Proof.
  intros H. rewrite <- (firstn_skipn n l). apply in_or_app. now left.
Qed.

(** What [sampling] hands over: distinct, hashable, truthy identifiers. *)
Lemma sampling_ids (svc : services) (cuisine : string) (w w1 : log) (ids : list value) :
  sampling svc cuisine w = (Ok (Some ids), w1) ->
  NoDup ids /\
  Forall (fun x => hashable x = true) ids /\
  Forall (fun x => truthy x = true) ids /\
  ((0 <= NUM_RESULTS svc)%Z -> (Z.of_nat (List.length ids) <= NUM_RESULTS svc)%Z).
Proof.
  pose proof (os_random_ids_truthy svc cuisine (NUM_RESULTS svc * 2) w) as Ht.
  unfold sampling, try_except, bind, lift, ret.
  destruct (os_random_ids_by_cuisine svc cuisine (NUM_RESULTS svc * 2) w)
    as [[found | e] w0]; [|discriminate].
  cbn [fst] in Ht. specialize (Ht found eq_refl).
  unfold dedup_truncate.
  destruct (fromkeys found) as [unique|] eqn:F; [|discriminate]. cbn [rbind].
  intros H. inversion H; subst ids w1. clear H.
  pose proof (fromkeys_acc_hashable found [] unique F) as Hh.
  destruct (fromkeys_first found Hh) as [u [F' O]].
  rewrite F in F'. inversion F'; subst u. clear F'.
  assert (In_found : forall y, In y (slice_to (NUM_RESULTS svc) unique) -> In y found).
  { intros y Hy. apply (first_occurrences_incl _ _ O).
    unfold slice_to in Hy.
    destruct (0 <=? NUM_RESULTS svc)%Z; exact (in_firstn _ _ _ Hy). }
  split; [|split; [|split]].
  - unfold slice_to. destruct (0 <=? NUM_RESULTS svc)%Z; apply NoDup_firstn;
      exact (first_occurrences_NoDup _ _ O Hh).
  - rewrite Forall_forall in *. intros y Hy. apply Hh. now apply In_found.
  - rewrite Forall_forall in *. intros y Hy. apply Ht. now apply In_found.
  - intros Hn. rewrite (slice_to_firstn _ _ Hn).
    pose proof (firstn_le_length (Z.to_nat (NUM_RESULTS svc)) unique). lia.
Qed.

(** *** The calls made for one message *)

Ltac calls_made k c ids e subject text :=
  exists k, c, ids, e, subject, text;
  cbn [fst snd firstn];
  split; [lia|];
  split; [rewrite ?app_nil_r, <- ?app_assoc; reflexivity|];
  split; [intros site Hsite; inversion Hsite; reflexivity
         | try (intros Hk; exfalso; lia)].

Lemma process_steps_calls (svc : services) (msg : message) (w : log) :
  exists k cuisine ids to_addr subject text,
    (k <= 3)%nat /\
    snd (process_steps svc msg w) =
      (w ++ firstn k [search_call svc cuisine; fetch_call svc ids;
                      mail_call svc to_addr subject text])%list /\
    (forall site, fst (process_steps svc msg w) = Ok site -> k = calls_before site) /\
    ((2 <= k)%nat ->
       ids <> [] /\ NoDup ids /\ Forall (fun x => truthy x = true) ids).
Proof.
  unfold process_steps.
  destruct (json_loads svc (body_raw msg)) as [payload|];
    [|calls_made 0%nat "" (@nil value) "" "" ""].
  unfold bind, lift, try_except, ret.
  destruct (trimmed payload "cuisine") as [c|x];
    [|calls_made 0%nat "" (@nil value) "" "" ""].
  destruct (trimmed payload "email") as [e|x];
    [|calls_made 0%nat "" (@nil value) "" "" ""].
  destruct (negb (truthy (VStr (lower c))) || negb (truthy (VStr e)));
    [calls_made 0%nat "" (@nil value) "" "" ""|].
  pose proof (sampling_calls svc (lower c) w) as Ls.
  destruct (sampling svc (lower c) w) as [[sampled | x] w1] eqn:Es;
    cbn [snd] in Ls; subst w1;
    [|calls_made 1%nat (lower c) (@nil value) "" "" ""].
  destruct sampled as [ids|]; [|calls_made 1%nat (lower c) (@nil value) "" "" ""].
  destruct ids as [|i ids]; [calls_made 1%nat (lower c) (@nil value) "" "" ""|].
  destruct (sampling_ids svc (lower c) w _ (i :: ids) Es) as [ND [_ [Ht _]]].
  assert (Hne : i :: ids <> []) by discriminate.
  pose proof (ddb_get_many_calls svc (i :: ids) (w ++ [search_call svc (lower c)])%list Hne) as Lf.
  destruct (ddb_get_many svc (i :: ids) (w ++ [search_call svc (lower c)])%list)
    as [[details | x] w2]; cbn [snd] in Lf; subst w2;
    [|calls_made 2%nat (lower c) (i :: ids) "" "" ""; intros _; auto].
  destruct (resolve details (i :: ids)) as [|r results];
    [calls_made 2%nat (lower c) (i :: ids) "" "" ""; intros _; auto|].
  destruct (get payload "num_people" VNone) as [party|];
    [|calls_made 2%nat (lower c) (i :: ids) "" "" ""; intros _; auto].
  destruct (get payload "dining_date" VNone) as [date|];
    [|calls_made 2%nat (lower c) (i :: ids) "" "" ""; intros _; auto].
  destruct (get payload "dining_time" VNone) as [time|];
    [|calls_made 2%nat (lower c) (i :: ids) "" "" ""; intros _; auto].
  destruct (format_email (enrich (lower c) party date time (r :: results))) as [text|];
    [|calls_made 2%nat (lower c) (i :: ids) "" "" ""; intros _; auto].
  pose proof (send_email_calls svc e (subject_of (lower c)) text
                ((w ++ [search_call svc (lower c)]) ++ [fetch_call svc (i :: ids)])%list) as Lm.
  destruct (send_email svc e (subject_of (lower c)) text
              ((w ++ [search_call svc (lower c)]) ++ [fetch_call svc (i :: ids)])%list)
    as [[[|] | x] w3]; cbn [snd] in Lm; subst w3;
    calls_made 3%nat (lower c) (i :: ids) e (subject_of (lower c)) text; intros _; auto.
Qed.

(** X1: processing one message makes at most three calls, in this order:
    one search, one batched fetch, one mail.  Each [return] is reached after
    a fixed number of them (none before the field check, the search before
    the empty-sample check, and so on), a mail is never sent without a
    search and a fetch before it, the queue is never touched, and the fetch
    is only made for a non-empty list of distinct, non-empty identifiers. *)
Theorem X1_calls_of_a_message (svc : services) (msg : message) (w : log) :
  exists k cuisine ids to_addr subject text,
    (k <= 3)%nat /\
    snd (process_steps svc msg w) =
      (w ++ firstn k [search_call svc cuisine; fetch_call svc ids;
                      mail_call svc to_addr subject text])%list /\
    (forall site, fst (process_steps svc msg w) = Ok site -> k = calls_before site) /\
    ((2 <= k)%nat ->
       ids <> [] /\ NoDup ids /\ Forall (fun x => truthy x = true) ids).
Proof.
  exact (process_steps_calls svc msg w).
Qed.

(** *** Identifiers that cannot be dictionary keys *)

Lemma fromkeys_acc_unhashable (xs : list value) :
  Exists (fun x => hashable x = false) xs ->
  forall seen, fromkeys_acc seen xs = Raise TypeError.
Proof.
  induction 1 as [x xs Hx | x xs _ IH]; intros seen; cbn [fromkeys_acc].
  - now rewrite Hx.
  - destruct (hashable x); cbn [negb]; [|reflexivity].
    destruct (existsb (key_eqb x) seen); apply IH.
Qed.

(** X2: the deduplication of line 174 is outside the [try] of the search.
    When the search returns identifiers that are all hashable, the sampling
    stage hands on distinct, non-empty identifiers, each one of those found;
    when one of them is a list or an object, [TypeError] leaves
    [process_one_message] after the search call alone, instead of the
    [False] of a failed search. *)
Theorem X2_unhashable_identifier (svc : services) (msg : message)
    (payload : value) (c e : string) (w : log) (found : list value) :
  well_addressed svc msg payload c e ->
  fst (os_random_ids_by_cuisine svc (lower c) (NUM_RESULTS svc * 2) w) = Ok found ->
  (Forall (fun x => hashable x = true) found ->
     exists ids,
       fst (sampling svc (lower c) w) = Ok (Some ids) /\
       NoDup ids /\
       Forall (fun x => truthy x = true) ids /\
       (forall x, In x ids -> In x found)) /\
  (Exists (fun x => hashable x = false) found ->
     process_steps svc msg w = (Raise TypeError, (w ++ [search_call svc (lower c)])%list)).
Proof.
  intros Hw Hf.
  pose proof (os_random_ids_truthy svc (lower c) (NUM_RESULTS svc * 2) w found Hf) as Ht.
  pose proof (os_random_ids_log svc (lower c) (NUM_RESULTS svc * 2) w) as L.
  assert (S : sampling svc (lower c) w =
              (match dedup_truncate svc found with
               | Ok ids => Ok (Some ids)
               | Raise x => Raise x
               end, (w ++ [search_call svc (lower c)])%list)).
  { unfold sampling, try_except, bind, lift, ret.
    destruct (os_random_ids_by_cuisine svc (lower c) (NUM_RESULTS svc * 2) w)
      as [[found' | x] w1]; cbn [fst snd] in *; [|discriminate].
    inversion Hf; subst found' w1. destruct (dedup_truncate svc found); reflexivity. }
  split.
  - intros Hh. destruct (fromkeys_first found Hh) as [unique [F O]].
    unfold dedup_truncate in S. rewrite F in S. cbn [rbind] in S.
    exists (slice_to (NUM_RESULTS svc) unique). rewrite S. cbn [fst].
    assert (In_found : forall y, In y (slice_to (NUM_RESULTS svc) unique) -> In y found).
    { intros y Hy. apply (first_occurrences_incl _ _ O).
      unfold slice_to in Hy.
      destruct (0 <=? NUM_RESULTS svc)%Z; exact (in_firstn _ _ _ Hy). }
    split; [reflexivity|]. split; [|split; [|exact In_found]].
    + unfold slice_to. destruct (0 <=? NUM_RESULTS svc)%Z; apply NoDup_firstn;
        exact (first_occurrences_NoDup _ _ O Hh).
    + rewrite Forall_forall in *. intros y Hy. apply Ht. now apply In_found.
  - intros Hu. unfold dedup_truncate, fromkeys in S.
    rewrite (fromkeys_acc_unhashable found Hu []) in S. cbn [rbind] in S.
    rewrite (process_steps_addressed svc msg payload c e w Hw).
    unfold bind. rewrite S. reflexivity.
Qed.

(** *** The loop over the hits *)

Lemma get_field (kv : list (value * value)) (k : string) :
  get (VDict kv) k VNone = Ok (field_of (VDict kv) k).
Proof.
  unfold field_of. cbn [get]. destruct (lookup (VStr k) kv); reflexivity.
Qed.

Lemma source_is_object (h : value) : is_hit h -> exists src, source_of h = VDict src.
Proof.
  intros [kv [-> Hsrc]]. unfold source_of, por.
  destruct (truthy (field_of (VDict kv) "_source")).
  - exact (Hsrc eq_refl).
  - exists []. reflexivity.
Qed.

(** One turn of the loop of lines 59-63. *)
Lemma collect_ids_step (h : value) (hits ids : list value) :
  is_hit h ->
  collect_ids (h :: hits) ids =
    collect_ids hits (if truthy (hit_id h) then (ids ++ [hit_id h])%list else ids).
Proof.
  intros Hh. destruct (source_is_object h Hh) as [src Hs].
  destruct Hh as [kv [-> _]].
  cbn [collect_ids]. rewrite get_field. cbn [rbind].
  fold (source_of (VDict kv)). unfold hit_id. rewrite Hs, get_field. cbn [rbind].
  unfold por. destruct (truthy (field_of (VDict src) "restaurant_id")) eqn:T; cbn [rbind].
  - now rewrite T.
  - rewrite get_field. reflexivity.
Qed.

(** X3: over hits that are objects (with a [_source] that is an object,
    null or missing), the loop of [os_random_ids_by_cuisine] raises nothing
    and returns, in the order of the hits, the identifier of every hit that
    has one: the source's [restaurant_id] when it is non-empty, else the
    document's [_id]; hits with neither are skipped. *)
Theorem X3_ids_of_hits (hits : list value) :
  Forall is_hit hits ->
  forall ids,
    collect_ids hits ids =
      Ok (ids ++ filter truthy (map hit_id hits))%list.
Proof.
  induction 1 as [|h hits Hh _ IH]; intros ids.
  - cbn. now rewrite app_nil_r.
  - rewrite (collect_ids_step h hits ids Hh), IH. cbn [map filter].
    destruct (truthy (hit_id h)); [|reflexivity].
    now rewrite <- app_assoc.
Qed.

(** *** Deletions *)

Lemma deletions_app (a b : log) :
  deletions (a ++ b)%list = (deletions a ++ deletions b)%list.
Proof.
  induction a as [|ev a IH]; [reflexivity|]. destruct ev; cbn; now rewrite IH.
Qed.

Lemma receptions_app (a b : log) :
  receptions (a ++ b)%list = (receptions a + receptions b)%nat.
Proof.
  induction a as [|ev a IH]; [reflexivity|]. destruct ev; cbn; now rewrite IH.
Qed.

Lemma subsequence_length {A : Type} (u l : list A) :
  subsequence u l -> (List.length u <= List.length l)%nat.
Proof.
  induction 1; cbn; lia.
Qed.

(** Processing a message leaves the queue alone. *)
Lemma process_steps_quiet (svc : services) (msg : message) (w : log) :
  exists evs,
    snd (process_steps svc msg w) = (w ++ evs)%list /\
    deletions evs = [] /\ receptions evs = 0%nat.
Proof.
  destruct (process_steps_calls svc msg w) as [k [c [ids [e [subject [text [Hk [L _]]]]]]]].
  eexists. split; [exact L|].
  destruct k as [|[|[|[|k]]]]; try lia; split; reflexivity.
Qed.

Lemma for_messages_deletions (svc : services) :
  (forall w h, delete_message svc w (QUEUE_URL svc) h = Ok tt) ->
  forall msgs processed w,
  exists evs,
    for_messages svc msgs processed w =
      (Ok (processed + Z.of_nat (List.length (deletions evs)))%Z, (w ++ evs)%list) /\
    receptions evs = 0%nat /\
    subsequence (deletions evs) (map ReceiptHandle msgs).
Proof.
  intros Hdel. induction msgs as [|m rest IH]; intros processed w.
  - exists []. cbn. rewrite Z.add_0_r, app_nil_r. repeat split. constructor.
  - cbn [for_messages]. unfold bind at 1.
    unfold iteration, process_one_message, try_except, bind, ret, call.
    destruct (process_steps_quiet svc m w) as [evs0 [L [D0 R0]]].
    destruct (process_steps svc m w) as [[site | x] w1]; cbn [snd] in L; subst w1.
    + destruct (returned site).
      * rewrite Hdel.
        destruct (IH (processed + 1)%Z
                    ((w ++ evs0) ++ [DeleteMessage (QUEUE_URL svc) (ReceiptHandle m)])%list)
          as [evs [E [R Sub]]].
        exists (evs0 ++ DeleteMessage (QUEUE_URL svc) (ReceiptHandle m) :: evs)%list.
        rewrite E. rewrite deletions_app, receptions_app, D0, R0. cbn.
        split; [|split; [exact R | constructor; exact Sub]].
        f_equal; [f_equal; lia|].
        rewrite <- !app_assoc. reflexivity.
      * destruct (IH processed (w ++ evs0)%list) as [evs [E [R Sub]]].
        exists (evs0 ++ evs)%list. rewrite E, deletions_app, receptions_app, D0, R0. cbn.
        split; [now rewrite app_assoc|]. split; [exact R | constructor; exact Sub].
    + destruct (IH processed (w ++ evs0)%list) as [evs [E [R Sub]]].
      exists (evs0 ++ evs)%list. rewrite E, deletions_app, receptions_app, D0, R0. cbn.
      split; [now rewrite app_assoc|]. split; [exact R | constructor; exact Sub].
Qed.

(** X4: as long as the queue carries out the deletions, one invocation of
    the handler receives once, at the start; it returns an object whose
    [processed] is the number of deletions it requested and whose [ok] is
    true; and the deleted receipt handles are
    those of some of the received messages, in the order received and each
    message at most once, so that the count never exceeds the batch. *)
Theorem X4_deletions_of_a_run (svc : services) (w : log) (inbox : option (list message)) :
  (forall w' h, delete_message svc w' (QUEUE_URL svc) h = Ok tt) ->
  receive_message svc w (QUEUE_URL svc) = Ok inbox ->
  exists evs reply,
    lambda_handler svc w =
      (Ok reply, (w ++ ReceiveMessage (QUEUE_URL svc) 10 30 3 :: evs)%list) /\
    field_of reply "processed" = VInt (Z.of_nat (List.length (deletions evs))) /\
    field_of reply "ok" = VBool true /\
    receptions evs = 0%nat /\
    subsequence (deletions evs)
      (map ReceiptHandle (match inbox with Some l => l | None => [] end)) /\
    (List.length (deletions evs)
       <= List.length (match inbox with Some l => l | None => [] end))%nat.
Proof.
  intros Hdel Hrecv.
  unfold lambda_handler, bind at 1, call. rewrite Hrecv.
  set (msgs := match inbox with Some l => l | None => [] end).
  destruct (for_messages_deletions svc Hdel msgs 0%Z
              (w ++ [ReceiveMessage (QUEUE_URL svc) 10 30 3])%list) as [evs [E [R Sub]]].
  exists evs, (summary (Z.of_nat (List.length (deletions evs)))).
  assert (Len : (List.length (deletions evs) <= List.length msgs)%nat).
  { pose proof (subsequence_length _ _ Sub) as H. now rewrite length_map in H. }
  split; [|split; [reflexivity|split; [reflexivity|
            split; [exact R | split; [exact Sub | exact Len]]]]].
  destruct msgs as [|m rest] eqn:Hm.
  - cbn [for_messages] in E. unfold ret in *. inversion E as [[E1 E2]].
    assert (evs = []).
    { apply (app_inv_head (w ++ [ReceiveMessage (QUEUE_URL svc) 10 30 3])%list).
      now rewrite app_nil_r. }
    subst evs. reflexivity.
  - unfold bind, ret. rewrite E. cbn [Z.add]. now rewrite <- app_assoc.
Qed.

(** X5: the calls to the queue are outside the [try] of the loop.  When the
    deletion of an acknowledged message raises, the exception leaves the
    handler at once: the messages after it are neither processed nor
    deleted in that invocation.  When receiving raises, the handler raises
    after that one call. *)
Theorem X5_queue_errors_propagate (svc : services) (m : message) (rest : list message)
    (processed : Z) (w w1 : log) (site : return_site) (x : exn) :
  process_steps svc m w = (Ok site, w1) ->
  returned site = true ->
  delete_message svc w1 (QUEUE_URL svc) (ReceiptHandle m) = Raise x ->
  for_messages svc (m :: rest) processed w =
    (Raise x, (w1 ++ [DeleteMessage (QUEUE_URL svc) (ReceiptHandle m)])%list) /\
  (forall w0 inbox,
     receive_message svc w0 (QUEUE_URL svc) = Ok (Some inbox) ->
     (w0 ++ [ReceiveMessage (QUEUE_URL svc) 10 30 3])%list = w ->
     inbox = m :: rest ->
     lambda_handler svc w0 =
       (Raise x, (w1 ++ [DeleteMessage (QUEUE_URL svc) (ReceiptHandle m)])%list)) /\
  (forall w0 y,
     receive_message svc w0 (QUEUE_URL svc) = Raise y ->
     lambda_handler svc w0 =
       (Raise y, (w0 ++ [ReceiveMessage (QUEUE_URL svc) 10 30 3])%list)).
Proof.
  intros P R D.
  assert (F : for_messages svc (m :: rest) processed w =
              (Raise x, (w1 ++ [DeleteMessage (QUEUE_URL svc) (ReceiptHandle m)])%list)).
  { cbn [for_messages]. unfold bind at 1.
    unfold iteration, process_one_message, try_except, bind, ret, call.
    rewrite P, R, D. reflexivity. }
  split; [exact F|]. split.
  - intros w0 inbox Hr Hw Hi. subst inbox.
    unfold lambda_handler, bind at 1, call. rewrite Hr, Hw.
    unfold bind.
    assert (F0 : for_messages svc (m :: rest) 0%Z w =
              (Raise x, (w1 ++ [DeleteMessage (QUEUE_URL svc) (ReceiptHandle m)])%list)).
    { cbn [for_messages]. unfold bind at 1.
      unfold iteration, process_one_message, try_except, bind, ret, call.
      rewrite P, R, D. reflexivity. }
    rewrite F0. reflexivity.
  - intros w0 y Hr. unfold lambda_handler, bind, call. rewrite Hr. reflexivity.
Qed.

(** *** The order of the store's answer *)

Lemma row_with_id_or_not (rows : list value) (id : string) :
  Forall is_row rows ->
  (exists row, In row rows /\ g row "BusinessID" "S" = Ok (VStr id)) \/
  (forall row, In row rows -> g row "BusinessID" "S" <> Ok (VStr id)).
Proof.
  induction 1 as [|row rows [attrs [-> [_ [id0 Hid]]]] _ IH].
  - right. intros row [].
  - destruct (string_dec id0 id) as [-> | Hne].
    + left. exists (VDict attrs). split; [now left | exact Hid].
    + destruct IH as [[row [Hin Hg]] | Hnone].
      * left. exists row. split; [now right | exact Hg].
      * right. intros row [<- | Hin]; [|now apply Hnone].
        rewrite Hid. intros H. inversion H. contradiction.
Qed.

Lemma resolve_length (details : list (value * value)) (ids : list value) :
  (List.length (resolve details ids) <= List.length ids)%nat.
Proof.
  induction ids as [|i ids IH]; cbn [resolve]; [lia|].
  destruct (lookup i details); cbn; lia.
Qed.

(** X6: the records are listed in the order of the sampled identifiers,
    whatever the order in which the store returns its rows: two answers
    holding the same rows give the same list of records, which is never
    longer than the list of identifiers. *)
Theorem X6_order_of_rows_is_irrelevant (rows1 rows2 : list value) :
  Forall is_row rows1 ->
  NoDup (map row_id rows1) ->
  Permutation rows1 rows2 ->
  exists details1 details2,
    fill_out rows1 [] = Ok details1 /\
    fill_out rows2 [] = Ok details2 /\
    forall ids,
      resolve details1 (map VStr ids) = resolve details2 (map VStr ids) /\
      (List.length (resolve details1 (map VStr ids)) <= List.length ids)%nat.
Proof.
  intros F1 ND1 P.
  assert (F2 : Forall is_row rows2).
  { rewrite Forall_forall in *. intros row Hrow. apply F1.
    exact (Permutation_in _ (Permutation_sym P) Hrow). }
  assert (ND2 : NoDup (map row_id rows2)).
  { exact (Permutation_NoDup (Permutation_map row_id P) ND1). }
  destruct (fill_out_rows rows1 F1 ND1 []) as [d1 [E1 [In1 Out1]]].
  destruct (fill_out_rows rows2 F2 ND2 []) as [d2 [E2 [In2 Out2]]].
  exists d1, d2. split; [exact E1|]. split; [exact E2|].
  assert (Same : forall id, lookup (VStr id) d1 = lookup (VStr id) d2).
  { intros id. destruct (row_with_id_or_not rows1 id F1) as [[row [Hin Hg]] | Hnone].
    - destruct (In1 row id Hin Hg) as [n1 [a1 [Hn1 [Ha1 L1]]]].
      destruct (In2 row id (Permutation_in _ P Hin) Hg) as [n2 [a2 [Hn2 [Ha2 L2]]]].
      rewrite Hn1 in Hn2. rewrite Ha1 in Ha2. inversion Hn2. inversion Ha2. subst.
      now rewrite L1, L2.
    - rewrite (Out1 id Hnone).
      rewrite Out2; [reflexivity|].
      intros row Hrow. apply Hnone. exact (Permutation_in _ (Permutation_sym P) Hrow). }
  intros ids. split.
  - induction ids as [|id ids IH]; [reflexivity|].
    cbn [map resolve]. rewrite Same, IH. reflexivity.
  - pose proof (resolve_length d1 (map VStr ids)) as H. now rewrite length_map in H.
Qed.

(** *** Answers of the index that are no results *)

(** X7: when the index answers with a status other than 200 and 201, or
    with a body that is not JSON, [os_signed_request] raises (for the status,
    a [RuntimeError] quoting the status and the body), the message ends at
    the [return False] of line 172 after that single call, and neither the
    store nor the mail provider is called. *)
Theorem X7_index_says_no (svc : services) (msg : message) (payload : value)
    (c e : string) (w : log) (status : Z) (data : string) :
  well_addressed svc msg payload c e ->
  http_request svc w "POST" (OS_ENDPOINT svc ++ "/" ++ OS_INDEX svc ++ "/_search")
    (search_query (lower c) (NUM_RESULTS svc * 2)) = Ok (status, data) ->
  (status <> 200%Z /\ status <> 201%Z) \/ json_loads svc data = None ->
  process_steps svc msg w = (Ok SearchFailed, (w ++ [search_call svc (lower c)])%list) /\
  (status <> 200%Z -> status <> 201%Z ->
     fst (os_signed_request svc "POST" ("/" ++ OS_INDEX svc ++ "/_search")
            (search_query (lower c) (NUM_RESULTS svc * 2)) w) =
       Raise (RuntimeError ("OpenSearch " ++ str_of_Z status ++ ": " ++ data))).
Proof.
  intros Hw Hh Hbad.
  assert (R : forall s, (s =? 200)%Z || (s =? 201)%Z = false <-> s <> 200%Z /\ s <> 201%Z).
  { intros s. rewrite orb_false_iff, !Z.eqb_neq. tauto. }
  split.
  - rewrite (process_steps_addressed svc msg payload c e w Hw).
    pose proof (sampling_calls svc (lower c) w) as L.
    unfold bind.
    assert (S : fst (sampling svc (lower c) w) = Ok None).
    { unfold sampling, try_except, os_random_ids_by_cuisine, os_signed_request,
        bind, call, lift, ret. rewrite Hh.
      destruct Hbad as [Hs | Hj].
      - apply R in Hs. rewrite Hs. reflexivity.
      - destruct (negb ((status =? 200)%Z || (status =? 201)%Z)); [reflexivity|].
        rewrite Hj. reflexivity. }
    destruct (sampling svc (lower c) w) as [r w1]. cbn [fst snd] in *. subst. reflexivity.
  - intros H1 H2. unfold os_signed_request, bind, call, lift. rewrite Hh.
    rewrite (proj2 (R status) (conj H1 H2)). reflexivity.
Qed.

(** X8: when the index answers 200 or 201 with an object that has no
    [hits] key, or whose [hits] has no inner [hits] or an empty one, no key
    error is raised: the sample is empty, the message ends at the
    [return True] of line 177 after the search call alone, and will be
    deleted. *)
Theorem X8_answer_without_hits (svc : services) (msg : message) (payload : value)
    (c e : string) (w : log) (status : Z) (data : string) (res : value) :
  well_addressed svc msg payload c e ->
  http_request svc w "POST" (OS_ENDPOINT svc ++ "/" ++ OS_INDEX svc ++ "/_search")
    (search_query (lower c) (NUM_RESULTS svc * 2)) = Ok (status, data) ->
  status = 200%Z \/ status = 201%Z ->
  json_loads svc data = Some res ->
  without_hits res ->
  process_steps svc msg w = (Ok NoHits, (w ++ [search_call svc (lower c)])%list) /\
  returned NoHits = true.
Proof.
  intros Hw Hh Hs Hj [kv [-> Hkv]]. split; [|reflexivity].
  rewrite (process_steps_addressed svc msg payload c e w Hw).
  pose proof (sampling_calls svc (lower c) w) as L.
  unfold bind.
  assert (S : fst (sampling svc (lower c) w) = Ok (Some [])).
  { unfold sampling, try_except, os_random_ids_by_cuisine, os_signed_request,
      bind, call, lift, ret. rewrite Hh.
    assert (Hst : negb ((status =? 200)%Z || (status =? 201)%Z) = false).
    { destruct Hs as [-> | ->]; reflexivity. }
    rewrite Hst, Hj. cbn [get].
    assert (E : dedup_truncate svc [] = Ok []).
    { unfold dedup_truncate, fromkeys, slice_to. cbn [fromkeys_acc rbind].
      destruct (0 <=? NUM_RESULTS svc)%Z; now rewrite firstn_nil. }
    destruct Hkv as [H1 | [inner [H1 H2]]]; rewrite H1; cbn [get lookup iter collect_ids fst].
    - now rewrite E.
    - destruct H2 as [H2 | H2]; rewrite H2; cbn [iter collect_ids fst]; now rewrite E. }
  destruct (sampling svc (lower c) w) as [r w1]. cbn [fst snd] in *. subst. reflexivity.
Qed.

(** *** The properties above on concrete runs *)

Lemma request_is_well_addressed (svc : services) :
  json_loads svc = Json.loads ->
  well_addressed svc Scenario.request Cases.request_payload "italian" "a@b.com".
Proof.
  intros H. unfold well_addressed. rewrite H.
  repeat split; try reflexivity; discriminate.
Qed.

Lemma X2_witness :
  well_addressed Cases.odd_index Scenario.request Cases.request_payload "italian" "a@b.com" /\
  fst (os_random_ids_by_cuisine Cases.odd_index (lower "italian")
         (NUM_RESULTS Cases.odd_index * 2) []) = Ok [VList [VInt 1]] /\
  Exists (fun x => hashable x = false) [VList [VInt 1]] /\
  process_steps Cases.odd_index Scenario.request [] =
    (Raise TypeError, [search_call Cases.odd_index "italian"]).
Proof.
  assert (Hw : well_addressed Cases.odd_index Scenario.request Cases.request_payload
                 "italian" "a@b.com") by (apply request_is_well_addressed; reflexivity).
  assert (Hf : fst (os_random_ids_by_cuisine Cases.odd_index (lower "italian")
                      (NUM_RESULTS Cases.odd_index * 2) []) = Ok [VList [VInt 1]])
    by (vm_compute; reflexivity).
  assert (Hu : Exists (fun x => hashable x = false) [VList [VInt 1]])
    by (constructor; reflexivity).
  destruct (X2_unhashable_identifier Cases.odd_index Scenario.request Cases.request_payload
              "italian" "a@b.com" [] _ Hw Hf) as [_ H].
  split; [exact Hw|]. split; [exact Hf|]. split; [exact Hu|]. exact (H Hu).
Defined.

Lemma mixed_hits_are_hits : Forall is_hit Cases.mixed_hits.
Proof.
  repeat constructor; eexists; (split; [reflexivity|]); cbn;
    try discriminate; intros _; eexists; reflexivity.
Qed.

Lemma X3_witness :
  Forall is_hit Cases.mixed_hits /\
  collect_ids Cases.mixed_hits [] = Ok [VStr "id1"; VStr "doc-2"; VStr "doc-4"; VStr "doc-5"].
Proof.
  split; [exact mixed_hits_are_hits|].
  exact (X3_ids_of_hits Cases.mixed_hits mixed_hits_are_hits []).
Defined.

Lemma X4_witness :
  (forall w' h, delete_message (Scenario.healthy Scenario.inbox) w'
                  (QUEUE_URL (Scenario.healthy Scenario.inbox)) h = Ok tt) /\
  receive_message (Scenario.healthy Scenario.inbox) []
    (QUEUE_URL (Scenario.healthy Scenario.inbox)) = Ok (Some Scenario.inbox) /\
  exists evs,
    lambda_handler (Scenario.healthy Scenario.inbox) [] =
      (Ok (VDict [(VStr "ok", VBool true); (VStr "processed", VInt 2)]),
       ReceiveMessage "queue" 10 30 3 :: evs) /\
    deletions evs = ["rh-1"; "rh-3"] /\
    subsequence (deletions evs) ["rh-1"; "rh-2"; "rh-3"; "rh-4"].
Proof.
  assert (Hdel : forall w' h, delete_message (Scenario.healthy Scenario.inbox) w'
                   (QUEUE_URL (Scenario.healthy Scenario.inbox)) h = Ok tt)
    by (intros; reflexivity).
  assert (Hrecv : receive_message (Scenario.healthy Scenario.inbox) []
                    (QUEUE_URL (Scenario.healthy Scenario.inbox)) = Ok (Some Scenario.inbox))
    by reflexivity.
  destruct (X4_deletions_of_a_run (Scenario.healthy Scenario.inbox) [] (Some Scenario.inbox)
              Hdel Hrecv) as [evs [reply [E [_ [_ [_ [Sub _]]]]]]].
  split; [exact Hdel|]. split; [exact Hrecv|].
  exists evs.
  assert (D : deletions evs = ["rh-1"; "rh-3"]).
  { assert (C : deletions (snd (lambda_handler (Scenario.healthy Scenario.inbox) [])) =
                ["rh-1"; "rh-3"]) by (vm_compute; reflexivity).
    rewrite E in C. exact C. }
  assert (F : fst (lambda_handler (Scenario.healthy Scenario.inbox) []) =
              Ok (VDict [(VStr "ok", VBool true); (VStr "processed", VInt 2)]))
    by (vm_compute; reflexivity).
  rewrite E in F. cbn [fst] in F. inversion F; subst reply.
  split; [exact E|]. split; [exact D | exact Sub].
Defined.

Lemma X5_witness :
  process_steps (Cases.stuck_queue [Scenario.request; Scenario.blank]) Scenario.request
    [ReceiveMessage "queue" 10 30 3] =
    (Ok Sent, snd (process_steps (Cases.stuck_queue [Scenario.request; Scenario.blank])
                     Scenario.request [ReceiveMessage "queue" 10 30 3])) /\
  lambda_handler (Cases.stuck_queue [Scenario.request; Scenario.blank]) [] =
    (Raise (ClientError (Scenario.error_response "ReceiptHandleIsInvalid" "The receipt handle is invalid.")),
     (snd (process_steps (Cases.stuck_queue [Scenario.request; Scenario.blank])
             Scenario.request [ReceiveMessage "queue" 10 30 3])
      ++ [DeleteMessage "queue" "rh-1"])%list).
Proof.
  assert (P : process_steps (Cases.stuck_queue [Scenario.request; Scenario.blank])
                Scenario.request [ReceiveMessage "queue" 10 30 3] =
              (Ok Sent, snd (process_steps (Cases.stuck_queue [Scenario.request; Scenario.blank])
                     Scenario.request [ReceiveMessage "queue" 10 30 3])))
    by (vm_compute; reflexivity).
  destruct (X5_queue_errors_propagate (Cases.stuck_queue [Scenario.request; Scenario.blank])
              Scenario.request [Scenario.blank] 0 _ _ Sent
              (ClientError (Scenario.error_response "ReceiptHandleIsInvalid" "The receipt handle is invalid.")) P eq_refl eq_refl) as [_ [H _]].
  split; [exact P|].
  exact (H [] [Scenario.request; Scenario.blank] eq_refl eq_refl eq_refl).
Defined.

Lemma table_rows_are_rows : Forall is_row Scenario.table_rows.
Proof.
  repeat constructor; eexists; (split; [reflexivity|]);
    (split; [repeat constructor; eexists; reflexivity | eexists; reflexivity]).
Qed.

Lemma table_rows_distinct : NoDup (map row_id Scenario.table_rows).
Proof.
  repeat constructor; cbn; intuition discriminate.
Qed.

Lemma X6_witness :
  Forall is_row Scenario.table_rows /\
  NoDup (map row_id Scenario.table_rows) /\
  Permutation Scenario.table_rows (rev Scenario.table_rows) /\
  exists details1 details2,
    fill_out Scenario.table_rows [] = Ok details1 /\
    fill_out (rev Scenario.table_rows) [] = Ok details2 /\
    resolve details1 (map VStr ["id3"; "id2"; "id1"]) =
    resolve details2 (map VStr ["id3"; "id2"; "id1"]).
Proof.
  assert (P : Permutation Scenario.table_rows (rev Scenario.table_rows))
    by apply Permutation_rev.
  destruct (X6_order_of_rows_is_irrelevant Scenario.table_rows (rev Scenario.table_rows)
              table_rows_are_rows table_rows_distinct P) as [d1 [d2 [E1 [E2 H]]]].
  split; [exact table_rows_are_rows|]. split; [exact table_rows_distinct|].
  split; [exact P|]. exists d1, d2. split; [exact E1|]. split; [exact E2|].
  exact (proj1 (H ["id3"; "id2"; "id1"])).
Defined.

Lemma X7_witness :
  well_addressed (Scenario.search_down []) Scenario.request Cases.request_payload
    "italian" "a@b.com" /\
  process_steps (Scenario.search_down []) Scenario.request [] =
    (Ok SearchFailed, [search_call (Scenario.search_down []) "italian"]) /\
  fst (os_signed_request (Scenario.search_down []) "POST" "/restaurants/_search"
         (search_query "italian" 6) []) = Raise (RuntimeError "OpenSearch 503: busy").
Proof.
  assert (Hw : well_addressed (Scenario.search_down []) Scenario.request
                 Cases.request_payload "italian" "a@b.com")
    by (apply request_is_well_addressed; reflexivity).
  assert (Hs : (503 <> 200 /\ 503 <> 201)%Z) by (split; discriminate).
  destruct (X7_index_says_no (Scenario.search_down []) Scenario.request Cases.request_payload
              "italian" "a@b.com" [] 503%Z "busy" Hw eq_refl (or_introl Hs)) as [P R].
  split; [exact Hw|]. split; [exact P|]. exact (R (proj1 Hs) (proj2 Hs)).
Defined.

Lemma X8_witness :
  well_addressed Cases.empty_index Scenario.request Cases.request_payload
    "italian" "a@b.com" /\
  without_hits (VDict []) /\
  process_steps Cases.empty_index Scenario.request [] =
    (Ok NoHits, [search_call Cases.empty_index "italian"]).
Proof.
  assert (Hw : well_addressed Cases.empty_index Scenario.request
                 Cases.request_payload "italian" "a@b.com")
    by (apply request_is_well_addressed; reflexivity).
  assert (Hn : without_hits (VDict [])).
  { exists []. split; [reflexivity | left; reflexivity]. }
  destruct (X8_answer_without_hits Cases.empty_index Scenario.request Cases.request_payload
              "italian" "a@b.com" [] 200%Z "{}" (VDict []) Hw eq_refl
              (or_introl eq_refl) eq_refl Hn) as [P _].
  split; [exact Hw|]. split; [exact Hn | exact P].
Defined.

(** *** The time shown in the mail *)

Lemma in_range_bounds (lo hi : Z) (c : ascii) :
  in_range lo hi c = true -> (lo <= digit c <= hi)%Z.
Proof.
  unfold in_range. rewrite !andb_true_iff, !Z.leb_le. tauto.
Qed.

Lemma two_bounds (a b c d : Z) (s : string) (v : Z) (r : string) :
  In (v, r) (two a b c d s) -> (10 * a + c <= v <= 10 * b + d)%Z.
Proof.
  unfold two. destruct s as [|x [|y rest]]; try (intros []).
  destruct (in_range a b x) eqn:X; cbn [andb]; [|intros []].
  destruct (in_range c d y) eqn:Y; [|intros []].
  intros [H | []]. apply pair_equal_spec in H. destruct H as [<- _].
  apply in_range_bounds in X. apply in_range_bounds in Y. lia.
Qed.

Lemma one_bounds (a b : Z) (s : string) (v : Z) (r : string) :
  In (v, r) (one a b s) -> (a <= v <= b)%Z.
Proof.
  unfold one. destruct s as [|x rest]; [intros []|].
  destruct (in_range a b x) eqn:X; [|intros []].
  intros [H | []]. apply pair_equal_spec in H. destruct H as [<- _].
  now apply in_range_bounds.
Qed.

Lemma dir_H_bounds (s : string) (v : Z) (r : string) :
  In (v, r) (dir_H s) -> (0 <= v <= 23)%Z.
Proof.
  unfold dir_H, alt. rewrite !in_app_iff.
  intros [H | [H | H]];
    [apply two_bounds in H | apply two_bounds in H | apply one_bounds in H]; lia.
Qed.

Lemma dir_M_bounds (s : string) (v : Z) (r : string) :
  In (v, r) (dir_M s) -> (0 <= v <= 59)%Z.
Proof.
  unfold dir_M, alt. rewrite !in_app_iff.
  intros [H | H]; [apply two_bounds in H | apply one_bounds in H]; lia.
Qed.

(** What [strptime] reads with [%H:%M] is a time of day. *)
Lemma strptime_time_bounds (s : string) (t : time) :
  strptime_time s = Some t ->
  (0 <= hour t <= 23)%Z /\ (0 <= minute t <= 59)%Z.
Proof.
  unfold strptime_time.
  set (found := flat_map _ (dir_H s)).
  assert (Hin : forall h mi r, In (h, mi, r) found ->
            (0 <= h <= 23)%Z /\ (0 <= mi <= 59)%Z).
  { intros h mi r H. unfold found in H.
    apply in_flat_map in H. destruct H as [[h' s1] [H1 H]].
    apply in_flat_map in H. destruct H as [s2 [_ H]].
    apply in_map_iff in H. destruct H as [[mi' s3] [E H3]].
    inversion E; subst. split; [exact (dir_H_bounds _ _ _ H1) | exact (dir_M_bounds _ _ _ H3)]. }
  destruct found as [|[[h mi] r] rest]; [discriminate|].
  destruct r; [|discriminate].
  intros H. inversion H; subst. cbn [hour minute].
  apply (Hin h mi ""). now left.
Qed.

(** X9: a time that parses as 24-hour HH:MM is shown on a 12-hour clock:
    the mail reads "at H am" or "at H pm" with H between 1 and 12, H equal to
    the hour modulo 12 (12 for midnight and noon), "am" before noon and "pm"
    from noon on; the minutes are read but never shown. *)
Theorem X9_twelve_hour_clock (c : string) (p d : value) (rs : list value)
    (s : string) (t : time) :
  strptime_time s = Some t ->
  exists h12,
    (1 <= h12 <= 12)%Z /\
    (h12 mod 12 = hour t mod 12)%Z /\
    (0 <= hour t <= 23)%Z /\
    time_parts (enrich c p d (VStr s) rs) =
      Ok ["at " ++ str_of_Z h12 ++ " " ++ (if (hour t <? 12)%Z then "am" else "pm")] /\
    (forall t', hour t' = hour t -> strftime_time t' = strftime_time t).
Proof.
  intros Hs. destruct (strptime_time_bounds s t Hs) as [Hh _].
  assert (Hne : s <> "").
  { intros ->. discriminate. }
  exists (if (hour t mod 12 =? 0)%Z then 12%Z else (hour t mod 12)%Z).
  pose proof (Z.mod_pos_bound (hour t) 12 ltac:(lia)) as Hm.
  split; [|split; [|split; [exact Hh | split]]].
  - destruct (hour t mod 12 =? 0)%Z eqn:E; [lia|]. apply Z.eqb_neq in E. lia.
  - destruct (hour t mod 12 =? 0)%Z eqn:E.
    + apply Z.eqb_eq in E. now rewrite E.
    + now rewrite Z.mod_mod by lia.
  - rewrite (time_parts_enrich c p d (VStr s) rs) by (right; eexists; reflexivity).
    unfold when_texts. cbn [app].
    assert (T : truthy (VStr s) = true) by now apply truthy_str.
    rewrite T. unfold time_text. rewrite Hs. reflexivity.
  - intros t' Ht. unfold strftime_time. now rewrite Ht.
Qed.

Lemma X9_witness :
  strptime_time "00:45" = Some {| hour := 0; minute := 45 |} /\
  time_parts (enrich "italian" VNone VNone (VStr "00:45") []) = Ok ["at 12 am"].
Proof.
  destruct (X9_twelve_hour_clock "italian" VNone VNone [] "00:45"
              {| hour := 0; minute := 45 |} eq_refl) as [h12 [R [M [_ [T _]]]]].
  split; [reflexivity|].
  assert (H : h12 = 12%Z).
  { cbn [hour] in M. change (0 mod 12)%Z with 0%Z in M.
    apply Z.mod_divide in M; [|lia]. destruct M as [k Hk]. lia. }
  subst h12. exact T.
Defined.

(* ================================================================== *)
(** ** Properties of the dialog hook *)
(* ================================================================== *)

(** *** Characters *)

Lemma to_lower_to_upper (c : ascii) : to_lower (to_upper c) = to_lower c.
Proof.
  destruct c as [[] [] [] [] [] [] [] []]; reflexivity.
Qed.

Lemma to_lower_idem (c : ascii) : to_lower (to_lower c) = to_lower c.
Proof.
  destruct c as [[] [] [] [] [] [] [] []]; reflexivity.
Qed.

Lemma is_space_to_lower (c : ascii) : is_space (to_lower c) = is_space c.
Proof.
  destruct c as [[] [] [] [] [] [] [] []]; reflexivity.
Qed.

Lemma lower_idem (s : string) : lower (lower s) = lower s.
Proof.
  induction s as [|c s IH]; cbn [lower]; [reflexivity|].
  now rewrite to_lower_idem, IH.
Qed.

Lemma lower_capitalize (s : string) : lower (LF1.capitalize s) = lower s.
Proof.
  destruct s as [|c s]; [reflexivity|].
  cbn [LF1.capitalize lower]. now rewrite to_lower_to_upper, lower_idem.
Qed.

Lemma lower_empty (s : string) : lower s = "" -> s = "".
Proof.
  destruct s; [reflexivity | discriminate].
Qed.

(** *** Trimming *)

Lemma lstrip_lower (s : string) : lstrip (lower s) = lower (lstrip s).
Proof.
  induction s as [|c s IH]; [reflexivity|].
  cbn [lower lstrip]. rewrite is_space_to_lower.
  destruct (is_space c); [exact IH | reflexivity].
Qed.

Lemma rstrip_lower (s : string) : rstrip (lower s) = lower (rstrip s).
Proof.
  induction s as [|c s IH]; [reflexivity|].
  cbn [lower rstrip]. rewrite IH, is_space_to_lower.
  destruct (rstrip s) as [|d r]; cbn [lower].
  - destruct (is_space c); reflexivity.
  - reflexivity.
Qed.

Lemma strip_lower (s : string) : strip (lower s) = lower (strip s).
Proof.
  unfold strip. now rewrite lstrip_lower, rstrip_lower.
Qed.

Lemma rstrip_cons (c : ascii) (s : string) :
  rstrip (String c s) =
    match rstrip s with
    | EmptyString => if is_space c then EmptyString else String c EmptyString
    | t => String c t
    end.
Proof.
  reflexivity.
Qed.

Lemma rstrip_idem (s : string) : rstrip (rstrip s) = rstrip s.
Proof.
  induction s as [|c s IH]; [reflexivity|].
  rewrite rstrip_cons. destruct (rstrip s) as [|d r] eqn:R.
  - destruct (is_space c) eqn:C; [reflexivity|]. rewrite rstrip_cons. cbn [rstrip].
    now rewrite C.
  - rewrite rstrip_cons, IH. reflexivity.
Qed.

Lemma lstrip_left_trimmed (s : string) : Lex.left_trimmed (lstrip s).
Proof.
  induction s as [|c s IH]; cbn [lstrip]; [exact I|].
  destruct (is_space c) eqn:C; [exact IH | exact C].
Qed.

Lemma lstrip_fixed (s : string) : Lex.left_trimmed s -> lstrip s = s.
Proof.
  destruct s as [|c s]; [reflexivity|]. cbn. now intros ->.
Qed.

Lemma rstrip_left_trimmed (s : string) : Lex.left_trimmed s -> Lex.left_trimmed (rstrip s).
Proof.
  destruct s as [|c s]; [trivial|]. rewrite rstrip_cons. cbn [Lex.left_trimmed]. intros C.
  destruct (rstrip s); [rewrite C|]; exact C.
Qed.

Lemma strip_idem (s : string) : strip (strip s) = strip s.
Proof.
  unfold strip.
  rewrite (lstrip_fixed (rstrip (lstrip s))).
  - apply rstrip_idem.
  - apply rstrip_left_trimmed, lstrip_left_trimmed.
Qed.

(** *** The validators and the worker *)

Lemma is_ascii_lstrip (s : string) : LF1.is_ascii s = true -> LF1.is_ascii (lstrip s) = true.
Proof.
  induction s as [|a s IH]; [trivial|]. cbn [lstrip].
  destruct (is_space a); [|trivial].
  cbn [LF1.is_ascii]. intros H. apply andb_true_iff in H. now apply IH.
Qed.

Lemma is_ascii_rstrip (s : string) : LF1.is_ascii s = true -> LF1.is_ascii (rstrip s) = true.
Proof.
  induction s as [|a s IH]; [trivial|]. rewrite rstrip_cons. cbn [LF1.is_ascii].
  intros H. apply andb_true_iff in H. destruct H as [Ha Hs]. specialize (IH Hs).
  destruct (rstrip s) as [|b r].
  - destruct (is_space a); [reflexivity|]. cbn [LF1.is_ascii]. now rewrite Ha.
  - cbn [LF1.is_ascii] in *. now rewrite Ha, IH.
Qed.

Lemma is_ascii_strip (s : string) : LF1.is_ascii s = true -> LF1.is_ascii (strip s) = true.
Proof.
  intros H. unfold strip. now apply is_ascii_rstrip, is_ascii_lstrip.
Qed.

(** On ASCII text the validator is computed here. *)
Lemma is_valid_cuisine_ascii (cl : LF1.clients) (s : string) :
  LF1.is_ascii s = true ->
  LF1.is_valid_cuisine cl (VStr s) =
    existsb (String.eqb (LF1.capitalize (strip s))) LF1.ALLOWED_CUISINES.
Proof.
  intros H. unfold LF1.is_valid_cuisine, LF1.str_strip, LF1.str_capitalize.
  now rewrite H, (is_ascii_strip s H).
Qed.

(** X10: a cuisine of ASCII text that the dialog accepts is, once
    normalised as the hook normalises it before sending, one of the five
    cuisines the ingestion script collects; the worker's subject line shows
    it under the name of the hook's list of allowed cuisines. *)
Theorem X10_valid_cuisine_is_ingested (cl : LF1.clients) (s : string) :
  LF1.is_ascii s = true ->
  LF1.is_valid_cuisine cl (VStr s) = true ->
  LF1.normalised (VStr s) = Ok (VStr (lower (strip s))) /\
  In (lower (strip s)) Ingest.CUISINES /\
  In (title (lower (strip s))) LF1.ALLOWED_CUISINES /\
  subject_of (lower (strip s)) = LF1.capitalize (strip s) ++ " restaurant suggestions".
Proof.
  intros A H. rewrite (is_valid_cuisine_ascii cl s A) in H.
  assert (Hs : s <> "").
  { intros ->. discriminate. }
  assert (N : LF1.normalised (VStr s) = Ok (VStr (lower (strip s)))).
  { unfold LF1.normalised. apply truthy_str in Hs. now rewrite Hs. }
  split; [exact N|].
  assert (L : lower (strip s) = lower (LF1.capitalize (strip s)))
    by now rewrite lower_capitalize.
  unfold subject_of. rewrite L.
  cbn [existsb LF1.ALLOWED_CUISINES] in H.
  repeat rewrite orb_true_iff in H.
  destruct H as [H | [H | [H | [H | [H | H]]]]]; try discriminate;
    apply String.eqb_eq in H; rewrite H; cbn; intuition.
Qed.

Lemma X10_witness :
  LF1.is_ascii "  iTALian " = true /\
  LF1.is_valid_cuisine Handoff.hook (VStr "  iTALian ") = true /\
  LF1.normalised (VStr "  iTALian ") = Ok (VStr "italian") /\
  In "italian" Ingest.CUISINES.
Proof.
  destruct (X10_valid_cuisine_is_ingested Handoff.hook "  iTALian " eq_refl eq_refl)
    as [N [I _]].
  split; [reflexivity|]. split; [reflexivity|]. split; [exact N | exact I].
Defined.

(** X11: the worker normalises the cuisine the way the hook already did
    (trim, then lower case), and doing it twice changes nothing: whatever
    text the cuisine slot holds, the cuisine the worker searches for is
    exactly the one the hook put in the message. *)
Theorem X11_normalised_once (s : string) (l d t n e : value) :
  LF1.normalised (VStr s) = Ok (VStr (lower (strip s))) /\
  trimmed (LF1.request_of l (VStr (lower (strip s))) d t n e) "cuisine"
    = Ok (lower (strip s)) /\
  lower (lower (strip s)) = lower (strip s) /\
  strip (strip s) = strip s.
Proof.
  split; [|split; [|split; [apply lower_idem | apply strip_idem]]].
  - unfold LF1.normalised. cbn [truthy str_method rbind].
    destruct (String.eqb_spec s ""); cbn [negb]; [subst; reflexivity | reflexivity].
  - unfold trimmed, LF1.request_of.
    cbn [get lookup key_eqb String.eqb Ascii.eqb Bool.eqb rbind].
    unfold por. destruct (truthy (VStr (lower (strip s)))) eqn:T; cbn [str_method].
    + now rewrite strip_lower, strip_idem.
    + cbn [truthy] in T. destruct (String.eqb_spec (lower (strip s)) "") as [E | E];
        [now rewrite E | discriminate].
Qed.

(** The hook's test of the date against today. *)
Lemma valid_date_parsed (today : date) (d : value) :
  LF1.is_valid_date today d = true ->
  exists sd dd, d = VStr sd /\ strptime_date sd = Some dd /\ LF1.date_geb dd today = true.
Proof.
  destruct d as [| | |sd| |]; try discriminate. cbn [LF1.is_valid_date].
  destruct (strptime_date sd) as [dd|] eqn:P; [|discriminate].
  intros H. exists sd, dd. split; [reflexivity|]. split; [exact P | exact H].
Qed.

Lemma valid_time_parsed (t : value) :
  LF1.is_valid_time t = true ->
  exists st tt, t = VStr st /\ strptime_time st = Some tt.
Proof.
  destruct t as [| | |st| |]; try discriminate. cbn [LF1.is_valid_time].
  destruct (strptime_time st) as [tt|] eqn:P; [|discriminate].
  intros _. exists st, tt. split; [reflexivity | exact P].
Qed.

(** X12: a date and a time the dialog accepts are never shown raw by the
    worker: the date, which is not before the day of the dialog, appears in
    the long form and the time on the 12-hour clock; a time the dialog
    would reject appears as it came. *)
Theorem X12_validated_when (today : date) (d t : value) :
  LF1.is_valid_date today d = true ->
  LF1.is_valid_time t = true ->
  exists sd st dd tt,
    d = VStr sd /\ t = VStr st /\
    strptime_date sd = Some dd /\ strptime_time st = Some tt /\
    LF1.date_geb dd today = true /\
    (forall c p rs,
       intro_line (enrich c p d t rs) =
         Ok (greeting c ++ party_clause p ++ ", for " ++ strftime_date dd ++
             " at " ++ strftime_time tt ++ ":")) /\
    (forall c p rs raw,
       raw <> "" -> LF1.is_valid_time (VStr raw) = false ->
       time_parts (enrich c p d (VStr raw) rs) = Ok ["at " ++ raw]).
Proof.
  intros Hd Ht.
  destruct (valid_date_parsed today d Hd) as [sd [dd [-> [Pd Ge]]]].
  destruct (valid_time_parsed t Ht) as [st [tt [-> Pt]]].
  exists sd, st, dd, tt. repeat split; trivial.
  - intros c p rs.
    rewrite (intro_line_enrich c p (VStr sd) (VStr st) rs)
      by (right; eexists; reflexivity).
    assert (Td : truthy (VStr sd) = true).
    { apply truthy_str. intros ->. discriminate. }
    assert (Tt : truthy (VStr st) = true).
    { apply truthy_str. intros ->. discriminate. }
    unfold when_clause, when_texts. rewrite Td, Tt. cbn [app join].
    unfold date_text, time_text. rewrite Pd, Pt.
    now rewrite !append_assoc.
  - intros c p rs raw Hne Hbad.
    rewrite (time_parts_enrich c p (VStr sd) (VStr raw) rs)
      by (right; eexists; reflexivity).
    unfold when_texts. cbn [app].
    assert (T : truthy (VStr raw) = true) by now apply truthy_str.
    rewrite T. unfold time_text. cbn [LF1.is_valid_time] in Hbad.
    destruct (strptime_time raw); [discriminate | reflexivity].
Qed.

Lemma X12_witness :
  LF1.is_valid_date {| year := 2025; month := 10; day := 1 |} (VStr "2025-10-09") = true /\
  LF1.is_valid_time (VStr "19:00") = true /\
  intro_line (Scenario.italian (VStr "2") (VStr "2025-10-09") (VStr "19:00")) =
    Ok "Hello! Here are my Italian restaurant suggestions for 2 people, for Thursday, October 9, 2025 at 7 pm:".
Proof.
  destruct (X12_validated_when {| year := 2025; month := 10; day := 1 |}
              (VStr "2025-10-09") (VStr "19:00") eq_refl eq_refl)
    as [sd [st [dd [tt [Ed [Et [Pd [Pt [_ [H _]]]]]]]]]].
  inversion Ed; subst sd. inversion Et; subst st.
  inversion Pd; subst dd. inversion Pt; subst tt.
  split; [reflexivity|]. split; [reflexivity|].
  exact (H "italian" (VStr "2") Scenario.records).
Defined.

(** *** The handler of the hook *)

Lemma get_slot_value_of (v : option string) (before after : list (value * value))
    (name : string) :
  lookup (VStr name) before = None ->
  LF1.get_slot_value (VDict (before ++ (VStr name, Lex.slot_of v) :: after)) name
    = Ok (Lex.value_of v).
Proof.
  intros Hb. unfold LF1.get_slot_value. cbn [get].
  assert (L : lookup (VStr name) (before ++ (VStr name, Lex.slot_of v) :: after)
              = Some (Lex.slot_of v)).
  { induction before as [|[k x] before IH]; cbn [app lookup] in *.
    - cbn [key_eqb]. now rewrite String.eqb_refl.
    - destruct (key_eqb (VStr name) k); [discriminate | exact (IH Hb)]. }
  rewrite L. destruct v as [s|]; reflexivity.
Qed.

Lemma slots_read (s : Lex.slots) :
  LF1.get_slot_value (Lex.slots_of s) "Location" = Ok (Lex.value_of (Lex.Location s)) /\
  LF1.get_slot_value (Lex.slots_of s) "Cuisine" = Ok (Lex.value_of (Lex.Cuisine s)) /\
  LF1.get_slot_value (Lex.slots_of s) "DiningDate" = Ok (Lex.value_of (Lex.DiningDate s)) /\
  LF1.get_slot_value (Lex.slots_of s) "DiningTime" = Ok (Lex.value_of (Lex.DiningTime s)) /\
  LF1.get_slot_value (Lex.slots_of s) "NumberOfPeople"
    = Ok (Lex.value_of (Lex.NumberOfPeople s)) /\
  LF1.get_slot_value (Lex.slots_of s) "Email" = Ok (Lex.value_of (Lex.Email s)).
Proof.
  unfold Lex.slots_of.
  set (a := (VStr "Location", Lex.slot_of (Lex.Location s))).
  set (b := (VStr "Cuisine", Lex.slot_of (Lex.Cuisine s))).
  set (c := (VStr "DiningDate", Lex.slot_of (Lex.DiningDate s))).
  set (d := (VStr "DiningTime", Lex.slot_of (Lex.DiningTime s))).
  set (e := (VStr "NumberOfPeople", Lex.slot_of (Lex.NumberOfPeople s))).
  set (f := (VStr "Email", Lex.slot_of (Lex.Email s))).
  repeat split.
  - exact (get_slot_value_of _ [] [b; c; d; e; f] "Location" eq_refl).
  - exact (get_slot_value_of _ [a] [c; d; e; f] "Cuisine" eq_refl).
  - exact (get_slot_value_of _ [a; b] [d; e; f] "DiningDate" eq_refl).
  - exact (get_slot_value_of _ [a; b; c] [e; f] "DiningTime" eq_refl).
  - exact (get_slot_value_of _ [a; b; c; d] [f] "NumberOfPeople" eq_refl).
  - exact (get_slot_value_of _ [a; b; c; d; e] [] "Email" eq_refl).
Qed.

(** The handler up to the branch on the invocation source. *)
Lemma handler_on_event (cl : LF1.clients) (today : date) (source : string)
    (s : Lex.slots) (sent : list string) :
  LF1.lambda_handler cl today (Lex.event_of source "DiningSuggestionsIntent" s) sent =
    let event := Lex.event_of source "DiningSuggestionsIntent" s in
    let cuisine := Lex.value_of (Lex.Cuisine s) in
    let email := Lex.value_of (Lex.Email s) in
    let dining_date := Lex.value_of (Lex.DiningDate s) in
    let dining_time := Lex.value_of (Lex.DiningTime s) in
    let num_people := Lex.value_of (Lex.NumberOfPeople s) in
    if String.eqb source "DialogCodeHook" then
      if truthy cuisine && negb (LF1.is_valid_cuisine cl cuisine) then
        (LF1.elicit_slot event "Cuisine" LF1.sorry_cuisine, sent)
      else
        match (if truthy email
               then rbind (LF1.is_valid_email email) (fun ok => Ok (negb (truthy ok)))
               else Ok false) with
        | Raise x => (Raise x, sent)
        | Ok true => (LF1.elicit_slot event "Email" LF1.sorry_email, sent)
        | Ok false =>
            if truthy dining_date && negb (LF1.is_valid_date today dining_date) then
              (LF1.elicit_slot event "DiningDate" LF1.sorry_date, sent)
            else if truthy dining_time && negb (LF1.is_valid_time dining_time) then
              (LF1.elicit_slot event "DiningTime" LF1.sorry_time, sent)
            else if truthy num_people && negb (LF1.is_valid_number num_people) then
              (LF1.elicit_slot event "NumberOfPeople" LF1.sorry_number, sent)
            else (LF1.delegate event, sent)
        end
    else if String.eqb source "FulfillmentCodeHook" then
      match LF1.normalised cuisine with
      | Raise x => (Raise x, sent)
      | Ok normal =>
          let data := LF1.request_of (Lex.value_of (Lex.Location s)) normal dining_date
                        dining_time num_people email in
          match LF1.send_message cl sent LF1.QUEUE_URL (LF1.json_dumps cl data) with
          | Ok _ => (LF1.close "Fulfilled" LF1.thanks event,
                     (sent ++ [LF1.json_dumps cl data])%list)
          | Raise x => (Raise x, (sent ++ [LF1.json_dumps cl data])%list)
          end
      end
    else (Ok VNone, sent).
Proof.
  destruct (slots_read s) as [Hl [Hc [Hd [Ht [Hn He]]]]].
  unfold LF1.lambda_handler, LF1.qbind, LF1.qlift, LF1.qret, LF1.push_to_sqs.
  assert (I : LF1.intent_of (Lex.event_of source "DiningSuggestionsIntent" s)
              = Ok (Lex.intent_of "DiningSuggestionsIntent" s)) by reflexivity.
  assert (N : getitem (Lex.intent_of "DiningSuggestionsIntent" s) "name"
              = Ok (VStr "DiningSuggestionsIntent")) by reflexivity.
  assert (V : get (Lex.event_of source "DiningSuggestionsIntent" s) "invocationSource" VNone
              = Ok (VStr source)) by reflexivity.
  assert (S : getitem (Lex.intent_of "DiningSuggestionsIntent" s) "slots"
              = Ok (Lex.slots_of s)) by reflexivity.
  rewrite I, N, V, S.
  change (LF1.equals_text (VStr "DiningSuggestionsIntent") "DiningSuggestionsIntent")
    with true.
  cbv iota beta.
  rewrite Hl, Hc, Hd, Ht, Hn, He. cbn [LF1.equals_text]. cbv zeta.
  destruct (String.eqb source "DialogCodeHook").
  - destruct (truthy (Lex.value_of (Lex.Cuisine s)) &&
              negb (LF1.is_valid_cuisine cl (Lex.value_of (Lex.Cuisine s)))); [reflexivity|].
    destruct (if truthy (Lex.value_of (Lex.Email s))
              then rbind (LF1.is_valid_email (Lex.value_of (Lex.Email s)))
                     (fun ok => Ok (negb (truthy ok)))
              else Ok false) as [[|]|]; try reflexivity.
    destruct (truthy (Lex.value_of (Lex.DiningDate s)) &&
              negb (LF1.is_valid_date today (Lex.value_of (Lex.DiningDate s))));
      [reflexivity|].
    destruct (truthy (Lex.value_of (Lex.DiningTime s)) &&
              negb (LF1.is_valid_time (Lex.value_of (Lex.DiningTime s))));
      [reflexivity|].
    destruct (truthy (Lex.value_of (Lex.NumberOfPeople s)) &&
              negb (LF1.is_valid_number (Lex.value_of (Lex.NumberOfPeople s))));
      reflexivity.
  - destruct (String.eqb source "FulfillmentCodeHook"); [|reflexivity].
    destruct (LF1.normalised (Lex.value_of (Lex.Cuisine s))); [|reflexivity].
    destruct (LF1.send_message cl sent LF1.QUEUE_URL _); reflexivity.
Qed.

(** X13: whatever the event, one invocation of the hook sends at most one
    message to the queue, and sends one only when the intent is
    [DiningSuggestionsIntent] and the invocation source is the fulfillment
    hook; every other invocation leaves the queue alone. *)
Theorem X13_one_message_on_fulfillment (cl : LF1.clients) (today : date)
    (event : value) (sent : list string) :
  snd (LF1.lambda_handler cl today event sent) = sent \/
  (exists data intent name,
     snd (LF1.lambda_handler cl today event sent) = (sent ++ [LF1.json_dumps cl data])%list /\
     LF1.intent_of event = Ok intent /\
     getitem intent "name" = Ok name /\
     LF1.equals_text name "DiningSuggestionsIntent" = true /\
     LF1.equals_text (field_of event "invocationSource") "FulfillmentCodeHook" = true /\
     LF1.equals_text (field_of event "invocationSource") "DialogCodeHook" = false).
Proof.
  unfold LF1.lambda_handler, LF1.qbind, LF1.qlift, LF1.qret, LF1.push_to_sqs.
  destruct (LF1.intent_of event) as [intent|] eqn:Hi; [|now left].
  destruct (getitem intent "name") as [name|] eqn:Hn; [|now left].
  destruct (get event "invocationSource" VNone) as [source|] eqn:Hs; [|now left].
  destruct (getitem intent "slots") as [slots|]; [|now left].
  destruct (LF1.equals_text name "DiningSuggestionsIntent") eqn:Hd0; [|now left].
  destruct (LF1.get_slot_value slots "Location") as [location|]; [|now left].
  destruct (LF1.get_slot_value slots "Cuisine") as [cuisine|]; [|now left].
  destruct (LF1.get_slot_value slots "DiningDate") as [dining_date|]; [|now left].
  destruct (LF1.get_slot_value slots "DiningTime") as [dining_time|]; [|now left].
  destruct (LF1.get_slot_value slots "NumberOfPeople") as [num_people|]; [|now left].
  destruct (LF1.get_slot_value slots "Email") as [email|]; [|now left].
  destruct (LF1.equals_text source "DialogCodeHook") eqn:Hd.
  - left.
    destruct (truthy cuisine && negb (LF1.is_valid_cuisine cl cuisine)); [reflexivity|].
    destruct (if truthy email
              then rbind (LF1.is_valid_email email) (fun ok => Ok (negb (truthy ok)))
              else Ok false) as [[|]|]; try reflexivity.
    destruct (truthy dining_date && negb (LF1.is_valid_date today dining_date));
      [reflexivity|].
    destruct (truthy dining_time && negb (LF1.is_valid_time dining_time)); [reflexivity|].
    destruct (truthy num_people && negb (LF1.is_valid_number num_people)); reflexivity.
  - destruct (LF1.equals_text source "FulfillmentCodeHook") eqn:Hf; [|now left].
    destruct (LF1.normalised cuisine) as [normal|]; [|now left].
    right.
    exists (LF1.request_of location normal dining_date dining_time num_people email),
      intent, name.
    assert (F : field_of event "invocationSource" = source)
      by (unfold field_of; now rewrite Hs).
    rewrite F.
    split; [destruct (LF1.send_message cl sent LF1.QUEUE_URL _); reflexivity|].
    split; [reflexivity|]. split; [exact Hn|]. split; [exact Hd0|]. split; assumption.
Qed.

Lemma dialog_check (filled : option string) (valid : value -> bool) :
  truthy (Lex.value_of filled) && negb (valid (Lex.value_of filled)) =
  negb (match filled with
        | Some x => negb (truthy (VStr x)) || valid (VStr x)
        | None => true
        end).
Proof.
  destruct filled as [x|]; [|reflexivity]. cbn [Lex.value_of].
  destruct (truthy (VStr x)), (valid (VStr x)); reflexivity.
Qed.

(** X14: in the dialog hook, a turn of the intent replies without raising
    and without sending anything; the reply asks again for the first slot,
    in the order cuisine, email, date, time, number of people, that is
    filled with a value its validator rejects; when there is none the reply
    delegates: its dialog action is [Delegate] and it hands the intent back
    as it came.  Slots that are empty are never asked for again. *)
Theorem X14_dialog_asks_again (cl : LF1.clients) (today : date) (s : Lex.slots)
    (sent : list string) :
  exists reply,
    LF1.lambda_handler cl today
      (Lex.event_of "DialogCodeHook" "DiningSuggestionsIntent" s) sent = (Ok reply, sent) /\
    Lex.elicited reply =
      (if negb (Lex.cuisine_ok cl s) then Some (VStr "Cuisine")
       else if negb (Lex.email_ok s) then Some (VStr "Email")
       else if negb (Lex.date_ok today s) then Some (VStr "DiningDate")
       else if negb (Lex.time_ok s) then Some (VStr "DiningTime")
       else if negb (Lex.number_ok s) then Some (VStr "NumberOfPeople")
       else None) /\
    field_of (field_of (field_of reply "sessionState") "dialogAction") "type" =
      VStr (match Lex.elicited reply with
            | Some _ => "ElicitSlot"
            | None => "Delegate"
            end) /\
    (Lex.elicited reply = None ->
     reply =
       VDict [(VStr "sessionState",
               VDict [(VStr "dialogAction", VDict [(VStr "type", VStr "Delegate")]);
                      (VStr "intent", Lex.intent_of "DiningSuggestionsIntent" s)])]).
Proof.
  rewrite handler_on_event. cbv zeta. cbn [String.eqb Ascii.eqb Bool.eqb].
  rewrite (dialog_check (Lex.Cuisine s) (LF1.is_valid_cuisine cl)).
  rewrite (dialog_check (Lex.DiningDate s) (LF1.is_valid_date today)).
  rewrite (dialog_check (Lex.DiningTime s) LF1.is_valid_time).
  rewrite (dialog_check (Lex.NumberOfPeople s) LF1.is_valid_number).
  fold (Lex.cuisine_ok cl s) (Lex.date_ok today s) (Lex.time_ok s) (Lex.number_ok s).
  assert (Asked : forall slot message,
            exists reply,
              LF1.elicit_slot (Lex.event_of "DialogCodeHook" "DiningSuggestionsIntent" s)
                slot message = Ok reply /\
              Lex.elicited reply = Some (VStr slot) /\
              field_of (field_of (field_of reply "sessionState") "dialogAction") "type" =
                VStr (match Lex.elicited reply with
                      | Some _ => "ElicitSlot"
                      | None => "Delegate"
                      end) /\
              (Lex.elicited reply = None ->
               reply =
                 VDict [(VStr "sessionState",
                         VDict [(VStr "dialogAction", VDict [(VStr "type", VStr "Delegate")]);
                                (VStr "intent",
                                 Lex.intent_of "DiningSuggestionsIntent" s)])])).
  { intros slot message. eexists. split; [reflexivity|]. split; [reflexivity|].
    split; [reflexivity | discriminate]. }
  destruct (negb (Lex.cuisine_ok cl s)).
  { destruct (Asked "Cuisine" LF1.sorry_cuisine) as [reply [E [A [T D]]]].
    exists reply. rewrite E. repeat split; assumption. }
  assert (E : (if truthy (Lex.value_of (Lex.Email s))
               then rbind (LF1.is_valid_email (Lex.value_of (Lex.Email s)))
                      (fun ok => Ok (negb (truthy ok)))
               else Ok false) = Ok (negb (Lex.email_ok s))).
  { unfold Lex.email_ok. destruct (Lex.Email s) as [e|]; [|reflexivity].
    cbn [Lex.value_of]. unfold LF1.is_valid_email.
    destruct (truthy (VStr e)); [|reflexivity].
    cbn [LF1.contains rbind truthy negb orb]. reflexivity. }
  rewrite E.
  destruct (negb (Lex.email_ok s)).
  { destruct (Asked "Email" LF1.sorry_email) as [reply [E' [A [T D]]]].
    exists reply. rewrite E'. repeat split; assumption. }
  destruct (negb (Lex.date_ok today s)).
  { destruct (Asked "DiningDate" LF1.sorry_date) as [reply [E' [A [T D]]]].
    exists reply. rewrite E'. repeat split; assumption. }
  destruct (negb (Lex.time_ok s)).
  { destruct (Asked "DiningTime" LF1.sorry_time) as [reply [E' [A [T D]]]].
    exists reply. rewrite E'. repeat split; assumption. }
  destruct (negb (Lex.number_ok s)).
  { destruct (Asked "NumberOfPeople" LF1.sorry_number) as [reply [E' [A [T D]]]].
    exists reply. rewrite E'. repeat split; assumption. }
  eexists. split; [reflexivity|]. split; [reflexivity|]. split; [reflexivity|].
  intros _. reflexivity.
Qed.

(** X15: the fulfillment hook validates nothing: whatever the slots hold,
    it sends exactly one message, the JSON of the six fields with the
    cuisine trimmed and lower-cased and every other slot as it is; it
    replies with the intent closed as fulfilled when the queue accepts the
    message, and raises when the queue does. *)
Theorem X15_fulfillment_sends_unvalidated (cl : LF1.clients) (today : date)
    (s : Lex.slots) (sent : list string) :
  let event := Lex.event_of "FulfillmentCodeHook" "DiningSuggestionsIntent" s in
  let body := LF1.json_dumps cl (Lex.request_for s) in
  snd (LF1.lambda_handler cl today event sent) = (sent ++ [body])%list /\
  (forall answer,
     LF1.send_message cl sent LF1.QUEUE_URL body = Ok answer ->
     fst (LF1.lambda_handler cl today event sent) =
       LF1.close "Fulfilled" LF1.thanks event /\
     exists reply,
       LF1.close "Fulfilled" LF1.thanks event = Ok reply /\
       field_of (field_of (field_of reply "sessionState") "intent") "state"
         = VStr "Fulfilled") /\
  (forall x,
     LF1.send_message cl sent LF1.QUEUE_URL body = Raise x ->
     fst (LF1.lambda_handler cl today event sent) = Raise x).
Proof.
  intros event body. unfold event.
  rewrite handler_on_event. cbv zeta. cbn [String.eqb Ascii.eqb Bool.eqb].
  assert (N : LF1.normalised (Lex.value_of (Lex.Cuisine s)) =
              Ok (match Lex.Cuisine s with
                  | Some c => VStr (if truthy (VStr c) then lower (strip c) else c)
                  | None => VNone
                  end)).
  { destruct (Lex.Cuisine s) as [c|]; [|reflexivity].
    unfold LF1.normalised. cbn [Lex.value_of str_method rbind].
    destruct (truthy (VStr c)); reflexivity. }
  rewrite N. fold (Lex.request_for s). fold body.
  destruct (LF1.send_message cl sent LF1.QUEUE_URL body) as [answer | x].
  - split; [reflexivity|]. split; [|discriminate].
    intros a _. split; [reflexivity|]. eexists. split; reflexivity.
  - split; [reflexivity|]. split; [discriminate|].
    intros y H. inversion H. reflexivity.
Qed.
(* ================================================================== *)
(** ** From the hook to the worker *)
(* ================================================================== *)

Lemma process_steps_searches (svc : services) (msg : message)
    (payload : value) (c e : string) (w : log) :
  well_addressed svc msg payload c e ->
  exists later,
    snd (process_steps svc msg w) = (w ++ search_call svc (lower c) :: later)%list.
Proof.
  intros A. rewrite (process_steps_addressed svc msg payload c e w A).
  unfold bind, lift, try_except, ret.
  pose proof (sampling_calls svc (lower c) w) as Ls.
  destruct (sampling svc (lower c) w) as [[sampled | x] w1];
    cbn [snd] in Ls; subst w1; [|now exists []].
  destruct sampled as [ids|]; [|now exists []].
  destruct ids as [|i ids]; [now exists []|].
  assert (Hne : i :: ids <> []) by discriminate.
  pose proof (ddb_get_many_calls svc (i :: ids) (w ++ [search_call svc (lower c)])%list Hne)
    as Lf.
  destruct (ddb_get_many svc (i :: ids) (w ++ [search_call svc (lower c)])%list)
    as [[details | x] w2]; cbn [snd] in Lf; subst w2;
    [|exists [fetch_call svc (i :: ids)]; cbn [snd]; now rewrite <- app_assoc].
  destruct (resolve details (i :: ids)) as [|r results];
    [exists [fetch_call svc (i :: ids)]; cbn [snd]; now rewrite <- app_assoc|].
  destruct (format_email _) as [text|];
    [|exists [fetch_call svc (i :: ids)]; cbn [snd]; now rewrite <- app_assoc].
  pose proof (send_email_calls svc e (subject_of (lower c)) text
                ((w ++ [search_call svc (lower c)]) ++ [fetch_call svc (i :: ids)])%list) as Lm.
  destruct (send_email svc e (subject_of (lower c)) text
              ((w ++ [search_call svc (lower c)]) ++ [fetch_call svc (i :: ids)])%list)
    as [[[|] | x] w3]; cbn [snd] in Lm; subst w3;
    exists [fetch_call svc (i :: ids); mail_call svc e (subject_of (lower c)) text];
    cbn [snd]; now rewrite <- !app_assoc.
Qed.

Lemma is_substring_nonempty (needle hay : string) :
  needle <> "" -> LF1.is_substring needle hay = true -> hay <> "".
Proof.
  intros N H ->. destruct needle; [congruence | discriminate].
Qed.

Lemma is_space_at : is_space "@"%char = false.
Proof. reflexivity. Qed.

Lemma mem_at_lstrip (s : string) :
  mem_char "@"%char s = true -> mem_char "@"%char (lstrip s) = true.
Proof.
  induction s as [|a s IH]; [discriminate|]. cbn [lstrip mem_char].
  destruct (is_space a) eqn:Sa; [|now cbn [mem_char]].
  destruct (Ascii.eqb_spec "@"%char a) as [<- | _]; [discriminate|].
  exact IH.
Qed.

Lemma mem_at_rstrip (s : string) :
  mem_char "@"%char s = true -> mem_char "@"%char (rstrip s) = true.
Proof.
  induction s as [|a s IH]; [discriminate|]. rewrite rstrip_cons. cbn [mem_char].
  destruct (Ascii.eqb_spec "@"%char a) as [<- | Na]; cbn [orb].
  - intros _. destruct (rstrip s); [|now cbn [mem_char]; rewrite Ascii.eqb_refl].
    cbn. reflexivity.
  - intros H. specialize (IH H).
    destruct (rstrip s) as [|b r]; [discriminate|].
    cbn [mem_char]. destruct (Ascii.eqb_spec "@"%char a); [contradiction|exact IH].
Qed.

Lemma is_substring_mem (hay : string) :
  LF1.is_substring "@" hay = true -> mem_char "@"%char hay = true.
Proof.
  induction hay as [|a hay IH]; [discriminate|].
  cbn [LF1.is_substring String.prefix mem_char].
  destruct (Ascii.eqb_spec "@"%char a) as [<- | Na]; [reflexivity|].
  destruct (ascii_dec "@"%char a) as [E | _]; [contradiction|].
  cbn [orb]. exact IH.
Qed.

Lemma address_survives_trimming (e : string) :
  LF1.is_substring "@" e = true -> strip e <> "".
Proof.
  intros H. apply is_substring_mem in H. apply mem_at_lstrip in H.
  apply mem_at_rstrip in H. unfold strip. intros E. rewrite E in H. discriminate.
Qed.

(** X16: a request whose cuisine, of ASCII text, and address passed the
    hook's checks is never discarded by the worker as malformed: once the
    queue delivers the message and it decodes to the request the hook built,
    the worker finds both fields, and its first call is the search request
    whose term is the trimmed, lower-cased cuisine, which is one of the
    cuisines the ingestion collected. *)
Theorem X16_validated_request_is_searched (svc : services) (cl : LF1.clients)
    (s : Lex.slots) (c e : string) (msg : message) (w : log) :
  Lex.Cuisine s = Some c -> LF1.is_ascii c = true ->
  LF1.is_valid_cuisine cl (VStr c) = true ->
  Lex.Email s = Some e -> LF1.is_substring "@" e = true ->
  json_loads svc (body_raw msg) = Some (Lex.request_for s) ->
  well_addressed svc msg (Lex.request_for s) (lower (strip c)) (strip e) /\
  In (lower (strip c)) Ingest.CUISINES /\
  fst (process_steps svc msg w) <> Ok BadBody /\
  fst (process_steps svc msg w) <> Ok MissingField /\
  exists query later,
    snd (process_steps svc msg w) =
      (w ++ HttpRequest "POST" (OS_ENDPOINT svc ++ "/" ++ OS_INDEX svc ++ "/_search") query
         :: later)%list /\
    field_of (field_of (field_of (field_of (field_of query "query") "function_score")
                          "query") "term") "cuisine" = VStr (lower (strip c)).
Proof.
  intros Hc Ac Vc He Ve Hj.
  rewrite (is_valid_cuisine_ascii cl c Ac) in Vc.
  assert (Nc : c <> "") by (intros ->; discriminate).
  assert (Ne : e <> "") by (intros ->; discriminate).
  assert (I : In (lower (strip c)) Ingest.CUISINES).
  { cbn [existsb LF1.ALLOWED_CUISINES] in Vc.
    rewrite <- (lower_capitalize (strip c)).
    repeat rewrite orb_true_iff in Vc.
    destruct Vc as [H | [H | [H | [H | [H | H]]]]]; try discriminate;
      apply String.eqb_eq in H; rewrite H; cbn; intuition. }
  assert (Nl : lower (strip c) <> "").
  { intros E. rewrite E in I. cbn in I. intuition discriminate. }
  assert (Tc : truthy (VStr c) = true) by now apply truthy_str.
  assert (Te : truthy (VStr e) = true) by now apply truthy_str.
  assert (Tl : truthy (VStr (lower (strip c))) = true) by now apply truthy_str.
  assert (A : well_addressed svc msg (Lex.request_for s) (lower (strip c)) (strip e)).
  { split; [exact Hj|]. unfold Lex.request_for. rewrite Hc, He.
    rewrite Tc. cbn [Lex.value_of].
    split; [|split; [|split; [exact Nl | now apply address_survives_trimming]]].
    - unfold trimmed, LF1.request_of.
      cbn [get lookup key_eqb String.eqb Ascii.eqb Bool.eqb rbind].
      unfold por. rewrite Tl. cbn [str_method].
      now rewrite strip_lower, strip_idem.
    - unfold trimmed, LF1.request_of.
      cbn [get lookup key_eqb String.eqb Ascii.eqb Bool.eqb rbind].
      unfold por. rewrite Te. reflexivity. }
  split; [exact A|]. split; [exact I|].
  destruct (process_steps_searches svc msg _ _ _ w A) as [later L].
  rewrite lower_idem in L.
  assert (Past : forall site, fst (process_steps svc msg w) = Ok site ->
                 calls_before site <> 0%nat).
  { intros site Hs.
    destruct (process_steps_calls svc msg w) as [k [c0 [ids [to [sub [txt [Hk [Lk [Ck _]]]]]]]]].
    rewrite <- (Ck site Hs). intros ->. cbn [firstn] in Lk.
    rewrite L in Lk. apply (f_equal (@List.length event)) in Lk.
    rewrite !length_app in Lk. cbn [List.length] in Lk. lia. }
  split; [intros H; exact (Past BadBody H eq_refl)|].
  split; [intros H; exact (Past MissingField H eq_refl)|].
  exists (search_query (lower (strip c)) (NUM_RESULTS svc * 2)), later.
  split; [exact L | reflexivity].
Qed.

Lemma X16_witness :
  json_loads (Scenario.healthy []) (body_raw Handoff.delivered)
    = Some (Lex.request_for Handoff.order) /\
  In "italian" Ingest.CUISINES /\
  exists query later,
    snd (process_steps (Scenario.healthy []) Handoff.delivered []) =
      HttpRequest "POST" "https://search.example/restaurants/_search" query :: later /\
    field_of (field_of (field_of (field_of (field_of query "query") "function_score")
                          "query") "term") "cuisine" = VStr "italian".
Proof.
  assert (Hj : json_loads (Scenario.healthy []) (body_raw Handoff.delivered)
               = Some (Lex.request_for Handoff.order)) by (vm_compute; reflexivity).
  destruct (X16_validated_request_is_searched (Scenario.healthy []) Handoff.hook
              Handoff.order " Italian " "a@b.com" Handoff.delivered []
              eq_refl eq_refl eq_refl eq_refl eq_refl Hj)
    as [_ [I [_ [_ [query [later [L T]]]]]]].
  split; [exact Hj|]. split; [exact I|]. exists query, later. split; [exact L | exact T].
Defined.
(* ================================================================== *)
(** ** The gateway handler *)
(* ================================================================== *)

Lemma attempt_calls (rt : LF0.runtime) (event : value) (calls : list LF0.call) :
  snd (LF0.attempt rt event calls) = calls \/
  exists t,
    LF0.user_text rt event = Ok t /\
    snd (LF0.attempt rt event calls) = (calls ++ [LF0.lex_call rt t])%list.
Proof.
  unfold LF0.attempt. destruct (LF0.user_text rt event) as [t | x]; [|now left].
  right. exists t. split; reflexivity.
Qed.

(** X17: whatever object the gateway hands over, the handler raises
    nothing and answers with status 200 and the three CORS headers; it calls
    the bot at most once, always in the one session [test-session], and a
    preflight [OPTIONS] request is answered with an empty body without
    calling the bot. *)
Theorem X17_gateway_always_answers (rt : LF0.runtime) (kv : list (value * value))
    (calls : list LF0.call) :
  let r := LF0.lambda_handler rt (VDict kv) calls in
  exists body,
    fst r = Ok (LF0.response body) /\
    field_of (LF0.response body) "statusCode" = VInt 200 /\
    field_of (LF0.response body) "headers" = LF0.headers /\
    (snd r = calls \/
     exists c, snd r = (calls ++ [c])%list /\ LF0.sessionId c = "test-session" /\
               LF0.user_text rt (VDict kv) = Ok (LF0.text c)) /\
    (LF1.equals_text (field_of (VDict kv) "httpMethod") "OPTIONS" = true ->
     body = "" /\ snd r = calls).
Proof.
  cbv zeta. unfold LF0.lambda_handler, field_of at 3.
  cbn [get]. destruct (lookup (VStr "httpMethod") kv) as [m|].
  - destruct (LF1.equals_text m "OPTIONS") eqn:O.
    + exists "". cbn [fst snd]. repeat split; try reflexivity. now left.
    + pose proof (attempt_calls rt (VDict kv) calls) as C.
      destruct (LF0.attempt rt (VDict kv) calls) as [r calls'] eqn:A. cbn [fst snd] in *.
      eexists. split; [reflexivity|]. split; [reflexivity|]. split; [reflexivity|].
      split; [|discriminate].
      destruct C as [C | [t [U C]]]; [now left|]. right.
      exists (LF0.lex_call rt t). split; [exact C|]. split; [reflexivity | exact U].
  - cbn [LF1.equals_text].
    pose proof (attempt_calls rt (VDict kv) calls) as C.
    destruct (LF0.attempt rt (VDict kv) calls) as [r calls'] eqn:A. cbn [fst snd] in *.
    eexists. split; [reflexivity|]. split; [reflexivity|]. split; [reflexivity|].
    split; [|discriminate].
    destruct C as [C | [t [U C]]]; [now left|]. right.
    exists (LF0.lex_call rt t). split; [exact C|]. split; [reflexivity | exact U].
Qed.

Lemma handler_after_preflight (rt : LF0.runtime) (kv : list (value * value))
    (calls : list LF0.call) :
  LF1.equals_text (field_of (VDict kv) "httpMethod") "OPTIONS" = false ->
  LF0.lambda_handler rt (VDict kv) calls =
    (Ok (LF0.response (LF0.json_dumps rt (LF0.bot_response rt
           match fst (LF0.attempt rt (VDict kv) calls) with
           | Ok reply => reply
           | Raise _ => LF0.apology
           end))),
     snd (LF0.attempt rt (VDict kv) calls)).
Proof.
  unfold LF0.lambda_handler, field_of. cbn [get].
  destruct (lookup (VStr "httpMethod") kv) as [m|]; intros O;
    [rewrite O|]; destruct (LF0.attempt rt (VDict kv) calls); reflexivity.
Qed.

Lemma contents_said (cs : list value) :
  LF0.contents (map (fun c => VDict [(VStr "contentType", VStr "PlainText");
                                     (VStr "content", c)]) cs) = Ok cs.
Proof.
  induction cs as [|c cs IH]; [reflexivity|].
  cbn [map LF0.contents]. rewrite IH. reflexivity.
Qed.

Lemma texts_of_strings (ss : list string) : Builtins.texts (map VStr ss) = Ok ss.
Proof.
  induction ss as [|s ss IH]; [reflexivity|]. cbn [map Builtins.texts]. now rewrite IH.
Qed.

Lemma texts_reject (cs : list value) :
  Exists (fun c => forall s, c <> VStr s) cs -> Builtins.texts cs = Raise TypeError.
Proof.
  induction 1 as [c cs H | c cs H IH].
  - destruct c as [| | |s| |]; try reflexivity. now destruct (H s).
  - destruct c as [| | |s| |]; try reflexivity. cbn [Builtins.texts]. now rewrite IH.
Qed.

Lemma reply_text_said (cs : list value) :
  LF0.reply_text (LF0.said cs) =
    match cs with
    | [] => Ok "No response from Lex."
    | _ => rbind (Builtins.texts cs) (fun ss => Ok (join " " ss))
    end.
Proof.
  unfold LF0.reply_text, LF0.said.
  cbn [get getitem lookup key_eqb String.eqb Ascii.eqb Bool.eqb rbind].
  destruct cs as [|c cs]; [reflexivity|].
  cbn [map truthy iter rbind]. 
  change (LF0.contents (_ :: _)) with
    (LF0.contents (map (fun c => VDict [(VStr "contentType", VStr "PlainText");
                                        (VStr "content", c)]) (c :: cs))).
  rewrite contents_said. reflexivity.
Qed.

(** X18: no failure reaches the caller as an HTTP error.  For a request
    that is no preflight: when the body is not JSON, or the decoded body has
    no [messages[0].unstructured.text], the bot is not called; when the bot
    raises, or one of the messages it answers with has no text content, the
    one call has been made; in each case the handler still answers with
    status 200, and the reply carries the apology. *)
Theorem X18_gateway_hides_failures (rt : LF0.runtime) (kv : list (value * value))
    (calls : list LF0.call) :
  LF1.equals_text (field_of (VDict kv) "httpMethod") "OPTIONS" = false ->
  let sorry := Ok (LF0.response (LF0.json_dumps rt (LF0.bot_response rt LF0.apology))) in
  (forall s,
     field_of (VDict kv) "body" = VStr s -> lookup (VStr "body") kv <> None ->
     LF0.json_loads rt s = None ->
     LF0.lambda_handler rt (VDict kv) calls = (sorry, calls)) /\
  (forall x,
     LF0.user_text rt (VDict kv) = Raise x ->
     LF0.lambda_handler rt (VDict kv) calls = (sorry, calls)) /\
  (forall t x,
     LF0.user_text rt (VDict kv) = Ok t ->
     LF0.recognize_text rt calls (LF0.lex_call rt t) = Raise x ->
     LF0.lambda_handler rt (VDict kv) calls = (sorry, (calls ++ [LF0.lex_call rt t])%list)) /\
  (forall t cs,
     LF0.user_text rt (VDict kv) = Ok t ->
     LF0.recognize_text rt calls (LF0.lex_call rt t) = Ok (LF0.said cs) ->
     Exists (fun c => forall s, c <> VStr s) cs ->
     LF0.lambda_handler rt (VDict kv) calls = (sorry, (calls ++ [LF0.lex_call rt t])%list)).
Proof.
  intros O. cbv zeta. rewrite (handler_after_preflight rt kv calls O).
  assert (R : forall x, LF0.user_text rt (VDict kv) = Raise x ->
              LF0.attempt rt (VDict kv) calls = (Raise x, calls)).
  { intros x U. unfold LF0.attempt. now rewrite U. }
  split; [|split; [|split]].
  - intros s B Hb J.
    assert (U : LF0.user_text rt (VDict kv) = Raise ValueError).
    { unfold LF0.user_text. unfold field_of in B. cbn [get] in *.
      destruct (lookup (VStr "body") kv) as [b|]; [|congruence].
      subst b. cbn [rbind LF0.loads]. now rewrite J. }
    now rewrite (R _ U).
  - intros x U. now rewrite (R _ U).
  - intros t x U L. unfold LF0.attempt. rewrite U, L. reflexivity.
  - intros t cs U L E. unfold LF0.attempt. rewrite U, L. cbn [rbind fst snd].
    rewrite reply_text_said. destruct cs as [|c cs]; [inversion E|].
    now rewrite (texts_reject _ E).
Qed.

Lemma X18_witness :
  LF0.lambda_handler (LF0.runtime_with (Ok (LF0.said []))) (LF0.post "not json") [] =
    (Ok (LF0.response (LF0.json_dumps (LF0.runtime_with (Ok (LF0.said [])))
           (LF0.bot_response (LF0.runtime_with (Ok (LF0.said []))) LF0.apology))), []).
Proof.
  assert (O : LF1.equals_text (field_of (LF0.post "not json") "httpMethod") "OPTIONS" = false)
    by reflexivity.
  destruct (X18_gateway_hides_failures (LF0.runtime_with (Ok (LF0.said [])))
              [(VStr "httpMethod", VStr "POST"); (VStr "body", VStr "not json")] [] O)
    as [B _].
  apply (B "not json"); [reflexivity | discriminate | vm_compute; reflexivity].
Defined.

(** X19: for a request that is no preflight and carries a text, the bot is
    called once with that text, and the reply carries the contents of the
    bot's messages joined by single blanks, in the bot's order; when the bot
    answers without messages the reply is the fixed text
    [No response from Lex.]. *)
Theorem X19_gateway_relays_the_bot (rt : LF0.runtime) (kv : list (value * value))
    (calls : list LF0.call) (t : value) (ss : list string) :
  LF1.equals_text (field_of (VDict kv) "httpMethod") "OPTIONS" = false ->
  LF0.user_text rt (VDict kv) = Ok t ->
  LF0.recognize_text rt calls (LF0.lex_call rt t) = Ok (LF0.said (map VStr ss)) ->
  LF0.lambda_handler rt (VDict kv) calls =
    (Ok (LF0.response (LF0.json_dumps rt (LF0.bot_response rt
           match ss with
           | [] => "No response from Lex."
           | _ => join " " ss
           end))),
     (calls ++ [LF0.lex_call rt t])%list).
Proof.
  intros O U L. rewrite (handler_after_preflight rt kv calls O).
  unfold LF0.attempt. rewrite U, L. cbn [rbind fst snd].
  rewrite reply_text_said. destruct ss as [|s ss]; [reflexivity|].
  change (VStr s :: map VStr ss) with (map VStr (s :: ss)).
  rewrite texts_of_strings. reflexivity.
Qed.

Lemma X19_witness :
  LF0.lambda_handler (LF0.runtime_with (Ok (LF0.said [VStr "Hi"; VStr "there"])))
    (LF0.post LF0.hello_body) [] =
  (Ok (LF0.response
         (LF0.json_dumps (LF0.runtime_with (Ok (LF0.said [VStr "Hi"; VStr "there"])))
            (LF0.bot_response (LF0.runtime_with (Ok (LF0.said [VStr "Hi"; VStr "there"])))
               "Hi there"))),
   [LF0.lex_call (LF0.runtime_with (Ok (LF0.said [VStr "Hi"; VStr "there"])))
      (VStr "hello")]).
Proof.
  assert (O : LF1.equals_text (field_of (LF0.post LF0.hello_body) "httpMethod") "OPTIONS"
              = false) by reflexivity.
  assert (U : LF0.user_text (LF0.runtime_with (Ok (LF0.said [VStr "Hi"; VStr "there"])))
                (LF0.post LF0.hello_body) = Ok (VStr "hello")) by (vm_compute; reflexivity).
  exact (X19_gateway_relays_the_bot
           (LF0.runtime_with (Ok (LF0.said [VStr "Hi"; VStr "there"])))
           [(VStr "httpMethod", VStr "POST"); (VStr "body", VStr LF0.hello_body)] []
           (VStr "hello") ["Hi"; "there"] O U eq_refl).
Defined.
(* ================================================================== *)
(** ** The script that fills the index *)
(* ================================================================== *)

Lemma item_fields (kv : list (value * value)) (k : string) :
  get (VDict kv) k VNone = Ok (field_of (VDict kv) k).
Proof.
  unfold field_of. cbn [get]. destruct (lookup (VStr k) kv); reflexivity.
Qed.

Lemma for_items_invariant (c : OpensearchInjection.cluster) (items : list value) :
  Forall OpensearchInjection.is_object items ->
  (forall sent url body, exists a, OpensearchInjection.http_post c sent url body = Ok a) ->
  forall (batch : list string) (indexed : Z) (sent : list (list string)) (k : nat),
    List.length batch = (2 * k)%nat ->
    (Z.of_nat k < OpensearchInjection.BATCH_SIZE)%Z ->
    exists batches batch' indexed' k',
      OpensearchInjection.for_items c items batch indexed sent =
        (Ok (batch', indexed'), (sent ++ batches)%list) /\
      (List.concat batches ++ batch')%list =
        (batch ++ flat_map (OpensearchInjection.lines_of c)
                   (filter OpensearchInjection.eligible items))%list /\
      Forall (fun b => Z.of_nat (List.length b) = (2 * OpensearchInjection.BATCH_SIZE)%Z)
             batches /\
      List.length batch' = (2 * k')%nat /\
      (Z.of_nat k' < OpensearchInjection.BATCH_SIZE)%Z /\
      (indexed' + Z.of_nat k' =
       indexed + Z.of_nat k
       + Z.of_nat (List.length (filter OpensearchInjection.eligible items)))%Z.
Proof.
  intros Hobj Hpost. induction Hobj as [|it items [kv ->] _ IH];
    intros batch indexed sent k Hlen Hk.
  - exists [], batch, indexed, k. cbn [OpensearchInjection.for_items filter flat_map List.concat].
    rewrite !app_nil_r. cbn [List.length app]. repeat split; try assumption; try constructor.
    lia.
  - cbn [OpensearchInjection.for_items]. rewrite !item_fields.
    cbn [filter].
    assert (El : OpensearchInjection.eligible (VDict kv) =
                 truthy (field_of (VDict kv) "BusinessID") &&
                 truthy (field_of (VDict kv) "Cuisine")) by reflexivity.
    destruct (truthy (field_of (VDict kv) "BusinessID")) eqn:Tr;
      [destruct (truthy (field_of (VDict kv) "Cuisine")) eqn:Tc|];
      cbn [andb] in El; rewrite El; cbn [negb orb].
    + fold (OpensearchInjection.lines_of c (VDict kv)).
      assert (L1 : List.length (batch ++ OpensearchInjection.lines_of c (VDict kv))%list
                   = (2 * (k + 1))%nat).
      { rewrite length_app, Hlen. cbn [OpensearchInjection.lines_of List.length]. lia. }
      rewrite L1.
      destruct (Z.leb_spec (OpensearchInjection.BATCH_SIZE * 2) (Z.of_nat (2 * (k + 1))))
        as [Full | Room].
      * unfold OpensearchInjection.es_bulk.
        destruct (Hpost sent (OpensearchInjection.OS_ENDPOINT ++ "/_bulk")
                    (OpensearchInjection.ndjson
                       (batch ++ OpensearchInjection.lines_of c (VDict kv))%list)) as [a Ha].
        rewrite Ha.
        assert (B0 : (Z.of_nat 0 < OpensearchInjection.BATCH_SIZE)%Z) by reflexivity.
        destruct (IH [] (indexed + Z.of_nat (2 * (k + 1)) / 2)%Z
                    (sent ++ [(batch ++ OpensearchInjection.lines_of c (VDict kv))%list])%list
                    0%nat eq_refl B0)
          as [batches [batch' [indexed' [k' [E [Cc [Fa [Lb [Kb Ix]]]]]]]]].
        exists ((batch ++ OpensearchInjection.lines_of c (VDict kv))%list :: batches),
          batch', indexed', k'.
        rewrite E. split; [now rewrite <- app_assoc|].
        split; [cbn [List.concat flat_map]; rewrite <- !app_assoc; cbn [app] in Cc;
                rewrite <- !app_assoc in *; now rewrite Cc|].
        split; [constructor; [rewrite L1; lia | exact Fa]|].
        split; [exact Lb|]. split; [exact Kb|].
        cbn [List.length].
        replace (Z.of_nat (2 * (k + 1)) / 2)%Z with (Z.of_nat k + 1)%Z in Ix
          by (replace (Z.of_nat (2 * (k + 1))) with ((Z.of_nat k + 1) * 2)%Z by lia;
              now rewrite Z.div_mul).
        lia.
      * assert (K1 : (Z.of_nat (k + 1) < OpensearchInjection.BATCH_SIZE)%Z) by lia.
        destruct (IH (batch ++ OpensearchInjection.lines_of c (VDict kv))%list indexed sent
                    (k + 1)%nat L1 K1)
          as [batches [batch' [indexed' [k' [E [Cc [Fa [Lb [Kb Ix]]]]]]]]].
        exists batches, batch', indexed', k'.
        split; [exact E|].
        split; [cbn [flat_map]; now rewrite Cc, <- app_assoc|].
        split; [exact Fa|]. split; [exact Lb|]. split; [exact Kb|].
        cbn [List.length]. lia.
    + destruct (IH batch indexed sent k Hlen Hk)
        as [batches [batch' [indexed' [k' [E [Cc [Fa [Lb [Kb Ix]]]]]]]]].
      exists batches, batch', indexed', k'. repeat split; assumption.
    + destruct (IH batch indexed sent k Hlen Hk)
        as [batches [batch' [indexed' [k' [E [Cc [Fa [Lb [Kb Ix]]]]]]]]].
      exists batches, batch', indexed', k'. repeat split; assumption.
Qed.

Lemma index_items_batches (c : OpensearchInjection.cluster) (items : list value)
    (sent : list (list string)) :
  Forall OpensearchInjection.is_object items ->
  (forall sent url body, exists a, OpensearchInjection.http_post c sent url body = Ok a) ->
  exists batches,
    OpensearchInjection.index_items c items sent =
      (Ok (Z.of_nat (List.length (filter OpensearchInjection.eligible items))),
       (sent ++ batches)%list) /\
    List.concat batches =
      flat_map (OpensearchInjection.lines_of c) (filter OpensearchInjection.eligible items) /\
    (batches = [] \/
     exists full last,
       batches = (full ++ [last])%list /\
       Forall (fun b => Z.of_nat (List.length b) = (2 * OpensearchInjection.BATCH_SIZE)%Z)
              full /\
       (0 < Z.of_nat (List.length last) <= 2 * OpensearchInjection.BATCH_SIZE)%Z).
Proof.
  intros Hobj Hpost.
  assert (B0 : (Z.of_nat 0 < OpensearchInjection.BATCH_SIZE)%Z) by reflexivity.
  destruct (for_items_invariant c items Hobj Hpost [] 0%Z sent 0%nat eq_refl B0)
    as [batches [batch' [indexed' [k' [E [Cc [Fa [Lb [Kb Ix]]]]]]]]].
  unfold OpensearchInjection.index_items. rewrite E. cbn [app] in Cc.
  destruct batch' as [|l batch'].
  - exists batches. rewrite app_nil_r in Cc.
    assert (k' = 0)%nat by (cbn [List.length] in Lb; lia). subst k'.
    split; [f_equal; f_equal; lia|]. split; [exact Cc|].
    destruct batches as [|b bs]; [now left|].
    assert (Hne : b :: bs <> []) by discriminate.
    destruct (exists_last Hne) as [full [last Eq]]. rewrite Eq in *.
    right. exists full, last. split; [reflexivity|].
    apply Forall_app in Fa. destruct Fa as [Ff Fl]. split; [exact Ff|].
    inversion Fl as [|? ? Hl _]; subst.
    unfold OpensearchInjection.BATCH_SIZE in *. lia.
  - unfold OpensearchInjection.es_bulk.
    destruct (Hpost (sent ++ batches)%list (OpensearchInjection.OS_ENDPOINT ++ "/_bulk")
                (OpensearchInjection.ndjson (l :: batch'))) as [a Ha].
    rewrite Ha. exists (batches ++ [l :: batch'])%list.
    split.
    + rewrite app_assoc. f_equal. f_equal. rewrite Lb.
      replace (Z.of_nat (2 * k')) with (Z.of_nat k' * 2)%Z by lia.
      rewrite Z.div_mul by lia. lia.
    + split; [now rewrite List.concat_app; cbn [List.concat]; rewrite app_nil_r|].
      right. exists batches, (l :: batch'). split; [reflexivity|]. split; [exact Fa|].
      rewrite Lb. cbn [List.length] in Lb. lia.
Qed.

(** X20: when the bulk endpoint answers every request, with whatever
    status, indexing a list of table items sends the two lines of every item
    that has a business identifier and a cuisine, in the order of the items,
    none lost and none twice; every request but the last carries exactly
    [2 * BATCH_SIZE] lines and the last between one and that many; and the
    number reported as indexed is the number of such items, whether or not
    the index accepted them. *)
Theorem X20_bulk_batches (c : OpensearchInjection.cluster) (items : list value)
    (sent : list (list string)) :
  Forall OpensearchInjection.is_object items ->
  (forall sent url body, exists a, OpensearchInjection.http_post c sent url body = Ok a) ->
  exists batches,
    OpensearchInjection.index_items c items sent =
      (Ok (Z.of_nat (List.length (filter OpensearchInjection.eligible items))),
       (sent ++ batches)%list) /\
    List.concat batches =
      flat_map (OpensearchInjection.lines_of c) (filter OpensearchInjection.eligible items) /\
    (batches = [] \/
     exists full last,
       batches = (full ++ [last])%list /\
       Forall (fun b => Z.of_nat (List.length b) = (2 * OpensearchInjection.BATCH_SIZE)%Z)
              full /\
       (0 < Z.of_nat (List.length last) <= 2 * OpensearchInjection.BATCH_SIZE)%Z).
Proof.
  exact (index_items_batches c items sent).
Qed.

Lemma X20_witness :
  exists batches,
    OpensearchInjection.index_items OpensearchInjection.small_table
      [OpensearchInjection.row (VStr "id1") (VStr "italian");
       OpensearchInjection.row (VStr "id2") VNone;
       OpensearchInjection.row (VStr "id3") (VStr "chinese")] [] = (Ok 2%Z, batches) /\
    List.length (List.concat batches) = 4%nat.
Proof.
  assert (Hobj : Forall OpensearchInjection.is_object
            [OpensearchInjection.row (VStr "id1") (VStr "italian");
             OpensearchInjection.row (VStr "id2") VNone;
             OpensearchInjection.row (VStr "id3") (VStr "chinese")])
    by (repeat constructor; eexists; reflexivity).
  assert (Hpost : forall sent url body, exists a,
            OpensearchInjection.http_post OpensearchInjection.small_table sent url body = Ok a)
    by (intros; eexists; reflexivity).
  destruct (X20_bulk_batches OpensearchInjection.small_table _ [] Hobj Hpost)
    as [batches [E [Cc _]]].
  exists batches. split; [exact E|]. rewrite Cc. reflexivity.
Defined.

Lemma scan_all_from_paged (c : OpensearchInjection.cluster)
    (pages : list (list value * value)) (last : list value) :
  forall (fuel : nat) (start : option value) (items : list value)
         (scans : list (option value)),
    OpensearchInjection.paged c scans start pages last ->
    (List.length pages < fuel)%nat ->
    OpensearchInjection.scan_all_from c fuel start items scans =
      (Some (Ok (items ++ List.concat (map fst pages) ++ last)%list),
       (scans ++ start :: map (fun p => Some (snd p)) pages)%list).
Proof.
  induction pages as [|[page k] pages IH]; intros fuel start items scans P F;
    (destruct fuel as [|fuel]; [cbn [List.length] in F; lia|]);
    cbn [OpensearchInjection.paged] in P; cbn [OpensearchInjection.scan_all_from].
  - destruct P as [kv [S [K I]]]. rewrite S.
    cbn [get LF1.contains]. rewrite K.
    destruct I as [I | [I ->]]; rewrite I; cbn [rbind iter]; reflexivity.
  - destruct P as [kv [S [K [I P]]]]. rewrite S.
    cbn [get getitem LF1.contains]. rewrite K, I. cbn [rbind iter].
    rewrite (IH fuel (Some k) (items ++ page)%list (scans ++ [start])%list P)
      by (cbn [List.length] in F; lia).
    cbn [map fst snd List.concat]. now rewrite <- !app_assoc.
Qed.

Lemma scan_all_paged (c : OpensearchInjection.cluster)
    (pages : list (list value * value)) (last : list value) (fuel : nat) :
  OpensearchInjection.paged c [] None pages last ->
  (List.length pages < fuel)%nat ->
  OpensearchInjection.scan_all c fuel =
    (Some (Ok (List.concat (map fst pages) ++ last)%list),
     None :: map (fun p => Some (snd p)) pages).
Proof.
  intros P F. unfold OpensearchInjection.scan_all.
  now rewrite (scan_all_from_paged c pages last fuel None [] [] P F).
Qed.

(** X21: when the table answers the scan page by page, each page but the
    last with the key of the next, [scan_all] returns after one call per
    page: the first call without a start key, every later one from the key
    the page before gave; and it returns the items of all the pages, in page
    order.  A last page without an [Items] key counts as empty. *)
Theorem X21_scan_reads_every_page (c : OpensearchInjection.cluster)
    (pages : list (list value * value)) (last : list value) (fuel : nat) :
  OpensearchInjection.paged c [] None pages last ->
  (List.length pages < fuel)%nat ->
  OpensearchInjection.scan_all c fuel =
    (Some (Ok (List.concat (map fst pages) ++ last)%list),
     None :: map (fun p => Some (snd p)) pages).
Proof.
  exact (scan_all_paged c pages last fuel).
Qed.

Lemma X21_witness :
  OpensearchInjection.scan_all OpensearchInjection.small_table 2 =
    (Some (Ok [OpensearchInjection.row (VStr "id1") (VStr "italian");
               OpensearchInjection.row (VStr "id2") VNone;
               OpensearchInjection.row (VStr "id3") (VStr "chinese")]),
     [None; Some (VDict [(VStr "BusinessID", VStr "id2")])]).
Proof.
  apply (X21_scan_reads_every_page OpensearchInjection.small_table
           [([OpensearchInjection.row (VStr "id1") (VStr "italian");
              OpensearchInjection.row (VStr "id2") VNone],
             VDict [(VStr "BusinessID", VStr "id2")])]
           [OpensearchInjection.row (VStr "id3") (VStr "chinese")] 2).
  - cbn [OpensearchInjection.paged]. eexists. split; [reflexivity|].
    split; [reflexivity|]. split; [reflexivity|].
    eexists. split; [reflexivity|]. split; [reflexivity|]. left. reflexivity.
  - cbn [List.length]. lia.
Defined.

(** X22: a table that hands out a next key with every page keeps
    [scan_all] reading: however many pages it is allowed, it has not
    returned, and it has made one call per page allowed. *)
Theorem X22_scan_needs_a_last_page (c : OpensearchInjection.cluster) (fuel : nat) :
  (forall scans start, exists kv k,
     OpensearchInjection.scan c scans start = Ok (VDict kv) /\
     lookup (VStr "LastEvaluatedKey") kv = Some k /\
     exists page, rbind (get (VDict kv) "Items" (VList [])) iter = Ok page) ->
  fst (OpensearchInjection.scan_all c fuel) = None /\
  List.length (snd (OpensearchInjection.scan_all c fuel)) = fuel.
Proof.
  intros H. unfold OpensearchInjection.scan_all.
  assert (G : forall fuel start items scans,
             fst (OpensearchInjection.scan_all_from c fuel start items scans) = None /\
             List.length (snd (OpensearchInjection.scan_all_from c fuel start items scans))
               = (List.length scans + fuel)%nat).
  { clear fuel. induction fuel as [|fuel IH]; intros start items scans.
    - cbn [OpensearchInjection.scan_all_from fst snd]. split; [reflexivity | lia].
    - cbn [OpensearchInjection.scan_all_from].
      destruct (H scans start) as [kv [k [S [K [page I]]]]].
      rewrite S, I. cbn [LF1.contains getitem]. rewrite K.
      destruct (IH (Some k) (items ++ page)%list (scans ++ [start])%list) as [A B].
      split; [exact A|]. rewrite B, length_app. cbn [List.length]. lia. }
  destruct (G fuel None [] []) as [A B]. split; [exact A | exact B].
Qed.

Lemma X22_witness :
  fst (OpensearchInjection.scan_all OpensearchInjection.endless_table 7) = None /\
  List.length (snd (OpensearchInjection.scan_all OpensearchInjection.endless_table 7)) = 7%nat.
Proof.
  apply (X22_scan_needs_a_last_page OpensearchInjection.endless_table 7).
  intros scans start. eexists. eexists. split; [reflexivity|].
  split; [reflexivity|]. eexists. reflexivity.
Defined.

(** X26: run against a table that answers page by page and a bulk endpoint
    that answers every request, the script reads every page and then sends
    the two lines of every row, of whatever page, that has a business
    identifier and a cuisine, in scan order; the number it prints is the
    number of those rows. *)
Theorem X26_every_scanned_row_is_sent (c : OpensearchInjection.cluster)
    (pages : list (list value * value)) (last : list value) (fuel : nat) :
  OpensearchInjection.paged c [] None pages last ->
  (List.length pages < fuel)%nat ->
  Forall OpensearchInjection.is_object (List.concat (map fst pages) ++ last)%list ->
  (forall sent url body, exists a, OpensearchInjection.http_post c sent url body = Ok a) ->
  exists batches,
    OpensearchInjection.main c fuel =
      (Some (Ok (Z.of_nat (List.length (filter OpensearchInjection.eligible
                                          (List.concat (map fst pages) ++ last)%list)))),
       None :: map (fun p => Some (snd p)) pages,
       batches) /\
    List.concat batches =
      flat_map (OpensearchInjection.lines_of c)
        (filter OpensearchInjection.eligible (List.concat (map fst pages) ++ last)%list).
Proof.
  intros P F Hobj Hpost. unfold OpensearchInjection.main.
  rewrite (scan_all_paged c pages last fuel P F).
  destruct (index_items_batches c (List.concat (map fst pages) ++ last)%list [] Hobj Hpost)
    as [batches [E [Cc _]]].
  rewrite E. exists batches. split; [reflexivity | exact Cc].
Qed.

Lemma X26_witness :
  exists batches,
    OpensearchInjection.main OpensearchInjection.small_table 2 =
      (Some (Ok 2%Z), [None; Some (VDict [(VStr "BusinessID", VStr "id2")])], batches) /\
    List.length (List.concat batches) = 4%nat.
Proof.
  assert (P : OpensearchInjection.paged OpensearchInjection.small_table [] None
            [([OpensearchInjection.row (VStr "id1") (VStr "italian");
               OpensearchInjection.row (VStr "id2") VNone],
              VDict [(VStr "BusinessID", VStr "id2")])]
            [OpensearchInjection.row (VStr "id3") (VStr "chinese")]).
  { cbn [OpensearchInjection.paged]. eexists. split; [reflexivity|].
    split; [reflexivity|]. split; [reflexivity|].
    eexists. split; [reflexivity|]. split; [reflexivity|]. left. reflexivity. }
  assert (F : (List.length
                 [([OpensearchInjection.row (VStr "id1") (VStr "italian");
                    OpensearchInjection.row (VStr "id2") VNone],
                   VDict [(VStr "BusinessID", VStr "id2")])] < 2)%nat)
    by (cbn [List.length]; lia).
  assert (Hobj : Forall OpensearchInjection.is_object
            (List.concat (map fst
               [([OpensearchInjection.row (VStr "id1") (VStr "italian");
                  OpensearchInjection.row (VStr "id2") VNone],
                 VDict [(VStr "BusinessID", VStr "id2")])]) ++
             [OpensearchInjection.row (VStr "id3") (VStr "chinese")])%list)
    by (repeat constructor; eexists; reflexivity).
  assert (Hpost : forall sent url body, exists a,
            OpensearchInjection.http_post OpensearchInjection.small_table sent url body = Ok a)
    by (intros; eexists; reflexivity).
  destruct (X26_every_scanned_row_is_sent OpensearchInjection.small_table _ _ 2
              P F Hobj Hpost) as [batches [E Cc]].
  exists batches. split; [exact E|]. rewrite Cc. reflexivity.
Defined.
(* ================================================================== *)
(** ** The script that fills the table *)
(* ================================================================== *)

(** *** One search, with its retries *)

Lemma slept_app (a b : list Ingest.event) :
  Ingest.slept (a ++ b) = (Ingest.slept a + Ingest.slept b)%Z.
Proof.
  induction a as [|[| |] a IH]; cbn [Ingest.slept app]; lia.
Qed.

Lemma written_app (a b : list Ingest.event) :
  Ingest.written (a ++ b) = (Ingest.written a ++ Ingest.written b)%list.
Proof.
  induction a as [|[| |] a IH]; cbn [Ingest.written app]; try assumption.
  - reflexivity.
  - now rewrite IH, app_assoc.
Qed.

Lemma longest_pause_nonneg (left : nat) :
  forall attempt, (1 <= attempt)%Z -> (0 <= Ingest.longest_pause left attempt)%Z.
Proof.
  induction left as [|left IH]; intros attempt A; cbn [Ingest.longest_pause]; [lia|].
  specialize (IH (attempt + 1)%Z). unfold Ingest.RETRY_429_SLEEP. lia.
Qed.

Lemma attempts_spec (w : Ingest.world) (term location : string) (limit offset : Z)
    (left : nat) :
  forall (attempt : Z) (evs : list Ingest.event),
    (1 <= attempt)%Z ->
    exists new k,
      snd (Ingest.attempts w term location limit offset left attempt evs) = (evs ++ new)%list /\
      (k <= left)%nat /\ (left <> 0%nat -> k <> 0%nat) /\
      filter Ingest.is_get new = repeat (Ingest.Get term location limit offset) k /\
      Ingest.written new = [] /\
      (0 <= Ingest.slept new <= Ingest.longest_pause left attempt)%Z /\
      (forall v,
         fst (Ingest.attempts w term location limit offset left attempt evs) = Ok v ->
         v = VDict [] /\ k = left \/
         exists before resp,
           Ingest.requests_get w before term location limit offset = Ok resp /\
           Ingest.status_code resp = 200%Z /\ Ingest.json resp = Ok v).
Proof.
  induction left as [|left IH]; intros attempt evs A.
  - exists [], 0%nat. cbn [Ingest.attempts Ingest.yret fst snd]. rewrite app_nil_r.
    repeat split; try reflexivity; try lia; try congruence.
    intros v H. left. inversion H. split; reflexivity.
  - cbn [Ingest.attempts].
    pose proof (longest_pause_nonneg left (attempt + 1)%Z ltac:(lia)) as P.
    destruct (Ingest.requests_get w evs term location limit offset) as [resp | x] eqn:R.
    + destruct (Ingest.status_code resp =? 200)%Z eqn:S200.
      * exists [Ingest.Get term location limit offset], 1%nat. cbn [fst snd].
        split; [reflexivity|]. split; [lia|]. split; [lia|]. split; [reflexivity|].
        split; [reflexivity|]. cbn [Ingest.slept Ingest.longest_pause].
        split; [unfold Ingest.RETRY_429_SLEEP; lia|].
        intros v H. right. exists evs, resp. split; [exact R|].
        split; [now apply Z.eqb_eq | exact H].
      * unfold Ingest.ybind, Ingest.sleep.
        set (pause := if (Ingest.status_code resp =? 429)%Z
                      then (Ingest.RETRY_429_SLEEP * attempt)%Z else 1000%Z).
        destruct (IH (attempt + 1)%Z
                    ((evs ++ [Ingest.Get term location limit offset]) ++ [Ingest.Sleep pause])%list
                    ltac:(lia))
          as [new [k [L [Kl [_ [G [Wr [Sl Rs]]]]]]]].
        exists (Ingest.Get term location limit offset :: Ingest.Sleep pause :: new), (S k).
        rewrite L. split; [now rewrite <- !app_assoc|].
        split; [lia|]. split; [lia|].
        split; [cbn [filter Ingest.is_get repeat]; now rewrite G|].
        split; [exact Wr|].
        cbn [Ingest.slept Ingest.longest_pause].
        assert (Hp : (0 <= pause <= Ingest.RETRY_429_SLEEP * attempt)%Z).
        { unfold pause, Ingest.RETRY_429_SLEEP.
          destruct (Ingest.status_code resp =? 429)%Z; lia. }
        split; [lia|].
        intros v H. destruct (Rs v H) as [[E1 E2] | Hr]; [left | right; exact Hr].
        split; [exact E1 | lia].
    + exists [Ingest.Get term location limit offset], 1%nat. cbn [fst snd].
      split; [reflexivity|]. split; [lia|]. split; [lia|]. split; [reflexivity|].
      split; [reflexivity|]. cbn [Ingest.slept Ingest.longest_pause].
      split; [unfold Ingest.RETRY_429_SLEEP; lia|]. discriminate.
Qed.

Lemma yelp_search_log (w : Ingest.world) (term location : string)
    (limit offset : Z) (evs : list Ingest.event) :
  exists new k,
    snd (Ingest.yelp_search w term location limit offset evs) = (evs ++ new)%list /\
    (1 <= k <= 3)%nat /\
    filter Ingest.is_get new = repeat (Ingest.Get term location limit offset) k /\
    Ingest.written new = [] /\
    (0 <= Ingest.slept new <= 12000)%Z /\
    (forall v,
       fst (Ingest.yelp_search w term location limit offset evs) = Ok v ->
       v = VDict [] /\ k = 3%nat \/
       exists before resp,
         Ingest.requests_get w before term location limit offset = Ok resp /\
         Ingest.status_code resp = 200%Z /\ Ingest.json resp = Ok v).
Proof.
  unfold Ingest.yelp_search.
  destruct (attempts_spec w term location limit offset Ingest.MAX_RETRIES 1%Z evs
              ltac:(lia)) as [new [k [L [Kl [K0 [G [Wr [Sl Rs]]]]]]]].
  exists new, k. split; [exact L|].
  split; [unfold Ingest.MAX_RETRIES in *; split; [|exact Kl];
          assert (k <> 0%nat) by (apply K0; discriminate); lia|].
  split; [exact G|]. split; [exact Wr|]. split; [exact Sl | exact Rs].
Qed.



(** *** What is written *)

Ltac bound H :=
  repeat match type of H with
         | rbind ?r _ = Ok _ =>
             let E := fresh "E" in
             destruct r eqn:E; [cbn [rbind] in H | discriminate H]
         end.

Lemma zip_of_manhattan (w : Ingest.world) (biz : value) :
  Ingest.is_manhattan w biz = Ok true ->
  exists loc zip,
    get biz "location" VNone = Ok loc /\
    get (por loc (VDict [])) "zip_code" VNone = Ok (VStr zip) /\
    Builtins.startswith Ingest.MANHATTAN_ZIP_PREFIXES (strip zip) = true.
Proof.
  unfold Ingest.is_manhattan. intros H. bound H.
  destruct (Builtins.startswith Ingest.MANHATTAN_ZIP_PREFIXES a1) eqn:P;
    cbn [negb] in H; [|discriminate].
  unfold por in E1 at 1. destruct (truthy a0) eqn:T.
  - destruct a0 as [| | |z| |]; try discriminate. cbn [str_method] in E1.
    inversion E1; subst. exists a, z. split; [reflexivity|]. split; [exact E0 | exact P].
  - cbn [str_method] in E1. inversion E1; subst. discriminate.
Qed.

Lemma get_text_default (d : value) (k : string) (z : string) (default : value) :
  get d k VNone = Ok (VStr z) -> get d k default = Ok (VStr z).
Proof.
  destruct d; try discriminate. cbn [get].
  destruct (lookup (VStr k) kv); [trivial | discriminate].
Qed.

Lemma to_ddb_item_fields (w : Ingest.world) (evs : list Ingest.event) (biz : value)
    (cuisine : string) (item : value) :
  Ingest.to_ddb_item w evs biz cuisine = Ok item ->
  exists loc,
    get biz "location" VNone = Ok loc /\
    getitem biz "id" = Ok (field_of item "BusinessID") /\
    get (por loc (VDict [])) "zip_code" (VStr "") = Ok (field_of item "ZipCode") /\
    field_of item "Cuisine" = VStr cuisine /\
    exists address, field_of item "Address" = VStr address.
Proof.
  unfold Ingest.to_ddb_item. intros H. bound H. inversion H; subst item.
  exists a. split; [reflexivity|]. split; [first [exact E5 | reflexivity]|].
  split; [first [exact E9 | reflexivity]|].
  split; [reflexivity|]. eexists. reflexivity.
Qed.

Lemma stored_item (w : Ingest.world) (evs : list Ingest.event) (biz : value)
    (cuisine : string) (item : value) :
  Ingest.is_manhattan w biz = Ok true ->
  Ingest.to_ddb_item w evs biz cuisine = Ok item ->
  Ingest.stored_for cuisine item /\
  getitem biz "id" = Ok (field_of item "BusinessID").
Proof.
  intros M T.
  destruct (zip_of_manhattan w biz M) as [loc [zip [L [Z P]]]].
  destruct (to_ddb_item_fields w evs biz cuisine item T) as [loc' [L' [I [Z' [C A]]]]].
  rewrite L in L'. inversion L'; subst loc'.
  rewrite (get_text_default _ _ zip (VStr "") Z) in Z'. inversion Z' as [Zq].
  split; [|exact I]. split; [exact C|]. split; [|exact A].
  exists zip. split; [now rewrite <- Zq | exact P].
Qed.

Lemma key_eqb_sym (a b : value) : key_eqb a b = key_eqb b a.
Proof.
  destruct a, b; cbn [key_eqb]; try reflexivity.
  - now destruct b, b0.
  - apply Z.eqb_sym.
  - apply Z.eqb_sym.
  - apply Z.eqb_sym.
  - apply String.eqb_sym.
Qed.

Lemma distinct_keys_snoc (ids : list value) (x : value) :
  Ingest.distinct_keys ids ->
  existsb (key_eqb x) ids = false ->
  Ingest.distinct_keys (ids ++ [x]).
Proof.
  induction ids as [|i ids IH]; cbn [Ingest.distinct_keys existsb app].
  - intros _ _. split; [reflexivity | exact I].
  - intros [Hi Hd] Hx. apply orb_false_iff in Hx. destruct Hx as [Hxi Hx].
    split; [|now apply IH].
    rewrite existsb_app, Hi. cbn [existsb orb]. now rewrite key_eqb_sym, Hxi.
Qed.

Lemma ids_of_app (a b : list value) :
  Ingest.ids_of (a ++ b) = (Ingest.ids_of a ++ Ingest.ids_of b)%list.
Proof. apply map_app. Qed.

(** The loop over one page. *)
Lemma select_invariant (w : Ingest.world) (evs : list Ingest.event) (cuisine : string)
    (businesses : list value) :
  forall (t : Ingest.tally) (new_items : list value) (t' : Ingest.tally)
         (new_items' : list value),
    Ingest.select w evs cuisine businesses t new_items = Ok (t', new_items') ->
    (Ingest.total_added t < Ingest.TARGET_PER_CUISINE)%Z ->
    exists added,
      new_items' = (new_items ++ added)%list /\
      Ingest.have t' = (Ingest.have t ++ Ingest.ids_of added)%list /\
      Ingest.total_added t' = (Ingest.total_added t + Z.of_nat (List.length added))%Z /\
      (Ingest.total_added t' <= Ingest.TARGET_PER_CUISINE)%Z /\
      Forall (Ingest.stored_for cuisine) added /\
      (Ingest.distinct_keys (Ingest.have t) -> Ingest.distinct_keys (Ingest.have t')).
Proof.
  induction businesses as [|biz rest IH]; intros t new_items t' new_items' H Lt.
  - cbn [Ingest.select] in H. inversion H; subst. exists [].
    rewrite !app_nil_r. cbn [List.length]. repeat split; try lia; auto.
  - cbn [Ingest.select] in H.
    destruct (Ingest.is_manhattan w biz) as [[|]|] eqn:M; cbn [rbind negb] in H;
      [|now apply (IH _ _ _ _ H) | discriminate].
    destruct (getitem biz "id") as [bid|] eqn:B; cbn [rbind] in H; [|discriminate].
    unfold Builtins.is_key in H.
    destruct (hashable bid); cbn [rbind] in H; [|discriminate].
    destruct (existsb (key_eqb bid) (Ingest.have t)) eqn:Seen;
      [now apply (IH _ _ _ _ H)|].
    destruct (Ingest.to_ddb_item w evs biz cuisine) as [item|] eqn:T; cbn [rbind] in H;
      [|discriminate].
    destruct (stored_item w evs biz cuisine item M T) as [St Id].
    rewrite B in Id. injection Id as Ib.
    cbn [Ingest.total_added] in H.
    destruct (Z.leb_spec Ingest.TARGET_PER_CUISINE (Ingest.total_added t + 1)) as [Full | Room].
    + injection H as <- <-. exists [item].
      cbn [Ingest.have Ingest.total_added Ingest.ids_of map List.length].
      split; [reflexivity|]. split; [now rewrite <- Ib|]. split; [lia|]. split; [lia|].
      split; [now constructor|]. intros D. now apply distinct_keys_snoc.
    + destruct (IH _ _ _ _ H) as [added [E1 [E2 [E3 [E4 [E5 E6]]]]]];
        [cbn [Ingest.total_added]; lia|].
      cbn [Ingest.have Ingest.total_added] in *.
      exists (item :: added). rewrite E1, E2, E3.
      cbn [Ingest.ids_of map List.length]. rewrite <- !app_assoc. cbn [app].
      split; [reflexivity|]. split; [now rewrite <- Ib|]. split; [lia|].
      split; [lia|]. split; [now constructor|].
      intros D. rewrite E2 in E6. rewrite <- app_assoc in E6. cbn [app] in E6.
      apply E6. now apply distinct_keys_snoc.
Qed.

Lemma gets_are_requests (cuisine : string) (off : Z) (rest : list Z)
    (new : list Ingest.event) (k : nat) :
  filter Ingest.is_get new =
    repeat (Ingest.Get (cuisine ++ " restaurants") Ingest.LOCATION Ingest.LIMIT off) k ->
  Forall (Ingest.page_request cuisine (off :: rest)) new.
Proof.
  intros G. apply Forall_forall. intros e He.
  destruct e as [term location limit offset | |]; cbn [Ingest.page_request]; trivial.
  assert (Hf : In (Ingest.Get term location limit offset) (filter Ingest.is_get new))
    by (apply filter_In; split; [exact He | reflexivity]).
  rewrite G in Hf. apply repeat_spec in Hf. inversion Hf; subst.
  repeat split; trivial. now left.
Qed.

Lemma page_request_later (cuisine : string) (off : Z) (rest : list Z)
    (new : list Ingest.event) :
  Forall (Ingest.page_request cuisine rest) new ->
  Forall (Ingest.page_request cuisine (off :: rest)) new.
Proof.
  apply Forall_impl. intros [term location limit offset | |]; cbn [Ingest.page_request];
    trivial.
  intros [A [B [C D]]]. repeat split; trivial. now right.
Qed.

Lemma batch_write_log (w : Ingest.world) (items : list value) (evs : list Ingest.event) :
  exists wr,
    snd (Ingest.batch_write w items evs) = (evs ++ wr)%list /\
    Ingest.written wr = items /\
    filter Ingest.is_get wr = [] /\
    (forall cuisine offsets, Forall (Ingest.page_request cuisine offsets) wr).
Proof.
  destruct items as [|i items].
  - exists []. cbn [Ingest.batch_write Ingest.yret snd]. rewrite app_nil_r.
    repeat split; constructor.
  - exists [Ingest.BatchWrite (i :: items)]. cbn [Ingest.batch_write snd].
    split; [reflexivity|]. split; [cbn [Ingest.written]; now rewrite app_nil_r|].
    split; [reflexivity|]. intros. repeat constructor.
Qed.

(** The loop over the pages. *)
Lemma pages_invariant (w : Ingest.world) (cuisine : string) (offsets : list Z) :
  forall (t : Ingest.tally) (evs : list Ingest.event),
    (Ingest.total_added t < Ingest.TARGET_PER_CUISINE)%Z ->
    exists new,
      snd (Ingest.pages w cuisine offsets t evs) = (evs ++ new)%list /\
      (List.length (filter Ingest.is_get new) <= 3 * List.length offsets)%nat /\
      Forall (Ingest.page_request cuisine offsets) new /\
      Forall (Ingest.stored_for cuisine) (Ingest.written new) /\
      (Ingest.total_added t + Z.of_nat (List.length (Ingest.written new))
       <= Ingest.TARGET_PER_CUISINE)%Z /\
      (Ingest.distinct_keys (Ingest.have t) ->
       Ingest.distinct_keys (Ingest.have t ++ Ingest.ids_of (Ingest.written new))) /\
      (forall t',
         fst (Ingest.pages w cuisine offsets t evs) = Ok t' ->
         Ingest.have t' = (Ingest.have t ++ Ingest.ids_of (Ingest.written new))%list /\
         Ingest.total_added t' =
           (Ingest.total_added t + Z.of_nat (List.length (Ingest.written new)))%Z).
Proof.
  induction offsets as [|off rest IH]; intros t evs Lt.
  - exists []. cbn [Ingest.pages Ingest.yret fst snd Ingest.written Ingest.ids_of map
                    List.length filter].
    rewrite !app_nil_r.
    split; [reflexivity|]. split; [lia|]. split; [constructor|]. split; [constructor|].
    split; [lia|]. split; [trivial|].
    intros t' H. inversion H; subst. split; [reflexivity | lia].
  - pose (Q := fun p : result Ingest.tally * list Ingest.event =>
      exists new,
        snd p = (evs ++ new)%list /\
        (List.length (filter Ingest.is_get new) <= 3 * List.length (off :: rest))%nat /\
        Forall (Ingest.page_request cuisine (off :: rest)) new /\
        Forall (Ingest.stored_for cuisine) (Ingest.written new) /\
        (Ingest.total_added t + Z.of_nat (List.length (Ingest.written new))
         <= Ingest.TARGET_PER_CUISINE)%Z /\
        (Ingest.distinct_keys (Ingest.have t) ->
         Ingest.distinct_keys (Ingest.have t ++ Ingest.ids_of (Ingest.written new))) /\
        (forall t',
           fst p = Ok t' ->
           Ingest.have t' = (Ingest.have t ++ Ingest.ids_of (Ingest.written new))%list /\
           Ingest.total_added t' =
             (Ingest.total_added t + Z.of_nat (List.length (Ingest.written new)))%Z)).
    enough (HQ : Q (Ingest.pages w cuisine (off :: rest) t evs)) by exact HQ.
    destruct (yelp_search_log w (cuisine ++ " restaurants") Ingest.LOCATION Ingest.LIMIT
                off evs) as [n1 [k [L1 [K [G1 [W1 _]]]]]].
    pose proof (gets_are_requests cuisine off rest n1 k G1) as R1.
    assert (C1 : (List.length (filter Ingest.is_get n1) <= 3)%nat)
      by (rewrite G1, repeat_length; lia).
    assert (Stop : forall x : exn, Q (Raise x, (evs ++ n1)%list)).
    { intros x. exists n1. rewrite W1. cbn [fst snd Ingest.ids_of map List.length].
      rewrite app_nil_r.
      split; [reflexivity|]. split; [lia|]. split; [exact R1|].
      split; [constructor|]. split; [lia|]. split; [trivial | discriminate]. }
    assert (Skip : Q (Ingest.pages w cuisine rest t (evs ++ n1)%list)).
    { destruct (IH t (evs ++ n1)%list Lt) as [n2 [L2 [C2 [R2 [S2 [T2 [D2 F2]]]]]]].
      exists (n1 ++ n2)%list. rewrite L2, filter_app, length_app, written_app, W1.
      cbn [app List.length] in *.
      split; [now rewrite app_assoc|]. split; [lia|].
      split; [apply Forall_app; split; [exact R1 | now apply page_request_later]|].
      split; [exact S2|]. split; [exact T2|]. split; [exact D2 | exact F2]. }
    cbn [Ingest.pages]. unfold Ingest.ybind, Ingest.ylift.
    destruct (Ingest.yelp_search w (cuisine ++ " restaurants") Ingest.LOCATION Ingest.LIMIT
                off evs) as [[data | x] evs1]; cbn [snd] in L1; subst evs1;
      [|apply Stop].
    destruct (get data "businesses" VNone) as [found | x]; [|apply Stop].
    destruct (truthy (por found (VList []))); cbn [negb]; [|exact Skip].
    destruct (iter (por found (VList []))) as [listed | x]; [|apply Stop].
    destruct (Ingest.select w (evs ++ n1)%list cuisine listed t []) as [[t1 items] | x] eqn:Sel;
      [|apply Stop].
    destruct (select_invariant w (evs ++ n1)%list cuisine listed t [] t1 items Sel Lt)
      as [added [Ea [Eh [Et [Tt [St Di]]]]]].
    cbn [app] in Ea. subst added.
    destruct (batch_write_log w items (evs ++ n1)%list) as [wr [Lw [Ww [Gw Rw]]]].
    destruct (Ingest.batch_write w items (evs ++ n1)%list) as [[[] | x] evs2];
      cbn [snd] in Lw; subst evs2.
    + destruct (Z.leb_spec Ingest.TARGET_PER_CUISINE (Ingest.total_added t1)) as [Full | Room].
      * exists (n1 ++ wr)%list. cbn [Ingest.yret fst snd].
        rewrite filter_app, length_app, written_app, W1, Gw, Ww.
        cbn [app List.length].
        split; [now rewrite app_assoc|]. split; [lia|].
        split; [apply Forall_app; split; [exact R1 | apply Rw]|].
        split; [exact St|]. split; [lia|].
        split; [intros D; rewrite <- Eh; now apply Di|].
        intros t' H. inversion H; subst t'. split; [exact Eh | exact Et].
      * unfold Ingest.sleep.
        destruct (IH t1 (((evs ++ n1) ++ wr) ++ [Ingest.Sleep Ingest.SLEEP_SEC])%list Room)
          as [n2 [L2 [C2 [R2 [S2 [T2 [D2 F2]]]]]]].
        exists (n1 ++ wr ++ Ingest.Sleep Ingest.SLEEP_SEC :: n2)%list.
        rewrite L2.
        rewrite !filter_app, !length_app, !written_app, W1, Gw, Ww.
        cbn [filter Ingest.is_get Ingest.written app List.length].
        rewrite ids_of_app, length_app.
        split; [now rewrite <- !app_assoc|]. split; [lia|].
        split; [apply Forall_app; split; [exact R1|];
                apply Forall_app; split; [apply Rw|];
                constructor; [exact I | now apply page_request_later]|].
        split; [apply Forall_app; split; [exact St | exact S2]|].
        split; [lia|].
        split; [intros D; rewrite app_assoc, <- Eh; apply D2; now apply Di|].
        intros t' H. destruct (F2 t' H) as [Fh Ft].
        split; [rewrite Fh, Eh; now rewrite <- app_assoc | lia].
    + exists (n1 ++ wr)%list. cbn [fst snd].
      rewrite filter_app, length_app, written_app, W1, Gw, Ww.
      cbn [app List.length].
      split; [now rewrite app_assoc|]. split; [lia|].
      split; [apply Forall_app; split; [exact R1 | apply Rw]|].
      split; [exact St|]. split; [lia|].
      split; [intros D; rewrite <- Eh; now apply Di | discriminate].
Qed.

Lemma collect_log (w : Ingest.world) (cuisine : string) (evs : list Ingest.event) :
  exists new,
    snd (Ingest.collect_for_cuisine w cuisine evs) = (evs ++ new)%list /\
    (List.length (filter Ingest.is_get new) <= 12)%nat /\
    Forall (Ingest.page_request cuisine [0; 50; 100; 150]%Z) new /\
    Forall (Ingest.stored_for cuisine) (Ingest.written new) /\
    Ingest.distinct_keys (Ingest.ids_of (Ingest.written new)) /\
    (List.length (Ingest.written new) <= 200)%nat /\
    (forall n,
       fst (Ingest.collect_for_cuisine w cuisine evs) = Ok n ->
       n = Z.of_nat (List.length (Ingest.written new))).
Proof.
  unfold Ingest.collect_for_cuisine, Ingest.ybind.
  destruct (pages_invariant w cuisine Ingest.OFFSETS
              {| Ingest.have := []; Ingest.total_added := 0 |} evs eq_refl)
    as [new [L [C [R [S [T [D F]]]]]]].
  cbn [Ingest.have Ingest.total_added app] in *.
  exists new.
  destruct (Ingest.pages w cuisine Ingest.OFFSETS
              {| Ingest.have := []; Ingest.total_added := 0 |} evs) as [[t' | x] evs'];
    cbn [fst snd Ingest.yret] in *; subst evs'.
  - split; [reflexivity|]. split; [exact C|]. split; [exact R|]. split; [exact S|].
    split; [now apply D|].
    split; [unfold Ingest.TARGET_PER_CUISINE in T; lia|].
    intros n H. inversion H; subst n. destruct (F t' eq_refl) as [_ Ft]. lia.
  - split; [reflexivity|]. split; [exact C|]. split; [exact R|]. split; [exact S|].
    split; [now apply D|].
    split; [unfold Ingest.TARGET_PER_CUISINE in T; lia | discriminate].
Qed.

(** X24: collecting one cuisine asks for the four pages at offsets 0, 50,
    100 and 150 at most, with at most twelve requests in all; whether it
    ends or raises, every item it has written carries that cuisine, a zip
    code starting (once trimmed) with 100, 101 or 102, and a text as
    address; no two of them have the same business identifier; there are at
    most 200 of them, and the number it returns is their number. *)
Theorem X24_collect_for_cuisine (w : Ingest.world) (cuisine : string)
    (evs : list Ingest.event) :
  exists new,
    snd (Ingest.collect_for_cuisine w cuisine evs) = (evs ++ new)%list /\
    (List.length (filter Ingest.is_get new) <= 12)%nat /\
    Forall (Ingest.page_request cuisine [0; 50; 100; 150]%Z) new /\
    Forall (Ingest.stored_for cuisine) (Ingest.written new) /\
    Ingest.distinct_keys (Ingest.ids_of (Ingest.written new)) /\
    (List.length (Ingest.written new) <= 200)%nat /\
    (forall n,
       fst (Ingest.collect_for_cuisine w cuisine evs) = Ok n ->
       n = Z.of_nat (List.length (Ingest.written new))).
Proof.
  exact (collect_log w cuisine evs).
Qed.

Lemma for_cuisines_log (w : Ingest.world) (cuisines : list string) :
  forall (total : Z) (evs : list Ingest.event),
    exists new,
      snd (Ingest.for_cuisines w cuisines total evs) = (evs ++ new)%list /\
      (List.length (filter Ingest.is_get new) <= 12 * List.length cuisines)%nat /\
      (List.length (Ingest.written new) <= 200 * List.length cuisines)%nat /\
      Forall (fun item => exists c, In c cuisines /\ Ingest.stored_for c item)
             (Ingest.written new) /\
      (forall n,
         fst (Ingest.for_cuisines w cuisines total evs) = Ok n ->
         n = (total + Z.of_nat (List.length (Ingest.written new)))%Z).
Proof.
  induction cuisines as [|c rest IH]; intros total evs.
  - exists []. cbn [Ingest.for_cuisines Ingest.yret fst snd Ingest.written List.length filter].
    rewrite app_nil_r. split; [reflexivity|]. split; [lia|]. split; [lia|].
    split; [constructor|]. intros n H. inversion H. lia.
  - cbn [Ingest.for_cuisines]. unfold Ingest.ybind.
    destruct (collect_log w c evs) as [n1 [L1 [C1 [_ [S1 [_ [T1 F1]]]]]]].
    assert (S1' : Forall (fun item => exists c0, In c0 (c :: rest) /\ Ingest.stored_for c0 item)
                    (Ingest.written n1)).
    { revert S1. apply Forall_impl. intros item H. exists c. split; [now left | exact H]. }
    destruct (Ingest.collect_for_cuisine w c evs) as [[added | x] evs1];
      cbn [fst snd] in *; subst evs1.
    + destruct (IH (total + added)%Z (evs ++ n1)%list) as [n2 [L2 [C2 [T2 [S2 F2]]]]].
      exists (n1 ++ n2)%list. rewrite L2, filter_app, written_app, !length_app.
      cbn [List.length].
      split; [now rewrite app_assoc|]. split; [lia|]. split; [lia|].
      split.
      * apply Forall_app. split; [exact S1'|].
        revert S2. apply Forall_impl. intros item [c0 [I0 H0]].
        exists c0. split; [now right | exact H0].
      * intros n H. rewrite (F2 n H), (F1 added eq_refl). lia.
    + exists n1. cbn [List.length].
      split; [reflexivity|]. split; [lia|]. split; [lia|]. split; [exact S1' | discriminate].
Qed.

(** X25: a whole run makes at most sixty requests and writes at most a
    thousand items, each for one of the five cuisines; the number it prints
    at the end is the number of items written.  It is not the number of
    restaurants in the table: identifiers are only compared within a
    cuisine, and a business the API lists under every cuisine is written
    once for each. *)
Theorem X25_main_counts_writes :
  (forall (w : Ingest.world) (evs : list Ingest.event),
     exists new,
       snd (Ingest.main w evs) = (evs ++ new)%list /\
       (List.length (filter Ingest.is_get new) <= 60)%nat /\
       (List.length (Ingest.written new) <= 1000)%nat /\
       Forall (fun item => exists c, In c Ingest.CUISINES /\ Ingest.stored_for c item)
              (Ingest.written new) /\
       (forall n,
          fst (Ingest.main w evs) = Ok n ->
          n = Z.of_nat (List.length (Ingest.written new)))) /\
  (exists w,
     fst (Ingest.main w []) = Ok 10%Z /\
     List.length (filter (key_eqb (VStr "a"))
                    (Ingest.ids_of (Ingest.written (snd (Ingest.main w []))))) = 5%nat).
Proof.
  split.
  - intros w evs. unfold Ingest.main.
    destruct (for_cuisines_log w Ingest.CUISINES 0%Z evs) as [new [L [C [T [S F]]]]].
    exists new. split; [exact L|]. split; [exact C|]. split; [exact T|].
    split; [exact S|]. intros n H. rewrite (F n H). lia.
  - exists Ingest.same_page. split; vm_compute; reflexivity.
Qed.
